(** * Reva backend (server.js): response interpretation and tool dispatch

    A shallow embedding of the engine of [server.js]: the identifier
    generator with its fallback chain, the error classifier, the tool
    dispatcher with its nine tools, the response parser, the chat route
    handler, the prompt builder and the earlier version of the generator,
    followed by the properties proved of them.

    Conventions of the embedding.
    - A JavaScript value produced by [JSON.parse] (or built by an object
      literal of the source) is a [JSVal]; numbers are IEEE-754 doubles
      ([PrimFloat.float]), objects are finite maps from property names.
      The order of the keys of an object is not represented: the source
      never observes it.
    - A string is the sequence of the bytes of its UTF-8 encoding.  Every
      character the source inspects (braces, hexadecimal digits, hyphens,
      the letters of the identity phrases, white space) is ASCII or has a
      fixed encoding, so the functions below agree with the source on
      well-formed text.
    - Exceptions are explicit ([Throw]); the random sources, the clock and
      the built-ins of the platform whose result the source does not
      determine are fields of a [Platform], and the number of draws made
      of each is the state ([Tape]) threaded through the code.
    - Calls of [console.*] are left out, and with them the reads of the
      clock made for a log only; what is kept of them is the conversion of
      a value to a string that a template literal in their argument
      performs, because that conversion can throw. *)

From Stdlib Require Import Floats ZArith String Ascii List Bool Lia.
From Stdlib Require Import Decimal DecimalString.
From stdpp Require Import base option list gmap strings.
Import ListNotations.

Open Scope string_scope.

(** ** JavaScript values *)

#[local] Set Warnings "-register-all,-inexact-float".

Inductive JSVal : Type :=
| JUndefined
| JNull
| JBool (b : bool)
| JNum (x : float)
| JStr (s : string)
| JArr (xs : list JSVal)
| JObj (m : gmap string JSVal).

(** [!v] is [negb (truthy v)]. *)
Definition truthy (v : JSVal) : bool :=
  match v with
  | JUndefined | JNull => false
  | JBool b => b
  | JNum x => negb (PrimFloat.is_zero x || PrimFloat.is_nan x)
  | JStr s => negb (String.eqb s "")
  | JArr _ | JObj _ => true
  end.

(** [a || b] *)
Definition jsOr (a b : JSVal) : JSVal := if truthy a then a else b.
Infix "|||" := jsOr (at level 50, left associativity).

(** [typeof v] *)
Definition typeof (v : JSVal) : string :=
  match v with
  | JUndefined => "undefined"
  | JNull => "object"
  | JBool _ => "boolean"
  | JNum _ => "number"
  | JStr _ => "string"
  | JArr _ | JObj _ => "object"
  end.

Definition nullish (v : JSVal) : bool :=
  match v with JUndefined | JNull => true | _ => false end.

(** [v.k] for [v] neither [null] nor [undefined], and [k] one of the
    property names the source reads (none of which is defined on a
    prototype): the own property of an object, [undefined] otherwise. *)
Definition get (v : JSVal) (k : string) : JSVal :=
  match v with
  | JObj m => default JUndefined (m !! k)
  | _ => JUndefined
  end.

(** An object literal. *)
Definition obj (l : list (string * JSVal)) : JSVal := JObj (list_to_map l).

(** [{...v}]: the own enumerable properties of [v].  The source spreads
    only values that have a string-valued property [item], which are
    objects. *)
Definition spread (v : JSVal) : gmap string JSVal :=
  match v with JObj m => m | _ => ∅ end.

(** [v === 'lit'], and [v === undefined] *)
Definition strictEqStr (v : JSVal) (lit : string) : bool :=
  match v with JStr s => String.eqb s lit | _ => false end.

Definition isUndefined (v : JSVal) : bool :=
  match v with JUndefined => true | _ => false end.

(** [typeof v !== 'number' || v <= 0] and the like compare doubles. *)
Definition numLe0 (v : JSVal) : bool :=
  match v with JNum x => PrimFloat.leb x 0 | _ => false end.
Definition numLt0 (v : JSVal) : bool :=
  match v with JNum x => PrimFloat.ltb x 0 | _ => false end.

(** ** Strings *)

Definition lowerChar (c : ascii) : ascii :=
  let n := nat_of_ascii c in
  if (65 <=? n)%nat && (n <=? 90)%nat then ascii_of_nat (n + 32) else c.

(** [s.toLowerCase()] on the letters A-Z.  The two characters outside
    ASCII whose lower case contains an ASCII letter (U+212A, U+0130)
    neither create nor complete one of the phrases searched for below. *)
Fixpoint toLowerCase (s : string) : string :=
  match s with
  | EmptyString => EmptyString
  | String c s' => String (lowerChar c) (toLowerCase s')
  end.

(** [hay.includes(needle)] *)
Fixpoint includes (hay needle : string) : bool :=
  String.prefix needle hay ||
  match hay with
  | EmptyString => false
  | String _ hay' => includes hay' needle
  end.

(** White space and line terminators of ECMAScript, as UTF-8 byte
    sequences: TAB, LF, VT, FF, CR, SP, U+00A0, U+1680, U+2000..U+200A,
    U+2028, U+2029, U+202F, U+205F, U+3000, U+FEFF. *)
Definition bytes (l : list nat) : string :=
  string_of_list_ascii (map ascii_of_nat l).

Definition whiteSpace : list string :=
  map bytes
    ([[9]; [10]; [11]; [12]; [13]; [32]; [194; 160]; [225; 154; 128]]
     ++ map (fun k => [226; 128; 128 + k]) (seq 0 11)
     ++ [[226; 128; 168]; [226; 128; 169]; [226; 128; 175];
         [226; 129; 159]; [227; 128; 128]; [239; 187; 191]])%nat%list.

Definition dropPrefix (p s : string) : option string :=
  if String.prefix p s
  then Some (String.substring (String.length p) (String.length s - String.length p) s)
  else None.

Definition dropWhite (ws : list string) (s : string) : option string :=
  List.fold_right (fun p acc => match dropPrefix p s with Some r => Some r | None => acc end)
    None ws.

Fixpoint trimStartFuel (ws : list string) (fuel : nat) (s : string) : string :=
  match fuel with
  | O => s
  | S fuel' =>
      match dropWhite ws s with
      | Some r => trimStartFuel ws fuel' r
      | None => s
      end
  end.

Definition trimStart (s : string) : string :=
  trimStartFuel whiteSpace (String.length s) s.

Definition trimEnd (s : string) : string :=
  String.rev (trimStartFuel (map String.rev whiteSpace) (String.length s) (String.rev s)).

(** [s.trim()] *)
Definition trim (s : string) : string := trimEnd (trimStart s).

(** Decimal rendering of a loop index, as in [`Expense ${i + 1}`]. *)
Definition natToString (n : nat) : string := NilEmpty.string_of_uint (Nat.to_uint n).

(** ** The two regular expressions of the source *)

(** *** [/^[0-9a-f]{8}-[0-9a-f]{4}-4[0-9a-f]{3}-[89ab][0-9a-f]{3}-[0-9a-f]{12}$/i] *)

Inductive CharClass : Type :=
| Hex          (* [0-9a-f] under the flag i *)
| Variant      (* [89ab] under the flag i *)
| Lit (c : ascii).

(** The value of a hexadecimal digit, in either case. *)
Definition nibble (c : ascii) : option nat :=
  let n := nat_of_ascii c in
  if (48 <=? n)%nat && (n <=? 57)%nat then Some (n - 48)%nat
  else if (97 <=? n)%nat && (n <=? 102)%nat then Some (n - 87)%nat
  else if (65 <=? n)%nat && (n <=? 70)%nat then Some (n - 55)%nat
  else None.

Definition classMatches (cl : CharClass) (c : ascii) : bool :=
  match cl with
  | Hex => match nibble c with Some _ => true | None => false end
  | Variant => match nibble c with Some v => (8 <=? v)%nat && (v <=? 11)%nat | None => false end
  | Lit d => Ascii.eqb d c
  end.

(** An anchored match ([^] ... [$], no flag m) of a sequence of classes. *)
Fixpoint matchExact (p : list CharClass) (s : string) : bool :=
  match p, s with
  | [], EmptyString => true
  | cl :: p', String c s' => classMatches cl c && matchExact p' s'
  | _, _ => false
  end.

Definition uuidRegex : list CharClass :=
  repeat Hex 8 ++ [Lit "-"] ++ repeat Hex 4 ++ [Lit "-"; Lit "4"] ++ repeat Hex 3
  ++ [Lit "-"; Variant] ++ repeat Hex 3 ++ [Lit "-"] ++ repeat Hex 12.

Definition uuidRegex_test (s : string) : bool := matchExact uuidRegex s.

(** [isValidUUID(uuid)] *)
Definition isValidUUID (uuid : JSVal) : bool :=
  match uuid with
  | JStr s => uuidRegex_test s
  | _ => false
  end.

(** *** [/\{[\s\S]*\}/]

    A backtracking matcher for patterns made of literal characters and of
    the greedy [[\s\S]*], searched from the leftmost starting position as
    [String.prototype.match] does. *)

Inductive Item : Type :=
| Ch (c : ascii)
| AnyStar.

(** Greedy iteration: take one more character if the rest of the pattern
    still matches afterwards, give it back otherwise.  The result is the
    number of characters matched. *)
Fixpoint greedyAny (k : string -> option nat) (s : string) : option nat :=
  match s with
  | EmptyString => k EmptyString
  | String _ s' =>
      match greedyAny k s' with
      | Some n => Some (S n)
      | None => k s
      end
  end.

Fixpoint matchHere (p : list Item) (s : string) : option nat :=
  match p with
  | [] => Some O
  | Ch c :: p' =>
      match s with
      | String d s' => if Ascii.eqb c d then option_map S (matchHere p' s') else None
      | EmptyString => None
      end
  | AnyStar :: p' => greedyAny (matchHere p') s
  end.

Fixpoint regexMatch (p : list Item) (s : string) : option string :=
  match matchHere p s with
  | Some n => Some (String.substring 0 n s)
  | None =>
      match s with
      | EmptyString => None
      | String _ s' => regexMatch p s'
      end
  end.

Definition braceRegex : list Item := [Ch "{"; AnyStar; Ch "}"].

(** ** Exceptions, platform and state *)

(** An [Error] object: its message and the own properties the source sets
    on it ([code], [tool], [params], ...). *)
Record JSError : Type := mkJSError {
  message : string;
  props : gmap string JSVal
}.

(** [new Error(msg)] *)
Definition newError (msg : string) : JSError := {| message := msg; props := ∅ |}.

(** [e.k = v] *)
Definition setProp (k : string) (v : JSVal) (e : JSError) : JSError :=
  {| message := message e; props := <[k := v]> (props e) |}.

(** [e.k] *)
Definition errProp (e : JSError) (k : string) : JSVal :=
  default JUndefined (props e !! k).

(** [new Error(msg)] followed by [error.code = c] *)
Definition codedError (msg c : string) : JSError :=
  setProp "code" (JStr c) (newError msg).

Inductive Result (A : Type) : Type :=
| Ok (a : A)
| Throw (e : JSError).
Arguments Ok {A} a.
Arguments Throw {A} e.

(** What the source takes from its platform.  The [k]-th call of a random
    source or of the clock is the value of the field at [k]; nothing is
    assumed of these values, so a generator that misbehaves (as the mocks
    of the test suite do) is one of the platforms quantified over. *)
Record Platform : Type := {
  (** [JSON.parse]; [None] is a [SyntaxError]. *)
  JSON_parse : string -> option JSVal;
  (** [uuidv4()] of the uuid package. *)
  uuid_v4 : nat -> Result string;
  (** [require('crypto').randomBytes(16)] *)
  crypto_randomBytes : nat -> Result (list Z);
  (** [Math.random()] *)
  Math_random : nat -> Result float;
  (** [Date.now()] and [new Date().toISOString()] *)
  Date_now : nat -> float;
  Date_toISOString : nat -> string;
  (** [isNaN(new Date(v).getTime())]; [None] when [v] is an object that
      cannot be converted to a primitive value, a [TypeError]. *)
  Date_isNaN : JSVal -> option bool;
  (** [String(x)] for a number [x] *)
  Number_toString : float -> string;
  (** [process.env.NODE_ENV === 'development'] and [error.stack] *)
  NODE_ENV_development : bool;
  Error_stack : JSError -> string
}.

Record Tape : Type := {
  uuidCalls : nat;
  byteCalls : nat;
  randomCalls : nat;
  clockReads : nat
}.

Definition M (A : Type) : Type := Tape -> Result A * Tape.

Definition ret {A} (a : A) : M A := fun t => (Ok a, t).

Definition throw {A} (e : JSError) : M A := fun t => (Throw e, t).

Definition bind {A B} (m : M A) (k : A -> M B) : M B :=
  fun t =>
    match m t with
    | (Ok a, t') => k a t'
    | (Throw e, t') => (Throw e, t')
    end.

(** [try { m } catch (e) { h e }]: what [m] consumed stays consumed. *)
Definition try_catch {A} (m : M A) (h : JSError -> M A) : M A :=
  fun t =>
    match m t with
    | (Ok a, t') => (Ok a, t')
    | (Throw e, t') => h e t'
    end.

Definition lift {A} (r : Result A) : M A := fun t => (r, t).

Notation "x <- m ;; k" := (bind m (fun x => k))
  (at level 100, m at next level, k at level 200, right associativity).
Notation "m ;;; k" := (bind m (fun _ => k))
  (at level 100, k at level 200, right associativity).

(** [TypeError]s of the engine, with the messages of V8. *)
Definition typeError (msg : string) : JSError := newError msg.

(** Reading property [k] of [v] throws when [v] is [null] or [undefined]. *)
Definition readable (v : JSVal) (k : string) : M unit :=
  match v with
  | JUndefined =>
      throw (typeError ("Cannot read properties of undefined (reading '" ++ k ++ "')"))
  | JNull =>
      throw (typeError ("Cannot read properties of null (reading '" ++ k ++ "')"))
  | _ => ret tt
  end.

(** [v.trim()], where [v] is known not to be [null] or [undefined]. *)
Definition callTrim (path : string) (v : JSVal) : M JSVal :=
  match v with
  | JStr s => ret (JStr (trim s))
  | _ => throw (typeError (path ++ ".trim is not a function"))
  end.

Section Engine.

Variable P : Platform.

Definition uuidv4 : M string :=
  fun t =>
    (uuid_v4 P (uuidCalls t),
     {| uuidCalls := S (uuidCalls t); byteCalls := byteCalls t;
        randomCalls := randomCalls t; clockReads := clockReads t |}).

Definition randomBytes16 : M (list Z) :=
  fun t =>
    (crypto_randomBytes P (byteCalls t),
     {| uuidCalls := uuidCalls t; byteCalls := S (byteCalls t);
        randomCalls := randomCalls t; clockReads := clockReads t |}).

Definition mathRandom : M float :=
  fun t =>
    (Math_random P (randomCalls t),
     {| uuidCalls := uuidCalls t; byteCalls := byteCalls t;
        randomCalls := S (randomCalls t); clockReads := clockReads t |}).

Definition tick (t : Tape) : Tape :=
  {| uuidCalls := uuidCalls t; byteCalls := byteCalls t;
     randomCalls := randomCalls t; clockReads := S (clockReads t) |}.

Definition dateNow : M float := fun t => (Ok (Date_now P (clockReads t)), tick t).

Definition isoNow : M string := fun t => (Ok (Date_toISOString P (clockReads t)), tick t).

(** ** Identifier generator *)

Definition hexDigit (d : Z) : string :=
  String.substring (Z.to_nat d) 1 "0123456789abcdef".

(** Two digits per byte, as [Buffer.prototype.toString('hex')]. *)
Definition hexByte (b : Z) : string :=
  hexDigit ((b mod 256) / 16)%Z ++ hexDigit (b mod 16)%Z.

Definition bufferToHex (buf : list Z) : string :=
  List.fold_right (fun b acc => hexByte b ++ acc) "" buf.

(** [buf[i]] used as an operand of [&]: a missing element counts as 0. *)
Definition byteAt (buf : list Z) (i : nat) : Z := default 0%Z (buf !! i).

(** [s.substring(a, b)] for [a <= b] *)
Definition jsSubstring (a b : nat) (s : string) : string := String.substring a (b - a) s.

Fixpoint joinWith (sep : string) (l : list string) : string :=
  match l with
  | [] => ""
  | [x] => x
  | x :: rest => x ++ sep ++ joinWith sep rest
  end.

(** The integer part of a double, and [x | 0]. *)
Definition truncate (x : float) : Z :=
  match Prim2SF x with
  | S754_finite s m e =>
      let a := if (0 <=? e)%Z then (Z.pos m * 2 ^ e)%Z else (Z.pos m / 2 ^ (- e))%Z in
      if s then (- a)%Z else a
  | _ => 0%Z
  end.

Definition ToInt32 (x : float) : Z :=
  let n := (truncate x mod 2 ^ 32)%Z in
  if (2 ^ 31 <=? n)%Z then (n - 2 ^ 32)%Z else n.

Fixpoint hexOfPos (fuel : nat) (n : Z) : string :=
  match fuel with
  | O => ""
  | S fuel' =>
      if (n <? 16)%Z then hexDigit n
      else hexOfPos fuel' (n / 16) ++ hexDigit (n mod 16)
  end.

(** [v.toString(16)] for an integer [v] of 32 bits *)
Definition toString16 (v : Z) : string :=
  if (v <? 0)%Z then "-" ++ hexOfPos 9 (- v) else hexOfPos 9 v.

(** ['xxxxxxxx-xxxx-4xxx-yxxx-xxxxxxxxxxxx'.replace(/[xy]/g, c => ...)] *)
Fixpoint replaceXY (template : string) : M string :=
  match template with
  | EmptyString => ret ""
  | String c rest =>
      if Ascii.eqb c "x" || Ascii.eqb c "y" then
        x <- mathRandom ;;
        let r := ToInt32 (x * 16)%float in
        let v := if Ascii.eqb c "x" then r else Z.lor (Z.land r 3) 8 in
        rest' <- replaceXY rest ;;
        ret (toString16 v ++ rest')
      else
        rest' <- replaceXY rest ;;
        ret (String c rest')
  end.

Definition uuidTemplate : string := "xxxxxxxx-xxxx-4xxx-yxxx-xxxxxxxxxxxx".

Definition cryptoCandidate (buf : list Z) : string :=
  let buf := <[6%nat := (Z.lor (Z.land (byteAt buf 6) 15) 64 mod 256)%Z]> buf in
  let buf := <[8%nat := (Z.lor (Z.land (byteAt buf 8) 63) 128 mod 256)%Z]> buf in
  let hex := bufferToHex buf in
  joinWith "-"
    [jsSubstring 0 8 hex; jsSubstring 8 12 hex; jsSubstring 12 16 hex;
     jsSubstring 16 20 hex; jsSubstring 20 32 hex].

Definition generateFallbackUUID : M string :=
  startTime <- dateNow ;;
  try_catch
    (buf <- randomBytes16 ;;
     let fallbackUuid := cryptoCandidate buf in
     if negb (isValidUUID (JStr fallbackUuid)) then
       throw (newError ("Crypto fallback generated invalid UUID: " ++ fallbackUuid))
     else ret fallbackUuid)
    (fun cryptoError =>
       try_catch
         (mathRandomUuid <- replaceXY uuidTemplate ;;
          if negb (isValidUUID (JStr mathRandomUuid)) then
            throw (newError ("Math.random fallback generated invalid UUID: " ++ mathRandomUuid))
          else ret mathRandomUuid)
         (fun mathError =>
            endTime <- dateNow ;;
            timestamp <- isoNow ;;
            throw
              (setProp "timestamp" (JStr timestamp)
                 (setProp "duration" (JNum (endTime - startTime)%float)
                    (setProp "mathError" (JStr (message mathError))
                       (setProp "cryptoError" (JStr (message cryptoError))
                          (codedError "All UUID fallback methods failed"
                             "FALLBACK_UUID_FAILURE"))))))).

Definition generateUUID : M string :=
  try_catch
    (uuid <- uuidv4 ;;
     if negb (uuidRegex_test uuid) then
       throw (setProp "generatedValue" (JStr uuid)
                (codedError "Generated UUID does not match v4 format" "INVALID_UUID_FORMAT"))
     else ret uuid)
    (fun error =>
       try_catch
         generateFallbackUUID
         (fun fallbackError =>
            timestamp <- isoNow ;;
            throw
              (setProp "timestamp" (JStr timestamp)
                 (setProp "fallbackError" (JStr (message fallbackError))
                    (setProp "primaryError" (JStr (message error))
                       (codedError "UUID generation system failure"
                          "UUID_GENERATION_FAILURE")))))).

(** ** Error classifier *)

Definition entityMap : gmap string string :=
  list_to_map
    [("createReminder", "reminder"); ("updateReminder", "reminder");
     ("createTask", "task"); ("updateTask", "task"); ("trackExpenses", "expense");
     ("createGoal", "goal"); ("updateGoal", "goal");
     ("createJournalEntry", "journal entry")].

Definition sectionMap : gmap string string :=
  list_to_map
    [("createReminder", "Reminders"); ("updateReminder", "Reminders");
     ("createTask", "Tasks"); ("updateTask", "Tasks"); ("trackExpenses", "Expenses");
     ("createGoal", "Goals"); ("updateGoal", "Goals");
     ("createJournalEntry", "Journal")].

(** [entityMap[toolName] || 'item'].  The classifier reaches this lookup
    only for an identifier-generation failure, that is with the name of a
    tool that mints identifiers. *)
Definition getEntityName (toolName : JSVal) : string :=
  match toolName with
  | JStr s => default "item" (entityMap !! s)
  | _ => "item"
  end.

Definition getManualSection (toolName : JSVal) : string :=
  match toolName with
  | JStr s => default "appropriate" (sectionMap !! s)
  | _ => "appropriate"
  end.

(** [switch (toolName) { case k: return v; ... default: return d; }] *)
Fixpoint switchStr {A} (toolName : JSVal) (cases : list (string * A)) (d : A) : A :=
  match cases with
  | [] => d
  | (k, v) :: rest => if strictEqStr toolName k then v else switchStr toolName rest d
  end.

Definition getUserFriendlyErrorMessage (toolName : JSVal) (error : JSError) : string :=
  if strictEqStr (errProp error "code") "UUID_GENERATION_FAILURE" then
    "Unable to create " ++ getEntityName toolName ++ " due to system error. Please try again."
  else if strictEqStr (errProp error "code") "INVALID_UUID_FORMAT" then
    "System error occurred while creating " ++ getEntityName toolName ++ ". Please try again."
  else
    switchStr toolName
      [("createReminder", "Unable to create reminder. Please check your input and try again.");
       ("createTask", "Unable to create task. Please check your input and try again.");
       ("trackExpenses", "Unable to track expenses. Please check your input and try again.");
       ("createGoal", "Unable to create goal. Please check your input and try again.");
       ("createJournalEntry",
        "Unable to create journal entry. Please check your input and try again.");
       ("updateReminder", "Unable to update reminder. Please try again.");
       ("updateTask", "Unable to update task. Please try again.");
       ("updateGoal", "Unable to update goal. Please try again.")]
      "An error occurred while processing your request. Please try again.".

Definition getSuggestedAction (toolName : JSVal) (error : JSError) : string :=
  if strictEqStr (errProp error "code") "UUID_GENERATION_FAILURE"
     || strictEqStr (errProp error "code") "INVALID_UUID_FORMAT" then
    "Try creating the " ++ getEntityName toolName ++ " manually in the "
    ++ getManualSection toolName ++ " section."
  else
    switchStr toolName
      [("createReminder", "Try creating the reminder manually in the Reminders section.");
       ("createTask", "Try creating the task manually in the Tasks section.");
       ("trackExpenses", "Try adding the expense manually in the Expenses section.");
       ("createGoal", "Try creating the goal manually in the Goals section.");
       ("createJournalEntry",
        "Try creating the journal entry manually in the Journal section.");
       ("updateReminder", "Try updating the reminder manually in the Reminders section.");
       ("updateTask", "Try updating the task manually in the Tasks section.");
       ("updateGoal", "Try updating the goal manually in the Goals section.")]
      "Please try the operation again or contact support if the issue persists.".

Definition retryableCodes : list string :=
  ["UUID_GENERATION_FAILURE"; "NETWORK_ERROR"; "TIMEOUT_ERROR"; "TEMPORARY_FAILURE"].

(** [retryableCodes.includes(error.code) || error.message.includes('timeout')] *)
Definition isRetryableError (error : JSError) : bool :=
  existsb (strictEqStr (errProp error "code")) retryableCodes
  || includes (message error) "timeout".

(** The conversion to a string made by a template literal.  [None] is the
    [TypeError] of an object whose own property [toString] (a JSON value,
    hence not callable) hides the inherited method. *)
Fixpoint ToString (v : JSVal) : option string :=
  match v with
  | JUndefined => Some "undefined"
  | JNull => Some "null"
  | JBool b => Some (if b then "true" else "false")
  | JNum x => Some (Number_toString P x)
  | JStr s => Some s
  | JArr xs =>
      (fix join (l : list JSVal) : option string :=
         match l with
         | [] => Some ""
         | x :: rest =>
             match (if nullish x then Some "" else ToString x), join rest with
             | Some a, Some b => Some (match rest with [] => a | _ => a ++ "," ++ b end)
             | _, _ => None
             end
         end) xs
  | JObj m =>
      match m !! "toString" with
      | Some _ => None
      | None => Some "[object Object]"
      end
  end.

Definition template (v : JSVal) : M string :=
  match ToString v with
  | Some s => ret s
  | None => throw (typeError "Cannot convert object to primitive value")
  end.

Definition createToolErrorResponse (toolName : JSVal) (error : JSError) (params : JSVal)
  : M JSVal :=
  let friendly := getUserFriendlyErrorMessage toolName error in
  timestamp <- isoNow ;;
  let errorResponse :=
    obj [("error", JBool true);
         ("tool", toolName);
         ("message", JStr friendly);
         ("technicalDetails",
          obj [("errorMessage", JStr (message error));
               ("errorCode", errProp error "code" ||| JStr "UNKNOWN_ERROR");
               ("timestamp", JStr timestamp);
               ("parameters", params);
               ("stack", if NODE_ENV_development P then JStr (Error_stack P error)
                         else JUndefined)]);
         ("suggestedAction", JStr (getSuggestedAction toolName error));
         ("retryable", JBool (isRetryableError error))] in
  (* console.error(`Tool execution error [${toolName}]:`, ...) *)
  template toolName ;;;
  ret errorResponse.

(** ** Tools *)

(** [error.tool = tool; error.params = params; throw error;] *)
Definition annotate (tool : string) (params : JSVal) (error : JSError) : JSError :=
  setProp "params" params (setProp "tool" (JStr tool) error).

(** [!v || typeof v !== 'string'] *)
Definition notNonEmptyString (v : JSVal) : bool :=
  negb (truthy v) || negb (String.eqb (typeof v) "string").

(** [v ? v.trim() : null] *)
Definition trimOrNull (path : string) (v : JSVal) : M JSVal :=
  if truthy v then callTrim path v else ret JNull.

Definition executeCreateTask (params : JSVal) : M JSVal :=
  try_catch
    (readable params "description" ;;;
     if notNonEmptyString (get params "description") then
       throw (codedError "Task description is required and must be a string"
                "INVALID_PARAMETERS")
     else
       taskId <- generateUUID ;;
       if negb (isValidUUID (JStr taskId)) then
         throw (codedError "Generated task ID is invalid" "INVALID_TASK_ID")
       else
         description <- callTrim "params.description" (get params "description") ;;
         ret (obj [("actionMetadata",
                    obj [("tool", JStr "createTask");
                         ("description", description);
                         ("priority", get params "priority" ||| JStr "medium");
                         ("due_date", get params "dueDate");
                         ("task_id", JStr taskId)]);
                   ("contextItemId", JStr taskId);
                   ("contextItemType", JStr "task");
                   ("updatedItemType", JStr "task");
                   ("actionIcon", JStr "task")]))
    (fun error => throw (annotate "createTask" params error)).

Definition executeUpdateTask (params : JSVal) : M JSVal :=
  try_catch
    (readable params "taskId" ;;;
     let taskId := get params "taskId" ||| get params "id" in
     if notNonEmptyString taskId then
       throw (codedError "Task ID is required for updates" "MISSING_TASK_ID")
     else if negb (isValidUUID taskId) then
       throw (codedError "Invalid task ID format" "INVALID_TASK_ID_FORMAT")
     else
       let updates := get params "updates" ||| params in
       if negb (truthy updates) || negb (String.eqb (typeof updates) "object") then
         throw (codedError "Update data is required" "MISSING_UPDATE_DATA")
       else
         ret (obj [("actionMetadata",
                    obj [("tool", JStr "updateTask");
                         ("task_id", taskId);
                         ("updates", updates)]);
                   ("contextItemId", taskId);
                   ("contextItemType", JStr "task");
                   ("updatedItemType", JStr "task");
                   ("actionIcon", JStr "edit")]))
    (fun error => throw (annotate "updateTask" params error)).

(** [if (v) { if (isNaN(new Date(v).getTime())) throw ... }] *)
Definition checkScheduledTime (v : JSVal) (msg : string) : M unit :=
  if truthy v then
    match Date_isNaN P v with
    | Some true => throw (codedError msg "INVALID_SCHEDULED_TIME")
    | Some false => ret tt
    | None => throw (typeError "Cannot convert object to primitive value")
    end
  else ret tt.

Definition executeCreateReminder (params : JSVal) : M JSVal :=
  try_catch
    (readable params "title" ;;;
     if notNonEmptyString (get params "title") then
       throw (codedError "Reminder title is required and must be a string"
                "INVALID_PARAMETERS")
     else
       checkScheduledTime (get params "scheduledTime") "Invalid scheduled time format" ;;;
       reminderId <- generateUUID ;;
       if negb (isValidUUID (JStr reminderId)) then
         throw (codedError "Generated reminder ID is invalid" "INVALID_REMINDER_ID")
       else
         title <- callTrim "params.title" (get params "title") ;;
         description <- trimOrNull "params.description" (get params "description") ;;
         ret (obj [("actionMetadata",
                    obj [("tool", JStr "createReminder");
                         ("title", title);
                         ("description", description);
                         ("scheduled_time", get params "scheduledTime");
                         ("reminder_id", JStr reminderId)]);
                   ("contextItemId", JStr reminderId);
                   ("contextItemType", JStr "reminder");
                   ("updatedItemType", JStr "reminder");
                   ("actionIcon", JStr "notifications")]))
    (fun error => throw (annotate "createReminder" params error)).

Definition executeUpdateReminder (params : JSVal) : M JSVal :=
  try_catch
    (readable params "reminderId" ;;;
     let reminderId := get params "reminderId" ||| get params "id" in
     if notNonEmptyString reminderId then
       throw (codedError "Reminder ID is required for updates" "MISSING_REMINDER_ID")
     else if negb (isValidUUID reminderId) then
       throw (codedError "Invalid reminder ID format" "INVALID_REMINDER_ID_FORMAT")
     else
       let updates := get params "updates" ||| params in
       if negb (truthy updates) || negb (String.eqb (typeof updates) "object") then
         throw (codedError "Update data is required" "MISSING_UPDATE_DATA")
       else
         checkScheduledTime (get updates "scheduledTime")
           "Invalid scheduled time format in updates" ;;;
         ret (obj [("actionMetadata",
                    obj [("tool", JStr "updateReminder");
                         ("reminder_id", reminderId);
                         ("updates", updates)]);
                   ("contextItemId", reminderId);
                   ("contextItemType", JStr "reminder");
                   ("updatedItemType", JStr "reminder");
                   ("actionIcon", JStr "edit")]))
    (fun error => throw (annotate "updateReminder" params error)).

(** [sum + exp.amount] inside [reduce]: both operands are numbers, since
    the sum starts at 0 and every validated amount has type number. *)
Definition plusAmount (sum amount : JSVal) : JSVal :=
  match sum, amount with
  | JNum a, JNum b => JNum (a + b)%float
  | _, _ => JUndefined
  end.

(** [!amount || typeof amount !== 'number' || amount <= 0] *)
Definition badAmount (amount : JSVal) : bool :=
  negb (truthy amount) || negb (String.eqb (typeof amount) "number") || numLe0 amount.

(** The body of [for (let i = 0; i < expenses.length; i++)], from index
    [i] on, with the expenses validated so far. *)
Fixpoint validateExpenses (expenses : list JSVal) (i : nat) (validatedExpenses : list JSVal)
  : M (list JSVal) :=
  match expenses with
  | [] => ret validatedExpenses
  | expense :: rest =>
      readable expense "item" ;;;
      if notNonEmptyString (get expense "item") then
        throw (codedError ("Expense " ++ natToString (i + 1)
                           ++ ": Item name is required and must be a string")
                 "INVALID_EXPENSE_ITEM")
      else if badAmount (get expense "amount") then
        throw (codedError ("Expense " ++ natToString (i + 1)
                           ++ ": Amount must be a positive number")
                 "INVALID_EXPENSE_AMOUNT")
      else
        expenseId <- generateUUID ;;
        if negb (isValidUUID (JStr expenseId)) then
          throw (codedError ("Generated expense ID " ++ natToString (i + 1) ++ " is invalid")
                   "INVALID_EXPENSE_ID")
        else
          item <- callTrim "expense.item" (get expense "item") ;;
          validateExpenses rest (S i)
            (validatedExpenses
             ++ [JObj (<["expense_id" := JStr expenseId]>
                         (<["item" := item]> (spread expense)))])
  end.

Definition expenseAction (expense : JSVal) : JSVal :=
  obj [("type", JStr "expense"); ("id", get expense "expense_id"); ("data", expense)].

(** [Array.isArray(params.expenses) ? params.expenses : [params]] *)
Definition expenseBatch (params : JSVal) : list JSVal :=
  match get params "expenses" with
  | JArr xs => xs
  | _ => [params]
  end.

Definition executeTrackExpenses (params : JSVal) : M JSVal :=
  try_catch
    (readable params "expenses" ;;;
     let expenses := expenseBatch params in
     if (length expenses =? 0)%nat then
       throw (codedError "At least one expense is required" "NO_EXPENSES_PROVIDED")
     else
       validatedExpenses <- validateExpenses expenses 0 [] ;;
       let totalAmount :=
         fold_left (fun sum exp => plusAmount sum (get exp "amount"))
           validatedExpenses (JNum 0) in
       ret (obj [("actionMetadata",
                  obj [("tool", JStr "trackExpenses");
                       ("expenses", JArr validatedExpenses);
                       ("total_amount", totalAmount)]);
                 ("multipleActions", JArr (map expenseAction validatedExpenses));
                 ("updatedItemType", JStr "expense");
                 ("actionIcon", JStr "receipt")]))
    (fun error => throw (annotate "trackExpenses" params error)).

(** [v !== undefined && (typeof v !== 'number' || v <= 0)] and the same
    with [v < 0] *)
Definition badTarget (v : JSVal) : bool :=
  negb (isUndefined v) && (negb (String.eqb (typeof v) "number") || numLe0 v).

Definition badProgress (v : JSVal) : bool :=
  negb (isUndefined v) && (negb (String.eqb (typeof v) "number") || numLt0 v).

Definition executeCreateGoal (params : JSVal) : M JSVal :=
  try_catch
    (readable params "title" ;;;
     if notNonEmptyString (get params "title") then
       throw (codedError "Goal title is required and must be a string" "INVALID_PARAMETERS")
     else if badTarget (get params "target") then
       throw (codedError "Goal target must be a positive number" "INVALID_GOAL_TARGET")
     else if badProgress (get params "progress") then
       throw (codedError "Goal progress must be a non-negative number"
                "INVALID_GOAL_PROGRESS")
     else
       goalId <- generateUUID ;;
       if negb (isValidUUID (JStr goalId)) then
         throw (codedError "Generated goal ID is invalid" "INVALID_GOAL_ID")
       else
         title <- callTrim "params.title" (get params "title") ;;
         description <- trimOrNull "params.description" (get params "description") ;;
         ret (obj [("actionMetadata",
                    obj [("tool", JStr "createGoal");
                         ("title", title);
                         ("description", description);
                         ("target", get params "target");
                         ("progress", get params "progress" ||| JNum 0);
                         ("goal_id", JStr goalId)]);
                   ("contextItemId", JStr goalId);
                   ("contextItemType", JStr "goal");
                   ("updatedItemType", JStr "goal");
                   ("actionIcon", JStr "flag")]))
    (fun error => throw (annotate "createGoal" params error)).

Definition executeUpdateGoal (params : JSVal) : M JSVal :=
  try_catch
    (readable params "goalId" ;;;
     let goalId := get params "goalId" ||| get params "id" in
     if notNonEmptyString goalId then
       throw (codedError "Goal ID is required for updates" "MISSING_GOAL_ID")
     else if negb (isValidUUID goalId) then
       throw (codedError "Invalid goal ID format" "INVALID_GOAL_ID_FORMAT")
     else
       let updates := get params "updates" ||| params in
       if negb (truthy updates) || negb (String.eqb (typeof updates) "object") then
         throw (codedError "Update data is required" "MISSING_UPDATE_DATA")
       else if badTarget (get updates "target") then
         throw (codedError "Goal target must be a positive number" "INVALID_GOAL_TARGET")
       else if badProgress (get updates "progress") then
         throw (codedError "Goal progress must be a non-negative number"
                  "INVALID_GOAL_PROGRESS")
       else
         ret (obj [("actionMetadata",
                    obj [("tool", JStr "updateGoal");
                         ("goal_id", goalId);
                         ("updates", updates)]);
                   ("contextItemId", goalId);
                   ("contextItemType", JStr "goal");
                   ("updatedItemType", JStr "goal");
                   ("actionIcon", JStr "edit")]))
    (fun error => throw (annotate "updateGoal" params error)).

Definition executeCreateJournalEntry (params : JSVal) : M JSVal :=
  try_catch
    (readable params "content" ;;;
     if notNonEmptyString (get params "content") then
       throw (codedError "Journal entry content is required and must be a string"
                "INVALID_PARAMETERS")
     else if truthy (get params "mood")
             && negb (String.eqb (typeof (get params "mood")) "string") then
       throw (codedError "Journal entry mood must be a string" "INVALID_MOOD_FORMAT")
     else
       entryId <- generateUUID ;;
       if negb (isValidUUID (JStr entryId)) then
         throw (codedError "Generated journal entry ID is invalid" "INVALID_ENTRY_ID")
       else
         content <- callTrim "params.content" (get params "content") ;;
         mood <- trimOrNull "params.mood" (get params "mood") ;;
         ret (obj [("actionMetadata",
                    obj [("tool", JStr "createJournalEntry");
                         ("content", content);
                         ("mood", mood);
                         ("entry_id", JStr entryId)]);
                   ("contextItemId", JStr entryId);
                   ("contextItemType", JStr "journal");
                   ("updatedItemType", JStr "journal");
                   ("actionIcon", JStr "book")]))
    (fun error => throw (annotate "createJournalEntry" params error)).

Definition executeGeneralChat (params : JSVal) : M JSVal :=
  try_catch
    (readable params "tone" ;;;
     let tone := get params "tone" ||| JStr "neutral" in
     let response := get params "response" ||| JStr "" in
     ret (obj [("actionMetadata",
                obj [("tool", JStr "generalChat"); ("tone", tone); ("response", response)]);
               ("actionIcon", JStr "chat")]))
    (fun error => throw (annotate "generalChat" params error)).

(** ** Tool dispatcher *)

(** The [switch (toolName)] statement. *)
Definition dispatch (toolName toolParams : JSVal) : M JSVal :=
  switchStr toolName
    [("createTask", executeCreateTask toolParams);
     ("updateTask", executeUpdateTask toolParams);
     ("createReminder", executeCreateReminder toolParams);
     ("updateReminder", executeUpdateReminder toolParams);
     ("trackExpenses", executeTrackExpenses toolParams);
     ("createGoal", executeCreateGoal toolParams);
     ("updateGoal", executeUpdateGoal toolParams);
     ("createJournalEntry", executeCreateJournalEntry toolParams);
     ("generalChat", executeGeneralChat toolParams)]
    (name <- template toolName ;;
     throw (codedError ("Unknown tool: " ++ name) "UNKNOWN_TOOL")).

Definition executeToolIfNeeded (parsedResponse : JSVal) : M JSVal :=
  readable parsedResponse "tool" ;;;
  let toolName := get parsedResponse "tool" ||| get parsedResponse "selectedTool" in
  let toolParams := get parsedResponse "toolParams" ||| get parsedResponse "parameters" in
  if negb (truthy toolName) then ret (obj [])
  else if negb (truthy toolParams) then
    (* console.warn(`Tool execution skipped: No parameters provided for tool ${toolName}`) *)
    template toolName ;;;
    ret (obj [])
  else
    try_catch
      ((* console.info(`Executing tool: ${toolName}`, ...) *)
       template toolName ;;;
       result <- dispatch toolName toolParams ;;
       (* console.info(`Tool executed successfully: ${toolName}`, ...) *)
       template toolName ;;;
       ret result)
      (fun error =>
         errorResponse <- createToolErrorResponse toolName error toolParams ;;
         (* console.error(`Tool execution failed: ${toolName}`, ...) *)
         template toolName ;;;
         ret (obj [("errorDetails", errorResponse)])).

(** ** Response parser *)

Record ParsedResponse : Type := {
  aiResponseText : JSVal;
  actionMetadata : JSVal;
  contextItemId : JSVal;
  contextItemType : JSVal;
  updatedItemType : JSVal;
  actionIcon : JSVal;
  multipleActions : JSVal;
  errorDetails : JSVal
}.

(** The plain-text result after the [try] block. *)
Definition plainText (aiMessage : JSVal) : ParsedResponse :=
  {| aiResponseText := aiMessage; actionMetadata := JNull; contextItemId := JNull;
     contextItemType := JNull; updatedItemType := JNull; actionIcon := JNull;
     multipleActions := JNull; errorDetails := JNull |}.

(** [aiMessage.match(/\{[\s\S]*\}/)] *)
Definition matchBraces (aiMessage : JSVal) : M (option string) :=
  match aiMessage with
  | JStr s => ret (regexMatch braceRegex s)
  | JUndefined | JNull => readable aiMessage "match" ;;; ret None
  | _ => throw (typeError "aiMessage.match is not a function")
  end.

Definition jsonParse (text : string) : M JSVal :=
  match JSON_parse P text with
  | Some v => ret v
  | None => throw (newError "Unexpected token in JSON")
  end.

(** The object returned inside [if (jsonMatch)]. *)
Definition merge (aiMessage parsed toolResult : JSVal) : ParsedResponse :=
  {| aiResponseText := get parsed "aiResponseText" ||| aiMessage;
     actionMetadata := get toolResult "actionMetadata" ||| get parsed "actionMetadata" ||| JNull;
     contextItemId := get toolResult "contextItemId" ||| get parsed "contextItemId" ||| JNull;
     contextItemType :=
       get toolResult "contextItemType" ||| get parsed "contextItemType" ||| JNull;
     updatedItemType :=
       get toolResult "updatedItemType" ||| get parsed "updatedItemType" ||| JNull;
     actionIcon := get toolResult "actionIcon" ||| get parsed "actionIcon" ||| JNull;
     multipleActions :=
       get toolResult "multipleActions" ||| get parsed "multipleActions" ||| JNull;
     errorDetails := get parsed "errorDetails" ||| JNull |}.

(** The body of the [try] block: [Some] is its [return], [None] falls
    through to the statement after the block. *)
Definition tryStructured (aiMessage : JSVal) : M (option ParsedResponse) :=
  jsonMatch <- matchBraces aiMessage ;;
  match jsonMatch with
  | Some text =>
      parsed <- jsonParse text ;;
      toolResult <- executeToolIfNeeded parsed ;;
      ret (Some (merge aiMessage parsed toolResult))
  | None => ret None
  end.

Definition parseAIResponse (aiMessage : JSVal) : M ParsedResponse :=
  structured <- try_catch (tryStructured aiMessage) (fun e => ret None) ;;
  match structured with
  | Some response => ret response
  | None => ret (plainText aiMessage)
  end.

(** ** Request handler: [POST /api/v1/chat] *)

(** The prompt text is irrelevant to every property below; the builder is
    kept abstract.  It reads the clock and may throw. *)
Variable buildBasicPrompt : JSVal -> JSVal -> JSVal -> JSVal -> JSVal -> M string.

Definition identityPhrases : list string :=
  ["who made you"; "who created you"; "your creator"; "who built you"; "origin";
   "where are you from"].

Definition isIdentityQuestion (input : JSVal) : Result bool :=
  if negb (truthy input) then Ok false
  else
    match input with
    | JStr s =>
        let lower := toLowerCase s in
        Ok (existsb (includes lower) identityPhrases)
    | _ => Throw (typeError "input.toLowerCase is not a function")
    end.

(** What the route handler does with the response object: a status and a
    JSON body, or an exception that leaves the handler. *)
Inductive Reply : Type :=
| Json (status : nat) (body : JSVal)
| Uncaught (e : JSError).

(** A run of the handler either answers at once or suspends on the one
    call of the completion endpoint; [resume] is the rest of the run, given
    the response of axios ([Ok]) or its rejection ([Throw]). *)
Inductive Exchange : Type :=
| Answer (r : Reply) (t : Tape)
| Await (request : JSVal) (t : Tape) (resume : Result JSVal -> Tape -> Reply * Tape).

Definition identityReply : JSVal :=
  obj [("aiResponseText",
        JStr "I was built with care by some awesome humans, led by Aakash.");
       ("actionMetadata", JNull);
       ("contextItemId", JNull);
       ("contextItemType", JNull);
       ("updatedItemType", JNull);
       ("actionIcon", JStr "info");
       ("multipleActions", JNull);
       ("errorDetails", JNull)].

(** [v === n], [v >= n] and [v < n] for a status, which axios gives as a
    number or not at all. *)
Definition numIs (v : JSVal) (n : float) : bool :=
  match v with JNum x => PrimFloat.eqb x n | _ => false end.
Definition numGe (v : JSVal) (n : float) : bool :=
  match v with JNum x => PrimFloat.leb n x | _ => false end.
Definition numLt (v : JSVal) (n : float) : bool :=
  match v with JNum x => PrimFloat.ltb x n | _ => false end.

(** The [catch (err)] block of the handler. *)
Definition upstreamFailure (err : JSError) : M Reply :=
  let status := get (errProp err "response") "status" in
  let '(userMessage, statusCode, retryable) :=
    if numIs status 401 then
      ("Authentication error. Please contact support.", 401%nat, false)
    else if numIs status 429 then
      ("Service is temporarily busy. Please try again in a moment.", 429%nat, true)
    else if numGe status 400 && numLt status 500 then
      ("Invalid request. Please try rephrasing your message.", 400%nat, false)
    else if strictEqStr (errProp err "code") "ECONNREFUSED"
            || strictEqStr (errProp err "code") "ENOTFOUND" then
      ("Unable to connect to AI service. Please try again later.", 503%nat, true)
    else
      ("Sorry, I encountered an error processing your request. Please try again.",
       500%nat, true) in
  timestamp <- isoNow ;;
  ret (Json statusCode
         (obj [("error", JStr "AI API error");
               ("details", if NODE_ENV_development P then JStr (message err)
                           else JStr "Internal server error");
               ("aiResponseText", JStr userMessage);
               ("actionMetadata", JNull);
               ("contextItemId", JNull);
               ("contextItemType", JNull);
               ("updatedItemType", JNull);
               ("actionIcon", JStr "error");
               ("errorDetails",
                obj [("retryable", JBool retryable);
                     ("errorCode", status ||| errProp err "code" ||| JStr "UNKNOWN_ERROR");
                     ("timestamp", JStr timestamp);
                     ("suggestedAction",
                      JStr (if retryable then "Please try again"
                            else "Please contact support if the issue persists"))])])).

(** [v?.[0]] and [v?.k] *)
Definition index0 (v : JSVal) : JSVal :=
  match v with
  | JArr (x :: _) => x
  | JObj m => default JUndefined (m !! "0")
  | JStr (String c _) => JStr (String c EmptyString)
  | _ => JUndefined
  end.

(** [response.data.choices?.[0]?.message?.content || ''] *)
Definition completionText (response : JSVal) : M JSVal :=
  readable response "data" ;;;
  readable (get response "data") "choices" ;;;
  ret (get (get (index0 (get (get response "data") "choices")) "message") "content"
       ||| JStr "").

Definition runReply (m : M Reply) (t : Tape) : Reply * Tape :=
  match m t with
  | (Ok r, t') => (r, t')
  | (Throw e, t') => (Uncaught e, t')
  end.

Definition chatHandler (body : JSVal) (t : Tape) : Exchange :=
  let chatInput := get body "chatInput" in
  if negb (truthy chatInput) then
    Answer (Json 400 (obj [("error", JStr "Missing chatInput in request body")])) t
  else
    match isIdentityQuestion chatInput with
    | Throw e => Answer (Uncaught e) t
    | Ok true => Answer (Json 200 identityReply) t
    | Ok false =>
        match
          (if truthy (get body "masterPrompt") then ret (get body "masterPrompt")
           else
             prompt <- buildBasicPrompt chatInput (get body "chatHistory")
                         (get body "contextItem") (get body "currentDate") (get body "tone") ;;
             ret (JStr prompt)) t
        with
        | (Throw err, t1) =>
            let '(r, t2) := runReply (upstreamFailure err) t1 in Answer r t2
        | (Ok systemPrompt, t1) =>
            Await
              (obj [("model", JStr "anthropic/claude-3-sonnet");
                    ("messages",
                     JArr [obj [("role", JStr "system"); ("content", systemPrompt)];
                           obj [("role", JStr "user"); ("content", chatInput)]]);
                    ("max_tokens", JNum 800);
                    ("temperature", JNum 0.7)])
              t1
              (fun outcome =>
                 runReply
                   (try_catch
                      (response <- lift outcome ;;
                       aiMessage <- completionText response ;;
                       parsedResponse <- parseAIResponse aiMessage ;;
                       ret (Json 200
                              (obj [("aiResponseText", aiResponseText parsedResponse);
                                    ("actionMetadata", actionMetadata parsedResponse);
                                    ("contextItemId", contextItemId parsedResponse);
                                    ("contextItemType", contextItemType parsedResponse);
                                    ("updatedItemType", updatedItemType parsedResponse);
                                    ("actionIcon", actionIcon parsedResponse);
                                    ("multipleActions", multipleActions parsedResponse);
                                    ("errorDetails", errorDetails parsedResponse)])))
                      upstreamFailure))
        end
    end.

End Engine.

(** * Vocabulary of the statements *)

(** The first binding of a key in the list of an object literal. *)
Fixpoint assoc (l : list (string * JSVal)) (k : string) : JSVal :=
  match l with
  | [] => JUndefined
  | (k', v) :: rest => if String.eqb k' k then v else assoc rest k
  end.

(** Whether a character occurs in a string. *)
Fixpoint occurs (c : ascii) (s : string) : bool :=
  match s with
  | EmptyString => false
  | String d s' => Ascii.eqb c d || occurs c s'
  end.

(** The canonical format of an identifier: 36 characters, hyphens at
    positions 8, 13, 18 and 23, hexadecimal digits elsewhere, the version
    nibble 4 at position 14 and a variant nibble among 8, 9, a, b at
    position 19. *)
Definition canonicalFormat (s : string) : Prop :=
  String.length s = 36
  /\ (forall i, In i [8; 13; 18; 23] -> String.get i s = Some "-"%char)
  /\ (forall i, i < 36 -> ~ In i [8; 13; 18; 23] ->
       exists c v, String.get i s = Some c /\ nibble c = Some v)
  /\ (exists c, String.get 14 s = Some c /\ nibble c = Some 4)
  /\ (exists c v, String.get 19 s = Some c /\ nibble c = Some v /\ In v [8; 9; 10; 11]).

(** The number of draws of [Math.random] a template asks for. *)
Fixpoint countXY (template : string) : nat :=
  match template with
  | EmptyString => 0
  | String c rest =>
      (if Ascii.eqb c "x" || Ascii.eqb c "y" then 1 else 0) + countXY rest
  end.

(** A tier is rejected when its source throws or its candidate fails the
    validator. *)
Definition tier1Rejected (P : Platform) (t : Tape) : Prop :=
  match uuid_v4 P (uuidCalls t) with
  | Ok candidate => uuidRegex_test candidate = false
  | Throw _ => True
  end.

Definition tier2Rejected (P : Platform) (t : Tape) : Prop :=
  match crypto_randomBytes P (byteCalls t) with
  | Ok buf => isValidUUID (JStr (cryptoCandidate buf)) = false
  | Throw _ => True
  end.

Definition tier3Rejected (P : Platform) (t : Tape) : Prop :=
  match fst (replaceXY P uuidTemplate t) with
  | Ok candidate => isValidUUID (JStr candidate) = false
  | Throw _ => True
  end.

(** The message of the failure of the first tier. *)
Definition tier1Message (P : Platform) (t : Tape) : string :=
  match uuid_v4 P (uuidCalls t) with
  | Ok _ => "Generated UUID does not match v4 format"
  | Throw e => message e
  end.

(** An error carries a text when its message or one of its string
    properties contains it. *)
Definition carriesMessage (e : JSError) (text : string) : bool :=
  includes (message e) text
  || existsb (fun kv => match snd kv with JStr s => includes s text | _ => false end)
       (map_to_list (props e)).

(** A platform on which every tier of the generator fails. *)
Definition brokenPlatform : Platform :=
  {| JSON_parse := fun _ => None;
     uuid_v4 := fun _ => Throw (newError "uuid package unavailable");
     crypto_randomBytes := fun _ => Throw (newError "crypto module unavailable");
     Math_random := fun _ => Throw (newError "Math.random is not a function");
     Date_now := fun _ => 1705312800000%float;
     Date_toISOString := fun _ => "2024-01-15T10:00:00.000Z";
     Date_isNaN := fun _ => Some false;
     Number_toString := fun _ => "0";
     NODE_ENV_development := false;
     Error_stack := fun _ => "" |}.

(** The guard [!updates || typeof updates !== 'object'] of the update
    tools, on [params.updates || params] for an object [params]. *)
Definition updatesOf (params : JSVal) : JSVal := get params "updates" ||| params.

Definition updatesRejected (params : JSVal) : bool :=
  negb (truthy (updatesOf params)) || negb (String.eqb (typeof (updatesOf params)) "object").


(** An expense passes validation: a non-empty item name and a numeric
    amount greater than 0. *)
Definition expenseAccepted (expense : JSVal) : Prop :=
  exists s x,
    get expense "item" = JStr s /\ s <> ""
    /\ get expense "amount" = JNum x /\ PrimFloat.ltb 0 x = true.

(** [n] identifiers minted one after the other. *)
Fixpoint mintAll (P : Platform) (n : nat) : M (list string) :=
  match n with
  | O => ret []
  | S n' =>
      id <- generateUUID P ;;
      ids <- mintAll P n' ;;
      ret (id :: ids)
  end.

(** The record kept for an expense: its fields, the item name trimmed,
    and the identifier minted for it. *)
Definition trimmedItem (expense : JSVal) : JSVal :=
  match get expense "item" with
  | JStr s => JStr (trim s)
  | v => v
  end.

Definition validatedExpense (expense : JSVal) (id : string) : JSVal :=
  JObj (<["expense_id" := JStr id]> (<["item" := trimmedItem expense]> (spread expense))).

Definition expenseEntry (expense : JSVal) (id : string) : JSVal :=
  obj [("type", JStr "expense"); ("id", JStr id); ("data", validatedExpense expense id)].

Definition amountOf (expense : JSVal) : float :=
  match get expense "amount" with
  | JNum x => x
  | _ => 0%float
  end.

Definition sampleGoalUpdate : JSVal :=
  obj [("goalId", JStr "a1b2c3d4-e5f6-4789-a012-b3c4d5e6f789"); ("progress", JNum 40)].

Definition coffee : JSVal :=
  obj [("expenses",
        JArr [obj [("item", JStr "Coffee"); ("amount", JNum 5.5); ("category", JStr "Food");
                   ("date", JStr "2024-01-15")]])].

Definition mixedBatch : JSVal :=
  obj [("expenses",
        JArr [obj [("item", JStr "Coffee"); ("amount", JNum 5.5)];
              obj [("item", JStr "Refund"); ("amount", JNum (-3))]])].

(** The fields of the response that the parser takes from the dispatcher
    first and from the envelope of the model second. *)
Definition mergedFields : list string :=
  ["actionMetadata"; "contextItemId"; "contextItemType"; "updatedItemType"; "actionIcon";
   "multipleActions"].

(** Every merged field a fragment defines is truthy, so that [||] keeps it. *)
Definition fieldsSound (fragment : JSVal) : Prop :=
  Forall (fun field => get fragment field = JUndefined \/ truthy (get fragment field) = true)
    mergedFields.

(** The double quote, and a model reply: prose around a JSON envelope that
    asks for [createTask] without the required description and claims an
    action of its own. *)
Definition dq : string := String (ascii_of_nat 34) EmptyString.

Definition badReplyJson : string :=
  "{" ++ dq ++ "aiResponseText" ++ dq ++ ":" ++ dq ++ "Task created." ++ dq ++ ","
  ++ dq ++ "tool" ++ dq ++ ":" ++ dq ++ "createTask" ++ dq ++ ","
  ++ dq ++ "toolParams" ++ dq ++ ":{" ++ dq ++ "priority" ++ dq ++ ":" ++ dq ++ "high" ++ dq
  ++ "}}".

Definition badReply : string := "Sure. " ++ badReplyJson ++ " Anything else?".

Definition badReplyDecoded : JSVal :=
  obj [("aiResponseText", JStr "Task created.");
       ("tool", JStr "createTask");
       ("toolParams", obj [("priority", JStr "high")])].

(** A reply that asks for [createTask] under the alias names and claims a
    context item and an icon of its own. *)
Definition aliasReplyJson : string :=
  "{" ++ dq ++ "selectedTool" ++ dq ++ ":" ++ dq ++ "createTask" ++ dq ++ ","
  ++ dq ++ "parameters" ++ dq ++ ":{" ++ dq ++ "description" ++ dq ++ ":" ++ dq ++ "buy milk"
  ++ dq ++ "}," ++ dq ++ "contextItemId" ++ dq ++ ":" ++ dq ++ "made-up-id" ++ dq ++ ","
  ++ dq ++ "actionIcon" ++ dq ++ ":" ++ dq ++ "star" ++ dq ++ "}".

Definition aliasReplyDecoded : JSVal :=
  obj [("selectedTool", JStr "createTask");
       ("parameters", obj [("description", JStr "buy milk")]);
       ("contextItemId", JStr "made-up-id");
       ("actionIcon", JStr "star")].

(** A reply whose tool name is an object with a property [toString]. *)
Definition oddReplyJson : string :=
  "{" ++ dq ++ "tool" ++ dq ++ ":{" ++ dq ++ "toString" ++ dq ++ ":1},"
  ++ dq ++ "toolParams" ++ dq ++ ":{}}".

Definition oddReplyDecoded : JSVal :=
  obj [("tool", obj [("toString", JNum 1)]); ("toolParams", obj [])].

(** [JSON.parse] on the three envelopes above. *)
Definition sampleDecoder (text : string) : option JSVal :=
  if String.eqb text badReplyJson then Some badReplyDecoded
  else if String.eqb text aliasReplyJson then Some aliasReplyDecoded
  else if String.eqb text oddReplyJson then Some oddReplyDecoded
  else None.

(** A computation fails with a given error code. *)
Definition failsWith {A} (outcome : Result A * Tape) (code : string) : Prop :=
  exists e t', outcome = (Throw e, t') /\ errProp e "code" = JStr code.

(** The envelope of a model reply that asks for a tool. *)
Definition envelope (tool : string) (toolParams : JSVal) : JSVal :=
  obj [("aiResponseText", JStr "Done."); ("tool", JStr tool); ("toolParams", toolParams)].

(** The state before any draw. *)
Definition tape0 : Tape :=
  {| uuidCalls := 0; byteCalls := 0; randomCalls := 0; clockReads := 0 |}.

(** A platform on which everything works, for the concrete runs: the uuid
    package returns well-formed identifiers, distinct from call to call. *)
Definition sampleUuid (k : nat) : string :=
  "a1b2c3d4-e5f6-4789-a012-b3c4d5e6f7" ++ hexByte (Z.of_nat k).

Definition samplePlatform (decode : string -> option JSVal) : Platform :=
  {| JSON_parse := decode;
     uuid_v4 := fun k => Ok (sampleUuid k);
     crypto_randomBytes := fun _ => Ok (repeat 171%Z 16);
     Math_random := fun _ => Ok 0.5%float;
     Date_now := fun _ => 1705312800000%float;
     Date_toISOString := fun _ => "2024-01-15T10:00:00.000Z";
     Date_isNaN := fun v => Some (negb (strictEqStr v "2024-01-15T10:00:00.000Z"));
     Number_toString := fun _ => "0";
     NODE_ENV_development := false;
     Error_stack := fun _ => "" |}.

Definition noDecoder : string -> option JSVal := fun _ => None.

Definition samplePrompt : JSVal -> JSVal -> JSVal -> JSVal -> JSVal -> M string :=
  fun _ _ _ _ _ => ret "You are Reva".

(** * Further code of [server.js] *)

(** ** The earlier generator (the second document of [server.js])

    The generator as it stood before candidates of the fallback tiers were
    validated: the candidate of [crypto.randomBytes] is returned as built,
    and [Math.random] is used when that source throws. *)
Module Legacy.
Section Generator.

Variable P : Platform.

Definition generateFallbackUUID : M string :=
  try_catch
    (buf <- randomBytes16 P ;;
     ret (cryptoCandidate buf))
    (fun cryptoError => replaceXY P uuidTemplate).

Definition generateUUID : M string :=
  try_catch
    (uuid <- uuidv4 P ;;
     if negb (uuidRegex_test uuid) then
       throw (newError "Generated UUID does not match v4 format")
     else ret uuid)
    (fun error => generateFallbackUUID).

End Generator.
End Legacy.

(** ** Prompt builder: [buildBasicPrompt] *)

Definition nl : string := String (ascii_of_nat 10) EmptyString.

(** The text of the three template literals, cut at their substitutions. *)
Definition openingText1 : string :=
  "You are Reva, a friendly and intelligent personal assistant. Current date: ".

Definition openingText2 : string :=
  ". Speak in a '".

Definition openingText3 : string :=
  joinWith nl
    ["' tone.";
     "";
     ("CRITICAL IDENTITY RULE: If the user asks " ++ dq ++ "Who made you?" ++ dq
      ++ " or any similar question about your creator or origin, you MUST always reply: " ++ dq
      ++ "I was built with care by some crazy person, led by Aakash." ++ dq
      ++ " Do NOT mention Google, Genkit, Anthropic, OpenAI, or any external company.");
     "";
     "TONE GUIDELINES - Match the selected tone exactly:";
     ("- Neutral: Helpful, clear, and direct. Use plain English. Avoid slang and excessive "
      ++ "emotion.");
     "- Professional: Formal and business-appropriate responses.";
     "- Casual: Relaxed and friendly conversation style.";
     ("- Sarcastic: Witty, dry humor, slightly exaggerated. Use playful snark and ironic "
      ++ "phrasing. Never insulting, but intentionally cheeky.");
     ("- GenZ: Punchy, casual, and expressive. Use GenZ slang and emojis like: " ++ dq ++ "bet"
      ++ dq ++ ", " ++ dq ++ "vibe" ++ dq ++ ", " ++ dq ++ "no cap" ++ dq ++ ", " ++ dq
      ++ "💀" ++ dq ++ ", " ++ dq ++ "🔥" ++ dq ++ ", " ++ dq ++ "✨" ++ dq
      ++ ". Keep replies short, bold, and full of attitude.");
     "";
     "Available tools:";
     "- createTask: Create a new task";
     "- updateTask: Update an existing task";
     "- createReminder: Create a new reminder";
     "- updateReminder: Update an existing reminder";
     "- trackExpenses: Log expenses";
     "- createGoal: Create a new goal";
     "- updateGoal: Update an existing goal";
     "- generalChat: General conversation";
     "";
     ""].

Definition contextText1 : string :=
  "CRITICAL CONTEXT: The user's previous turn was about a ".

Definition contextText2 : string :=
  " with ID '".

Definition contextText3 : string :=
  joinWith nl
    ["'. Use UPDATE operations for follow-up requests.";
     "";
     ""].

Definition requestText1 : string :=
  "User's request: ".

Definition requestText2 : string :=
  joinWith nl
    ["";
     "";
     "IMPORTANT: You must respond with a JSON structure that includes tool selection:";
     "";
     "{";
     ("  " ++ dq ++ "aiResponseText" ++ dq ++ ": " ++ dq
      ++ "Your conversational response to the user" ++ dq ++ ",");
     ("  " ++ dq ++ "tool" ++ dq ++ ": " ++ dq ++ "selectedToolName" ++ dq ++ ",");
     ("  " ++ dq ++ "toolParams" ++ dq ++ ": {");
     "    // Parameters for the selected tool";
     "  }";
     "}";
     "";
     "Available tools and their parameters:";
     "- createTask: { description, priority, dueDate }";
     "- updateTask: { taskId, updates }";
     "- createReminder: { title, description, scheduledTime }";
     "- updateReminder: { reminderId, updates }";
     "- trackExpenses: { expenses: [{ item, amount, category, date }] }";
     "- createGoal: { title, description, target, progress }";
     "- updateGoal: { goalId, updates }";
     "- createJournalEntry: { content, mood }";
     "- generalChat: { tone, response }";
     "";
     "Examples:";
     ("For " ++ dq ++ "create a task to buy milk" ++ dq ++ ":");
     "{";
     ("  " ++ dq ++ "aiResponseText" ++ dq ++ ": " ++ dq
      ++ "I've created a task for you to buy milk." ++ dq ++ ",");
     ("  " ++ dq ++ "tool" ++ dq ++ ": " ++ dq ++ "createTask" ++ dq ++ ",");
     ("  " ++ dq ++ "toolParams" ++ dq ++ ": {");
     ("    " ++ dq ++ "description" ++ dq ++ ": " ++ dq ++ "buy milk" ++ dq ++ ",");
     ("    " ++ dq ++ "priority" ++ dq ++ ": " ++ dq ++ "medium" ++ dq);
     "  }";
     "}";
     "";
     ("For " ++ dq ++ "I spent 500 on groceries" ++ dq ++ ":");
     "{";
     ("  " ++ dq ++ "aiResponseText" ++ dq ++ ": " ++ dq
      ++ "I've logged your grocery expense of ₹500." ++ dq ++ ",");
     ("  " ++ dq ++ "tool" ++ dq ++ ": " ++ dq ++ "trackExpenses" ++ dq ++ ", ");
     ("  " ++ dq ++ "toolParams" ++ dq ++ ": {");
     ("    " ++ dq ++ "expenses" ++ dq ++ ": [{");
     ("      " ++ dq ++ "item" ++ dq ++ ": " ++ dq ++ "groceries" ++ dq ++ ",");
     ("      " ++ dq ++ "amount" ++ dq ++ ": 500,");
     ("      " ++ dq ++ "category" ++ dq ++ ": " ++ dq ++ "Food & Drink" ++ dq ++ ",");
     ("      " ++ dq ++ "date" ++ dq ++ ": " ++ dq)].

Definition requestText3 : string :=
  joinWith nl
    [dq;
     "    }]";
     "  }";
     "}";
     "";
     ("For " ++ dq ++ "Who made you?" ++ dq ++ ":");
     "{";
     ("  " ++ dq ++ "aiResponseText" ++ dq ++ ": " ++ dq
      ++ "I was built with care by some awesome humans, led by Aakash." ++ dq ++ ",");
     ("  " ++ dq ++ "tool" ++ dq ++ ": " ++ dq ++ "generalChat" ++ dq ++ ",");
     ("  " ++ dq ++ "toolParams" ++ dq ++ ": {");
     ("    " ++ dq ++ "tone" ++ dq ++ ": " ++ dq)].

Definition requestText4 : string :=
  joinWith nl
    [(dq ++ ",");
     ("    " ++ dq ++ "response" ++ dq ++ ": " ++ dq
      ++ "I was built with care by some awesome humans, led by Aakash." ++ dq);
     "  }";
     "}";
     "";
     "REMEMBER: Always follow the identity rule and match the selected tone exactly.";
     "";
     "Choose the appropriate tool and respond with valid JSON."].

(** [xs.slice(-5)] *)
Definition slice5 {A} (xs : list A) : list A := skipn (length xs - 5) xs.

Section Prompt.

Variable P : Platform.

(** [Number(s)] for a string [s], as the comparison [v > 0] needs it when
    [v] is not a number. *)
Variable StringToNumber : string -> float.

(** [v > 0] *)
Definition greaterThanZero (v : JSVal) : M bool :=
  match v with
  | JNum x => ret (PrimFloat.ltb 0 x)
  | JUndefined | JNull => ret false
  | JBool b => ret b
  | JStr s => ret (PrimFloat.ltb 0 (StringToNumber s))
  | JArr _ | JObj _ =>
      s <- template P v ;;
      ret (PrimFloat.ltb 0 (StringToNumber s))
  end.

(** [chatHistory.length > 0] for a truthy [chatHistory] *)
Definition lengthPositive (chatHistory : JSVal) : M bool :=
  match chatHistory with
  | JArr xs => ret (negb (length xs =? 0)%nat)
  | JStr s => ret (negb (String.eqb s ""))
  | JObj _ => greaterThanZero (get chatHistory "length")
  | _ => ret false
  end.

(** [msgs.forEach(msg => { prompt += `${msg.role}: ${msg.content}\n`; })] *)
Fixpoint historyLines (msgs : list JSVal) (prompt : string) : M string :=
  match msgs with
  | [] => ret prompt
  | msg :: rest =>
      readable msg "role" ;;;
      role <- template P (get msg "role") ;;
      content <- template P (get msg "content") ;;
      historyLines rest (prompt ++ role ++ ": " ++ content ++ nl)
  end.

(** [if (contextItem) { prompt += `CRITICAL CONTEXT: ...`; }] *)
Definition contextSection (contextItem : JSVal) (prompt : string) : M string :=
  if truthy contextItem then
    type <- template P (get contextItem "type") ;;
    id <- template P (get contextItem "id") ;;
    ret (prompt ++ contextText1 ++ type ++ contextText2 ++ id ++ contextText3)
  else ret prompt.

(** [if (chatHistory && chatHistory.length > 0) { ... }].  A truthy value
    with a positive length that is not an array has no method [slice], or
    (a string) a [slice] whose result has no method [forEach]. *)
Definition historySection (chatHistory : JSVal) (prompt : string) : M string :=
  if truthy chatHistory then
    nonEmpty <- lengthPositive chatHistory ;;
    if nonEmpty then
      match chatHistory with
      | JArr xs =>
          prompt <- historyLines (slice5 xs) (prompt ++ "Recent conversation:" ++ nl) ;;
          ret (prompt ++ nl)
      | JStr _ => throw (typeError "chatHistory.slice(...).forEach is not a function")
      | _ => throw (typeError "chatHistory.slice is not a function")
      end
    else ret prompt
  else ret prompt.

Definition buildBasicPrompt (chatInput chatHistory contextItem currentDate tone : JSVal)
  : M string :=
  date <- (if truthy currentDate then template P currentDate else isoNow P) ;;
  toneName <- template P (tone ||| JStr "Neutral") ;;
  prompt <- contextSection contextItem
              (openingText1 ++ date ++ openingText2 ++ toneName ++ openingText3) ;;
  prompt <- historySection chatHistory prompt ;;
  input <- template P chatInput ;;
  today <- isoNow P ;;
  toneText <- template P tone ;;
  ret (prompt ++ requestText1 ++ input ++ requestText2 ++ today ++ requestText3
       ++ toneText ++ requestText4).

End Prompt.

(** * Vocabulary of the further statements *)

(** ** Identifier generator *)

(** The class of characters a character of the template stands for. *)
Definition classOfTemplate (c : ascii) : CharClass :=
  if Ascii.eqb c "x" then Hex else if Ascii.eqb c "y" then Variant else Lit c.

(** The draw number [k] of [Math.random] gives a hexadecimal digit:
    [(x * 16) | 0] lies between 0 and 15. *)
Definition digitDraw (P : Platform) (k : nat) : Prop :=
  exists x, Math_random P k = Ok x /\ (0 <= ToInt32 (x * 16)%float < 16)%Z.

(** A platform whose package [uuid] returns a malformed string and whose
    [crypto.randomBytes] throws. *)
Definition noCryptoPlatform : Platform :=
  {| JSON_parse := noDecoder;
     uuid_v4 := fun _ => Ok "not-a-uuid";
     crypto_randomBytes := fun _ => Throw (newError "crypto module unavailable");
     Math_random := fun _ => Ok 0.5%float;
     Date_now := fun _ => 1705312800000%float;
     Date_toISOString := fun _ => "2024-01-15T10:00:00.000Z";
     Date_isNaN := fun _ => Some false;
     Number_toString := fun _ => "0";
     NODE_ENV_development := false;
     Error_stack := fun _ => "" |}.

(** A platform whose package [uuid] returns a malformed string and whose
    [crypto.randomBytes] delivers three bytes. *)
Definition shortBufferPlatform : Platform :=
  {| JSON_parse := noDecoder;
     uuid_v4 := fun _ => Ok "not-a-uuid";
     crypto_randomBytes := fun _ => Ok [1; 2; 3]%Z;
     Math_random := fun _ => Ok 0.5%float;
     Date_now := fun _ => 1705312800000%float;
     Date_toISOString := fun _ => "2024-01-15T10:00:00.000Z";
     Date_isNaN := fun _ => Some false;
     Number_toString := fun _ => "0";
     NODE_ENV_development := false;
     Error_stack := fun _ => "" |}.

(** ** Tools and dispatcher *)

(** The nine tools of the dispatcher. *)
Definition toolNames : list string :=
  ["createTask"; "updateTask"; "createReminder"; "updateReminder"; "trackExpenses";
   "createGoal"; "updateGoal"; "createJournalEntry"; "generalChat"].

(** The tools that create one item, and those that update one. *)
Definition createTools : list string :=
  ["createTask"; "createReminder"; "createGoal"; "createJournalEntry"].

Definition updateTools : list string := ["updateTask"; "updateReminder"; "updateGoal"].

(** The failures each tool raises on purpose: message and code. *)
Definition validationFailures (tool : string) : list (string * string) :=
  if String.eqb tool "createTask" then
    [("Task description is required and must be a string", "INVALID_PARAMETERS")]
  else if String.eqb tool "updateTask" then
    [("Task ID is required for updates", "MISSING_TASK_ID");
     ("Invalid task ID format", "INVALID_TASK_ID_FORMAT");
     ("Update data is required", "MISSING_UPDATE_DATA")]
  else if String.eqb tool "createReminder" then
    [("Reminder title is required and must be a string", "INVALID_PARAMETERS");
     ("Invalid scheduled time format", "INVALID_SCHEDULED_TIME")]
  else if String.eqb tool "updateReminder" then
    [("Reminder ID is required for updates", "MISSING_REMINDER_ID");
     ("Invalid reminder ID format", "INVALID_REMINDER_ID_FORMAT");
     ("Update data is required", "MISSING_UPDATE_DATA");
     ("Invalid scheduled time format in updates", "INVALID_SCHEDULED_TIME")]
  else if String.eqb tool "trackExpenses" then
    [("At least one expense is required", "NO_EXPENSES_PROVIDED")]
  else if String.eqb tool "createGoal" then
    [("Goal title is required and must be a string", "INVALID_PARAMETERS");
     ("Goal target must be a positive number", "INVALID_GOAL_TARGET");
     ("Goal progress must be a non-negative number", "INVALID_GOAL_PROGRESS")]
  else if String.eqb tool "updateGoal" then
    [("Goal ID is required for updates", "MISSING_GOAL_ID");
     ("Invalid goal ID format", "INVALID_GOAL_ID_FORMAT");
     ("Update data is required", "MISSING_UPDATE_DATA");
     ("Goal target must be a positive number", "INVALID_GOAL_TARGET");
     ("Goal progress must be a non-negative number", "INVALID_GOAL_PROGRESS")]
  else if String.eqb tool "createJournalEntry" then
    [("Journal entry content is required and must be a string", "INVALID_PARAMETERS");
     ("Journal entry mood must be a string", "INVALID_MOOD_FORMAT")]
  else [].

(** The messages of the [TypeError]s a tool can run into. *)
Definition typeErrorMessages : list string :=
  map (fun k => "Cannot read properties of undefined (reading '" ++ k ++ "')")
      ["description"; "taskId"; "title"; "reminderId"; "expenses"; "goalId"; "content";
       "tone"; "item"]
  ++ map (fun k => "Cannot read properties of null (reading '" ++ k ++ "')")
      ["description"; "taskId"; "title"; "reminderId"; "expenses"; "goalId"; "content";
       "tone"; "item"]
  ++ ["params.description.trim is not a function";
      "Cannot convert object to primitive value"].

(** What a tool can throw, before [error.tool] and [error.params] are set
    on it. *)
Inductive Raised (P : Platform) (tool : string) : JSError -> Prop :=
| raised_validation (msg code : string) :
    In (msg, code) (validationFailures tool) -> Raised P tool (codedError msg code)
| raised_expense_item (i : nat) :
    tool = "trackExpenses" ->
    Raised P tool
      (codedError ("Expense " ++ natToString i ++ ": Item name is required and must be a string")
         "INVALID_EXPENSE_ITEM")
| raised_expense_amount (i : nat) :
    tool = "trackExpenses" ->
    Raised P tool
      (codedError ("Expense " ++ natToString i ++ ": Amount must be a positive number")
         "INVALID_EXPENSE_AMOUNT")
| raised_generator (t t' : Tape) (e : JSError) :
    generateUUID P t = (Throw e, t') -> Raised P tool e
| raised_type (msg : string) :
    In msg typeErrorMessages -> Raised P tool (typeError msg).

(** The shape of a failure of a tool: an error of the catalogue with
    [error.tool] and [error.params] set, and a state that is unchanged
    unless the generator failed or the error has no code. *)
Definition failureShape (P : Platform) (tool : string) (params : JSVal) (e : JSError)
  (t t' : Tape) : Prop :=
  (exists e0, e = annotate tool params e0 /\ Raised P tool e0)
  /\ (errProp e "code" = JStr "UUID_GENERATION_FAILURE"
      \/ errProp e "code" = JUndefined
      \/ t' = t).

(** The codes of the checks that follow the generation of an identifier. *)
Definition postGenerationCodes : list string :=
  ["INVALID_TASK_ID"; "INVALID_REMINDER_ID"; "INVALID_EXPENSE_ID"; "INVALID_GOAL_ID";
   "INVALID_ENTRY_ID"].

(** The error of the first check that an expense fails. *)
Definition rejection (expense : JSVal) (position : nat) : JSError :=
  if notNonEmptyString (get expense "item") then
    codedError ("Expense " ++ natToString position
                ++ ": Item name is required and must be a string") "INVALID_EXPENSE_ITEM"
  else
    codedError ("Expense " ++ natToString position ++ ": Amount must be a positive number")
      "INVALID_EXPENSE_AMOUNT".

(** The field of [actionMetadata] that holds the identifier of the item,
    and the type of the item, for the tools that act on one item. *)
Definition idField (tool : string) : string :=
  if String.eqb tool "createTask" || String.eqb tool "updateTask" then "task_id"
  else if String.eqb tool "createReminder" || String.eqb tool "updateReminder"
  then "reminder_id"
  else if String.eqb tool "createGoal" || String.eqb tool "updateGoal" then "goal_id"
  else "entry_id".

(** The type of the item a tool acts on. *)
Definition itemType (tool : string) : string :=
  if String.eqb tool "createTask" || String.eqb tool "updateTask" then "task"
  else if String.eqb tool "createReminder" || String.eqb tool "updateReminder"
  then "reminder"
  else if String.eqb tool "createGoal" || String.eqb tool "updateGoal" then "goal"
  else "journal".

(** A fragment is tagged with an identifier: [contextItemId] and the
    identifier field of [actionMetadata] hold it, and both type fields name
    the type of the item. *)
Definition tagged (tool : string) (fragment : JSVal) (id : string) : Prop :=
  get fragment "contextItemId" = JStr id
  /\ get (get fragment "actionMetadata") (idField tool) = JStr id
  /\ get (get fragment "actionMetadata") "tool" = JStr tool
  /\ get fragment "contextItemType" = JStr (itemType tool)
  /\ get fragment "updatedItemType" = JStr (itemType tool).

(** The parameter that names the item of an update. *)
Definition idParam (tool : string) : string :=
  if String.eqb tool "updateTask" then "taskId"
  else if String.eqb tool "updateReminder" then "reminderId"
  else "goalId".

(** ** Response parser and route handler *)

(** A reply that names no tool and claims an action of its own. *)
Definition claimingReplyJson : string :=
  "{" ++ dq ++ "aiResponseText" ++ dq ++ ":" ++ dq ++ "Done!" ++ dq ++ ","
  ++ dq ++ "contextItemId" ++ dq ++ ":" ++ dq ++ "made-up-id" ++ dq ++ ","
  ++ dq ++ "actionIcon" ++ dq ++ ":" ++ dq ++ "star" ++ dq ++ "}".

(** The value it decodes to, and a decoder that knows this text only. *)
Definition claimingReplyDecoded : JSVal :=
  obj [("aiResponseText", JStr "Done!");
       ("contextItemId", JStr "made-up-id");
       ("actionIcon", JStr "star")].

Definition claimingDecoder (text : string) : option JSVal :=
  if String.eqb text claimingReplyJson then Some claimingReplyDecoded else None.

(** The rest of a run of the handler, after the call of the completion
    endpoint. *)
Definition afterUpstream (P : Platform) (outcome : Result JSVal) : Tape -> Reply * Tape :=
  runReply
    (try_catch
       (response <- lift outcome ;;
        aiMessage <- completionText response ;;
        parsedResponse <- parseAIResponse P aiMessage ;;
        ret (Json 200
               (obj [("aiResponseText", aiResponseText parsedResponse);
                     ("actionMetadata", actionMetadata parsedResponse);
                     ("contextItemId", contextItemId parsedResponse);
                     ("contextItemType", contextItemType parsedResponse);
                     ("updatedItemType", updatedItemType parsedResponse);
                     ("actionIcon", actionIcon parsedResponse);
                     ("multipleActions", multipleActions parsedResponse);
                     ("errorDetails", errorDetails parsedResponse)])))
       (upstreamFailure P)).

(** The request sent to the completion endpoint. *)
Definition requestFor (systemPrompt chatInput : JSVal) : JSVal :=
  obj [("model", JStr "anthropic/claude-3-sonnet");
       ("messages",
        JArr [obj [("role", JStr "system"); ("content", systemPrompt)];
              obj [("role", JStr "user"); ("content", chatInput)]]);
       ("max_tokens", JNum 800);
       ("temperature", JNum 0.7)].

(** A request with the input [hello], and what the handler sends to the
    completion endpoint for it. *)
Definition helloBody : JSVal := obj [("chatInput", JStr "hello")].

Definition helloRequest : JSVal :=
  obj [("model", JStr "anthropic/claude-3-sonnet");
       ("messages",
        JArr [obj [("role", JStr "system"); ("content", JStr "You are Reva")];
              obj [("role", JStr "user"); ("content", JStr "hello")]]);
       ("max_tokens", JNum 800);
       ("temperature", JNum 0.7)].

(** [response.data.choices?.[0]?.message?.content], the text of the first
    choice of a completion. *)
Definition contentOf (response : JSVal) : JSVal :=
  get (get (index0 (get (get response "data") "choices")) "message") "content".

(** The error is a [TypeError]. *)
Definition isTypeError (e : JSError) : Prop := exists msg, e = typeError msg.

(** A request whose [chatHistory] is a string. *)
Definition brokenHistoryBody : JSVal :=
  obj [("chatInput", JStr "hello"); ("chatHistory", JStr "oops")].

(** * Properties *)

#[local] Arguments String.append !s1 s2 : simpl nomatch.

(** ** Sample runs of the string functions *)

Example trim_sample : trim ("  Coffee " ++ bytes [194; 160; 10]) = "Coffee".
Proof. vm_compute. reflexivity. Qed.

Example braces_sample :
  regexMatch braceRegex "say {a} and {b} }{ done" = Some "{a} and {b} }".
Proof. reflexivity. Qed.

Example uuid_sample :
  isValidUUID (JStr "a1b2c3d4-e5f6-4789-a012-b3c4d5e6f789") = true
  /\ isValidUUID (JStr "12345678-1234-1234-1234-123456789012") = false
  /\ isValidUUID (JStr "A1B2C3D4-E5F6-4789-B012-B3C4D5E6F789") = true.
Proof. repeat split; reflexivity. Qed.

(** ** Objects and the state monad *)

Lemma get_obj (l : list (string * JSVal)) (k : string) : get (obj l) k = assoc l k.
Proof.
  unfold get, obj. induction l as [|[k' v] rest IH]; simpl.
  - now rewrite lookup_empty.
  - destruct (String.eqb_spec k' k) as [->|Hne].
    + now rewrite lookup_insert_eq.
    + now rewrite lookup_insert_ne.
Qed.

(** Reading a field of an object literal whose keys are literals. *)
Ltac read_fields :=
  repeat (rewrite get_obj; cbn [assoc String.eqb Ascii.eqb Bool.eqb]).

Lemma truthy_or_l (a b : JSVal) : truthy a = true -> a ||| b = a.
Proof. unfold jsOr. now intros ->. Qed.

Lemma truthy_or_r (a b : JSVal) : truthy a = false -> a ||| b = b.
Proof. unfold jsOr. now intros ->. Qed.

(** ** Strings *)

Lemma toLowerCase_app (a b : string) :
  toLowerCase (a ++ b) = toLowerCase a ++ toLowerCase b.
Proof. induction a as [|c a IH]; simpl; [reflexivity | now rewrite IH]. Qed.

Lemma prefix_app (a b : string) : String.prefix a (a ++ b) = true.
Proof.
  induction a as [|c a IH]; simpl.
  - now destruct b.
  - destruct (ascii_dec c c); [exact IH | congruence].
Qed.

Lemma includes_prefix (hay needle : string) :
  String.prefix needle hay = true -> includes hay needle = true.
Proof. destruct hay; simpl; intros ->; reflexivity. Qed.

Lemma includes_app (a b c : string) : includes (a ++ b ++ c) b = true.
Proof.
  induction a as [|x a IH]; simpl.
  - apply includes_prefix, prefix_app.
  - rewrite IH. apply orb_true_r.
Qed.

Lemma existsb_In {A} (f : A -> bool) (l : list A) (x : A) :
  In x l -> f x = true -> existsb f l = true.
Proof. intros Hin Hf. apply existsb_exists. eauto. Qed.

Lemma app_nonempty (a b c : string) : b <> "" -> String.eqb (a ++ b ++ c) "" = false.
Proof.
  intros Hb. destruct a as [|x a]; simpl; [|reflexivity].
  destruct b as [|y b]; [congruence | reflexivity].
Qed.

Lemma identity_phrase_nonempty (mid phrase : string) :
  In phrase identityPhrases -> toLowerCase mid = phrase -> mid <> "".
Proof.
  intros Hin Hlow ->. simpl in Hlow. subst phrase.
  repeat (destruct Hin as [Hin|Hin]; [discriminate Hin|]). destruct Hin.
Qed.

(** ** Request handler *)

(** C9.  A message that contains one of the fixed creator/origin phrases,
    in any mixture of upper and lower case, is answered at once: the
    handler replies with status 200 and the fixed identity sentence, with
    [actionIcon] ["info"] and every other structured field [null].  The
    run ends in [Answer], so the completion endpoint is not called; the
    state is untouched, and the reply does not depend on the prompt
    builder, which is not run. *)
Theorem identity_question_short_circuit
  (P : Platform) (buildBasicPrompt : JSVal -> JSVal -> JSVal -> JSVal -> JSVal -> M string)
  (body : JSVal) (t : Tape) (msg pre mid suf phrase : string) :
  get body "chatInput" = JStr msg ->
  In phrase identityPhrases ->
  msg = pre ++ mid ++ suf ->
  toLowerCase mid = phrase ->
  chatHandler P buildBasicPrompt body t = Answer (Json 200 identityReply) t
  /\ get identityReply "aiResponseText"
     = JStr "I was built with care by some awesome humans, led by Aakash."
  /\ get identityReply "actionIcon" = JStr "info"
  /\ Forall (fun field => get identityReply field = JNull)
       ["actionMetadata"; "contextItemId"; "contextItemType"; "updatedItemType";
        "multipleActions"; "errorDetails"].
Proof.
  intros Hinput Hin Hmsg Hlow.
  assert (Hne : String.eqb msg "" = false).
  { subst msg. apply app_nonempty. eapply identity_phrase_nonempty; eauto. }
  split; [|split; [|split]].
  - unfold chatHandler, isIdentityQuestion. rewrite Hinput. simpl truthy.
    rewrite Hne. simpl negb. cbv iota.
    rewrite (existsb_In (includes (toLowerCase msg)) identityPhrases phrase Hin).
    + reflexivity.
    + subst msg phrase. rewrite !toLowerCase_app. apply includes_app.
  - unfold identityReply. now read_fields.
  - unfold identityReply. now read_fields.
  - unfold identityReply. repeat constructor; now read_fields.
Qed.

Lemma identity_question_short_circuit_witness :
  chatHandler (samplePlatform noDecoder) samplePrompt
    (obj [("chatInput", JStr "Hey, WHO Made YOU?")]) tape0
  = Answer (Json 200 identityReply) tape0.
Proof.
  apply (identity_question_short_circuit (samplePlatform noDecoder) samplePrompt _ tape0
           "Hey, WHO Made YOU?" "Hey, " "WHO Made YOU" "?" "who made you").
  - reflexivity.
  - simpl. auto.
  - reflexivity.
  - reflexivity.
Defined.

(** ** The brace span *)

Lemma substring_prefix (a b : string) : String.substring 0 (String.length a) (a ++ b) = a.
Proof.
  induction a as [|c a IH]; simpl.
  - now destruct b.
  - now rewrite IH.
Qed.

(** After the opening brace, the greedy [[\s\S]*] followed by a closing
    brace stops at the last closing brace of the text. *)
Lemma greedy_close_spec (s : string) :
  match greedyAny (matchHere [Ch "}"]) s with
  | Some n => exists a b, s = a ++ String "}" b /\ n = S (String.length a)
                          /\ occurs "}" b = false
  | None => occurs "}" s = false
  end.
Proof.
  induction s as [|d s IH]; cbn [greedyAny]; [reflexivity|].
  destruct (greedyAny (matchHere [Ch "}"]) s) as [n|].
  - destruct IH as (a & b & -> & -> & Hb). exists (String d a), b. auto.
  - cbn [matchHere occurs]. destruct (Ascii.eqb_spec "}" d) as [<-|Hne]; simpl.
    + exists "", s. auto.
    + exact IH.
Qed.

Lemma occurs_app (c : ascii) (a b : string) :
  occurs c (a ++ b) = occurs c a || occurs c b.
Proof.
  induction a as [|d a IH]; simpl; [reflexivity|].
  now rewrite IH, orb_assoc.
Qed.

Lemma occurs_middle (c : ascii) (a b : string) : occurs c (a ++ String c b) = true.
Proof. rewrite occurs_app. simpl. rewrite Ascii.eqb_refl. apply orb_true_r. Qed.

Lemma matchHere_brace (c : ascii) (s : string) :
  matchHere braceRegex (String c s)
  = if Ascii.eqb "{" c then option_map S (greedyAny (matchHere [Ch "}"]) s) else None.
Proof. reflexivity. Qed.

Lemma regexMatch_step (p : list Item) (c : ascii) (s : string) :
  regexMatch p (String c s)
  = match matchHere p (String c s) with
    | Some n => Some (String.substring 0 n (String c s))
    | None => regexMatch p s
    end.
Proof. reflexivity. Qed.

Lemma substring_span (a b : string) :
  String.substring 0 (S (String.length a)) (a ++ String "}" b) = a ++ "}".
Proof.
  induction a as [|x a IH].
  - simpl. now destruct b.
  - change (String.substring 0 (S (String.length (String x a))) (String x a ++ String "}" b))
      with (String x (String.substring 0 (S (String.length a)) (a ++ String "}" b))).
    now rewrite IH.
Qed.

(** The match of [/\{[\s\S]*\}/] is the span from the first opening brace
    to the last closing brace; there is none exactly when no closing brace
    follows an opening one. *)
Lemma regexMatch_brace_spec (s : string) :
  match regexMatch braceRegex s with
  | Some m =>
      exists pre inner post,
        s = pre ++ String "{" (inner ++ String "}" post)
        /\ m = String "{" (inner ++ "}")
        /\ occurs "{" pre = false /\ occurs "}" post = false
  | None =>
      forall pre inner post, s <> pre ++ String "{" (inner ++ String "}" post)
  end.
Proof.
  induction s as [|c s IH].
  - simpl. intros [|x pre] inner post; discriminate.
  - rewrite regexMatch_step, matchHere_brace.
    destruct (Ascii.eqb_spec "{" c) as [<-|Hne].
    + pose proof (greedy_close_spec s) as Hg.
      destruct (greedyAny (matchHere [Ch "}"]) s) as [n|]; cbn [option_map].
      * destruct Hg as (a & b & Hs & Hn & Hb). subst s n.
        exists "", a, b. repeat split; [|assumption].
        change (String.substring 0 (S (S (String.length a))) (String "{" (a ++ String "}" b)))
          with (String "{" (String.substring 0 (S (String.length a)) (a ++ String "}" b))).
        now rewrite substring_span.
      * assert (Hnone : forall pre inner post,
                   s <> pre ++ String "{" (inner ++ String "}" post)).
        { intros pre inner post ->. rewrite occurs_app in Hg. simpl in Hg.
          rewrite occurs_middle in Hg. rewrite !orb_true_r in Hg. discriminate. }
        destruct (regexMatch braceRegex s) as [m|].
        { destruct IH as (pre & inner & post & Hs & _). now apply Hnone in Hs. }
        { intros [|x pre] inner post; simpl.
          - intros [= Hs]. subst s. rewrite occurs_middle in Hg. discriminate.
          - intros [= _ Hs]. now apply Hnone in Hs. }
    + destruct (regexMatch braceRegex s) as [m|].
      * destruct IH as (pre & inner & post & Hs & Hm & Hpre & Hpost). subst s m.
        exists (String c pre), inner, post. repeat split; [|assumption].
        cbn [occurs]. destruct (Ascii.eqb_spec "{" c); [contradiction | exact Hpre].
      * intros [|x pre] inner post; simpl; intros [= Hc Hs]; [congruence|].
        now apply IH in Hs.
Qed.

(** ** Response parser *)

Ltac run_monad :=
  unfold parseAIResponse, tryStructured, matchBraces, jsonParse, bind, try_catch, ret, throw,
    lift.

(** C3.  For every input string [parseAIResponse] returns a response and
    never throws.  The text it decodes is the outermost brace span: from
    the first opening brace to the last closing brace of the input, and
    there is no span exactly when no closing brace follows an opening one.
    On every decode failure (no span, a span that [JSON.parse] rejects, or
    an exception leaving the dispatcher) the response is the raw input as
    [aiResponseText] with the seven structured fields [null]; otherwise it
    is the merge of the decoded envelope with the dispatcher's fragment. *)
Theorem parseAIResponse_never_throws (P : Platform) (s : string) (t : Tape) :
  let plain :=
    {| aiResponseText := JStr s; actionMetadata := JNull; contextItemId := JNull;
       contextItemType := JNull; updatedItemType := JNull; actionIcon := JNull;
       multipleActions := JNull; errorDetails := JNull |} in
  (exists response t', parseAIResponse P (JStr s) t = (Ok response, t'))
  /\ match regexMatch braceRegex s with
     | Some span =>
         (exists pre inner post,
             s = pre ++ String "{" (inner ++ String "}" post)
             /\ span = String "{" (inner ++ "}")
             /\ occurs "{" pre = false /\ occurs "}" post = false)
         /\ match JSON_parse P span with
            | None => parseAIResponse P (JStr s) t = (Ok plain, t)
            | Some parsed =>
                match executeToolIfNeeded P parsed t with
                | (Throw _, t') => parseAIResponse P (JStr s) t = (Ok plain, t')
                | (Ok toolResult, t') =>
                    parseAIResponse P (JStr s) t
                    = (Ok (merge (JStr s) parsed toolResult), t')
                end
            end
     | None =>
         (forall pre inner post, s <> pre ++ String "{" (inner ++ String "}" post))
         /\ parseAIResponse P (JStr s) t = (Ok plain, t)
     end.
Proof.
  intros plain. pose proof (regexMatch_brace_spec s) as Hspan. split.
  - run_monad.
    destruct (regexMatch braceRegex s) as [span|]; [|eauto].
    destruct (JSON_parse P span) as [parsed|]; [|eauto].
    destruct (executeToolIfNeeded P parsed t) as [[toolResult|e] t']; eauto.
  - destruct (regexMatch braceRegex s) as [span|] eqn:Hmatch.
    + split; [exact Hspan|].
      destruct (JSON_parse P span) as [parsed|] eqn:Hparse.
      * destruct (executeToolIfNeeded P parsed t) as [[toolResult|e] t'] eqn:Hexec;
          run_monad; rewrite Hmatch, Hparse, Hexec; reflexivity.
      * run_monad. rewrite Hmatch, Hparse. reflexivity.
    + split; [exact Hspan|]. run_monad. rewrite Hmatch. reflexivity.
Qed.

(** The three kinds of decode failure, and the inputs named by the
    specification: no braces (the empty string), unbalanced braces, a span
    that is not JSON, and an exception that leaves the dispatcher. *)
Example parseAIResponse_degrades :
  Forall (fun text =>
            fst (parseAIResponse (samplePlatform sampleDecoder) (JStr text) tape0)
            = Ok (plainText (JStr text)))
    [""; "no braces here"; "} unbalanced {"; "{ not json }"; "{a} and {b}"; oddReplyJson]
  /\ exists e t',
       executeToolIfNeeded (samplePlatform sampleDecoder) oddReplyDecoded tape0
       = (Throw e, t').
Proof.
  split.
  - repeat constructor; vm_compute; reflexivity.
  - eexists. eexists. vm_compute. reflexivity.
Qed.

(** ** Identifier generator *)

#[local] Arguments uuidRegex_test : simpl never.
#[local] Arguments isValidUUID : simpl never.

Lemma matchExact_spec (p : list CharClass) :
  forall s, matchExact p s = true ->
    String.length s = length p
    /\ forall i cl, nth_error p i = Some cl ->
         exists c, String.get i s = Some c /\ classMatches cl c = true.
Proof.
  induction p as [|cl p IH]; intros [|c s] H; simpl in H; try discriminate.
  - split; [reflexivity|]. intros [|i] cl' Hi; discriminate.
  - apply andb_true_iff in H as [Hc Hs]. destruct (IH s Hs) as [Hlen Hnth].
    split; [simpl; now rewrite Hlen|].
    intros [|i] cl' Hi; simpl in *.
    + injection Hi as <-. eauto.
    + now apply Hnth.
Qed.

Lemma classMatches_Lit (d c : ascii) : classMatches (Lit d) c = true -> c = d.
Proof. simpl. now intros ->%Ascii.eqb_eq. Qed.

Lemma classMatches_Hex (c : ascii) :
  classMatches Hex c = true -> exists v, nibble c = Some v.
Proof. simpl. destruct (nibble c) as [v|]; [eauto | discriminate]. Qed.

Lemma classMatches_Variant (c : ascii) :
  classMatches Variant c = true -> exists v, nibble c = Some v /\ In v [8; 9; 10; 11].
Proof.
  cbn [classMatches]. destruct (nibble c) as [v|]; [|discriminate].
  intros [H8 H11]%andb_true_iff. apply Nat.leb_le in H8, H11.
  exists v. split; [reflexivity|]. simpl. lia.
Qed.

Lemma uuidRegex_canonical (s : string) : uuidRegex_test s = true -> canonicalFormat s.
Proof.
  intros H. apply matchExact_spec in H as [Hlen Hnth].
  assert (Hat : forall i cl, nth_error uuidRegex i = Some cl ->
                  exists c, String.get i s = Some c /\ classMatches cl c = true)
    by exact Hnth.
  unfold canonicalFormat. repeat split.
  - exact Hlen.
  - intros i Hi. simpl in Hi.
    destruct Hi as [<-|[<-|[<-|[<-|[]]]]];
      match goal with
      | |- String.get ?k s = _ =>
          destruct (Hat k (Lit "-") eq_refl) as (c & Hc & Hm);
          apply classMatches_Lit in Hm; now subst c
      end.
  - intros i Hi Hnot.
    do 36 (destruct i as [|i];
           [ first [ exfalso; apply Hnot; simpl; tauto
                   | match goal with
                     | |- exists c v, String.get ?k s = _ /\ _ =>
                         first [ destruct (Hat k Hex eq_refl) as (c & Hc & Hm);
                                 apply classMatches_Hex in Hm as [v Hv]; eauto
                               | destruct (Hat k (Lit "4") eq_refl) as (c & Hc & Hm);
                                 apply classMatches_Lit in Hm; subst c; eauto
                               | destruct (Hat k Variant eq_refl) as (c & Hc & Hm);
                                 apply classMatches_Variant in Hm as (v & Hv & _); eauto ]
                     end ]
           | ]).
    lia.
  - edestruct (Hat 14) as (c & Hc & Hm); [reflexivity|].
    apply classMatches_Lit in Hm. subst c. eauto.
  - edestruct (Hat 19) as (c & Hc & Hm); [reflexivity|].
    apply classMatches_Variant in Hm as (v & Hv & Hin). eauto.
Qed.

(** [Math.random] is the only source the template construction draws. *)
Lemma replaceXY_tape (P : Platform) (template : string) :
  forall t r t', replaceXY P template t = (r, t') ->
    uuidCalls t' = uuidCalls t
    /\ byteCalls t' = byteCalls t
    /\ clockReads t' = clockReads t
    /\ forall candidate, r = Ok candidate ->
         randomCalls t' = randomCalls t + countXY template.
Proof.
  induction template as [|c rest IH]; intros t r t'; cbn [replaceXY countXY].
  - unfold ret. intros [= <- <-]. auto.
  - destruct (Ascii.eqb c "x" || Ascii.eqb c "y"); unfold bind, mathRandom, ret.
    + destruct (Math_random P (randomCalls t)) as [x|e].
      * destruct (replaceXY P rest _) as [[rest'|e] t1] eqn:Hrest;
          apply IH in Hrest as (Hu & Hb & Hc & Hr); simpl in *;
          intros [= <- <-]; repeat split; auto; try discriminate.
        intros _ _. rewrite (Hr rest' eq_refl). lia.
      * intros [= <- <-]. simpl. repeat split; auto. discriminate.
    + destruct (replaceXY P rest t) as [[rest'|e] t1] eqn:Hrest;
        apply IH in Hrest as (Hu & Hb & Hc & Hr);
        intros [= <- <-]; repeat split; auto; try discriminate.
      intros _ _. now rewrite (Hr rest' eq_refl).
Qed.

(** Its outcome depends on the state through the number of draws of
    [Math.random] only. *)
Lemma replaceXY_random_only (P : Platform) (template : string) :
  forall t1 t2, randomCalls t1 = randomCalls t2 ->
    fst (replaceXY P template t1) = fst (replaceXY P template t2).
Proof.
  induction template as [|c rest IH]; intros t1 t2 Heq; cbn [replaceXY]; [reflexivity|].
  destruct (Ascii.eqb c "x" || Ascii.eqb c "y"); unfold bind, mathRandom, ret.
  - rewrite Heq. destruct (Math_random P (randomCalls t2)) as [x|e]; [|reflexivity].
    set (a := {| uuidCalls := uuidCalls t1; byteCalls := byteCalls t1;
                 randomCalls := S (randomCalls t2); clockReads := clockReads t1 |}).
    set (b := {| uuidCalls := uuidCalls t2; byteCalls := byteCalls t2;
                 randomCalls := S (randomCalls t2); clockReads := clockReads t2 |}).
    pose proof (IH a b eq_refl) as Hab.
    destruct (replaceXY P rest a) as [[r1|e1] a'];
      destruct (replaceXY P rest b) as [[r2|e2] b']; simpl in *; congruence.
  - pose proof (IH t1 t2 Heq) as Hab.
    destruct (replaceXY P rest t1) as [[r1|e1] a'];
      destruct (replaceXY P rest t2) as [[r2|e2] b']; simpl in *; congruence.
Qed.

Lemma countXY_template : countXY uuidTemplate = 31.
Proof. reflexivity. Qed.

(** What [generateFallbackUUID] returns has passed the validator: the
    candidate of [crypto.randomBytes] if it validates, a candidate built
    from 31 draws of [Math.random] otherwise. *)
Lemma generateFallbackUUID_ok (P : Platform) (t t' : Tape) (uuid : string) :
  generateFallbackUUID P t = (Ok uuid, t') ->
  isValidUUID (JStr uuid) = true
  /\ uuidCalls t' = uuidCalls t
  /\ byteCalls t' = S (byteCalls t)
  /\ match crypto_randomBytes P (byteCalls t) with
     | Ok buf =>
         if isValidUUID (JStr (cryptoCandidate buf))
         then uuid = cryptoCandidate buf /\ randomCalls t' = randomCalls t
         else randomCalls t' = randomCalls t + 31
     | Throw _ => randomCalls t' = randomCalls t + 31
     end.
Proof.
  unfold generateFallbackUUID, bind, try_catch, dateNow, randomBytes16, isoNow, ret, throw.
  cbn [tick uuidCalls byteCalls randomCalls clockReads].
  set (t2 := {| uuidCalls := uuidCalls t; byteCalls := S (byteCalls t);
                randomCalls := randomCalls t; clockReads := S (clockReads t) |}).
  pose proof (replaceXY_tape P uuidTemplate t2) as Htape.
  rewrite countXY_template in Htape.
  destruct (crypto_randomBytes P (byteCalls t)) as [buf|cryptoError].
  - destruct (isValidUUID (JStr (cryptoCandidate buf))) eqn:Hvalid; cbn [negb].
    + intros [= <- <-]. auto.
    + destruct (replaceXY P uuidTemplate t2) as [[candidate|mathError] t3]; [|discriminate].
      destruct (Htape _ _ eq_refl) as (Hu & Hb & _ & Hr).
      destruct (isValidUUID (JStr candidate)) eqn:Hmath; cbn [negb]; [|discriminate].
      intros [= <- <-]. simpl in *. rewrite (Hr candidate eq_refl). auto.
  - destruct (replaceXY P uuidTemplate t2) as [[candidate|mathError] t3]; [|discriminate].
    destruct (Htape _ _ eq_refl) as (Hu & Hb & _ & Hr).
    destruct (isValidUUID (JStr candidate)) eqn:Hmath; cbn [negb]; [|discriminate].
    intros [= <- <-]. simpl in *. rewrite (Hr candidate eq_refl). auto.
Qed.

(** What [generateUUID] returns has passed the validator, and the tiers
    are tried in order, each only after the one before was rejected. *)
Lemma generateUUID_ok (P : Platform) (t t' : Tape) (uuid : string) :
  generateUUID P t = (Ok uuid, t') ->
  isValidUUID (JStr uuid) = true
  /\ match uuid_v4 P (uuidCalls t) with
     | Ok candidate =>
         if uuidRegex_test candidate
         then uuid = candidate /\ byteCalls t' = byteCalls t /\ randomCalls t' = randomCalls t
         else byteCalls t' = S (byteCalls t)
     | Throw _ => byteCalls t' = S (byteCalls t)
     end
  /\ (byteCalls t' = S (byteCalls t) ->
      match crypto_randomBytes P (byteCalls t) with
      | Ok buf =>
          if isValidUUID (JStr (cryptoCandidate buf))
          then uuid = cryptoCandidate buf /\ randomCalls t' = randomCalls t
          else randomCalls t' = randomCalls t + 31
      | Throw _ => randomCalls t' = randomCalls t + 31
      end).
Proof.
  unfold generateUUID, bind, try_catch, uuidv4, isoNow, ret, throw.
  set (t1 := {| uuidCalls := S (uuidCalls t); byteCalls := byteCalls t;
                randomCalls := randomCalls t; clockReads := clockReads t |}).
  assert (Hfallback : forall u t2, generateFallbackUUID P t1 = (Ok u, t2) ->
            isValidUUID (JStr u) = true /\ byteCalls t2 = S (byteCalls t)
            /\ match crypto_randomBytes P (byteCalls t) with
               | Ok buf =>
                   if isValidUUID (JStr (cryptoCandidate buf))
                   then u = cryptoCandidate buf /\ randomCalls t2 = randomCalls t
                   else randomCalls t2 = randomCalls t + 31
               | Throw _ => randomCalls t2 = randomCalls t + 31
               end).
  { intros u t2 Hfb. apply generateFallbackUUID_ok in Hfb as (Hv & _ & Hb & Hr).
    auto. }
  destruct (uuid_v4 P (uuidCalls t)) as [candidate|error].
  - destruct (uuidRegex_test candidate) eqn:Htest; cbn [negb].
    + intros [= <- <-]. simpl. repeat split; auto. intros Habs. lia.
    + destruct (generateFallbackUUID P t1) as [[u|fallbackError] t2] eqn:Hfb;
        [|discriminate].
      intros [= <- <-]. destruct (Hfallback u t2 eq_refl) as (Hv & Hb & Hr). auto.
  - destruct (generateFallbackUUID P t1) as [[u|fallbackError] t2] eqn:Hfb;
      [|discriminate].
    intros [= <- <-]. destruct (Hfallback u t2 eq_refl) as (Hv & Hb & Hr). auto.
Qed.

(** C4.  An identifier returned by [generateUUID] passes the validator
    and has the canonical format, whichever tier produced it.  The
    candidate of the uuid package is returned only if it validates;
    otherwise [crypto.randomBytes] is drawn, and its candidate is returned
    only if it validates; otherwise the identifier comes from 31 draws of
    [Math.random].  No candidate that fails validation is returned. *)
Theorem generateUUID_returns_valid (P : Platform) (t t' : Tape) (uuid : string) :
  generateUUID P t = (Ok uuid, t') ->
  isValidUUID (JStr uuid) = true
  /\ canonicalFormat uuid
  /\ match uuid_v4 P (uuidCalls t) with
     | Ok candidate =>
         if uuidRegex_test candidate
         then uuid = candidate /\ byteCalls t' = byteCalls t /\ randomCalls t' = randomCalls t
         else byteCalls t' = S (byteCalls t)
     | Throw _ => byteCalls t' = S (byteCalls t)
     end
  /\ (byteCalls t' = S (byteCalls t) ->
      match crypto_randomBytes P (byteCalls t) with
      | Ok buf =>
          if isValidUUID (JStr (cryptoCandidate buf))
          then uuid = cryptoCandidate buf /\ randomCalls t' = randomCalls t
          else randomCalls t' = randomCalls t + 31
      | Throw _ => randomCalls t' = randomCalls t + 31
      end).
Proof.
  intros Hgen. destruct (generateUUID_ok P t t' uuid Hgen) as (Hv & Htier1 & Htier2).
  repeat split; try assumption; apply (uuidRegex_canonical uuid Hv).
Qed.

Lemma generateUUID_returns_valid_witness :
  generateUUID (samplePlatform noDecoder) tape0
  = (Ok "a1b2c3d4-e5f6-4789-a012-b3c4d5e6f700",
     {| uuidCalls := 1; byteCalls := 0; randomCalls := 0; clockReads := 0 |})
  /\ isValidUUID (JStr "a1b2c3d4-e5f6-4789-a012-b3c4d5e6f700") = true
  /\ canonicalFormat "a1b2c3d4-e5f6-4789-a012-b3c4d5e6f700".
Proof.
  assert (Hrun : generateUUID (samplePlatform noDecoder) tape0
                 = (Ok "a1b2c3d4-e5f6-4789-a012-b3c4d5e6f700",
                    {| uuidCalls := 1; byteCalls := 0; randomCalls := 0; clockReads := 0 |}))
    by reflexivity.
  split; [exact Hrun|].
  destruct (generateUUID_returns_valid _ _ _ _ Hrun) as (Hvalid & Hformat & _).
  split; assumption.
Defined.

(** The fallback tiers at work: the package returns a malformed value, so
    the identifier is built from [crypto.randomBytes]; when that source
    fails as well, from [Math.random]. *)
Example generateUUID_falls_back :
  fst (generateUUID
         {| JSON_parse := noDecoder;
            uuid_v4 := fun _ => Ok "not-a-uuid";
            crypto_randomBytes := fun _ => Ok (repeat 171%Z 16);
            Math_random := fun _ => Ok 0.5%float;
            Date_now := fun _ => 0%float;
            Date_toISOString := fun _ => "";
            Date_isNaN := fun _ => Some false;
            Number_toString := fun _ => "";
            NODE_ENV_development := false;
            Error_stack := fun _ => "" |} tape0)
  = Ok "abababab-abab-4bab-abab-abababababab"
  /\ fst (generateUUID
            {| JSON_parse := noDecoder;
               uuid_v4 := fun _ => Ok "not-a-uuid";
               crypto_randomBytes := fun _ => Throw (newError "crypto module unavailable");
               Math_random := fun _ => Ok 0.5%float;
               Date_now := fun _ => 0%float;
               Date_toISOString := fun _ => "";
               Date_isNaN := fun _ => Some false;
               Number_toString := fun _ => "";
               NODE_ENV_development := false;
               Error_stack := fun _ => "" |} tape0)
     = Ok "88888888-8888-4888-8888-888888888888".
Proof. split; vm_compute; reflexivity. Qed.

(** When [generateFallbackUUID] throws, both of its tiers were rejected. *)
Lemma generateFallbackUUID_throw (P : Platform) (t t' : Tape) (e : JSError) :
  generateFallbackUUID P t = (Throw e, t') ->
  tier2Rejected P t /\ tier3Rejected P t
  /\ message e = "All UUID fallback methods failed"
  /\ clockReads t' = clockReads t + 3.
Proof.
  unfold generateFallbackUUID, bind, try_catch, dateNow, randomBytes16, isoNow, ret, throw,
    tier2Rejected, tier3Rejected.
  cbn [tick uuidCalls byteCalls randomCalls clockReads].
  set (t2 := {| uuidCalls := uuidCalls t; byteCalls := S (byteCalls t);
                randomCalls := randomCalls t; clockReads := S (clockReads t) |}).
  rewrite <- (replaceXY_random_only P uuidTemplate t2 t eq_refl).
  pose proof (replaceXY_tape P uuidTemplate t2) as Htape.
  destruct (crypto_randomBytes P (byteCalls t)) as [buf|cryptoError].
  - destruct (isValidUUID (JStr (cryptoCandidate buf))) eqn:Hvalid; cbn [negb];
      [discriminate|].
    destruct (replaceXY P uuidTemplate t2) as [[candidate|mathError] t3];
      destruct (Htape _ _ eq_refl) as (_ & _ & Hc & _); cbn [fst].
    + destruct (isValidUUID (JStr candidate)) eqn:Hmath; cbn [negb]; [discriminate|].
      intros [= <- <-]. simpl in *. repeat split; auto. lia.
    + intros [= <- <-]. simpl in *. repeat split; auto. lia.
  - destruct (replaceXY P uuidTemplate t2) as [[candidate|mathError] t3];
      destruct (Htape _ _ eq_refl) as (_ & _ & Hc & _); cbn [fst].
    + destruct (isValidUUID (JStr candidate)) eqn:Hmath; cbn [negb]; [discriminate|].
      intros [= <- <-]. simpl in *. repeat split; auto. lia.
    + intros [= <- <-]. simpl in *. repeat split; auto. lia.
Qed.

Lemma errProp_setProp (k : string) (v : JSVal) (e : JSError) (k' : string) :
  errProp (setProp k v e) k' = if String.eqb k k' then v else errProp e k'.
Proof.
  unfold errProp, setProp. cbn [props].
  destruct (String.eqb_spec k k') as [->|Hne].
  - now rewrite lookup_insert_eq.
  - now rewrite lookup_insert_ne.
Qed.

Lemma errProp_newError (msg k : string) : errProp (newError msg) k = JUndefined.
Proof. unfold errProp, newError. cbn [props]. now rewrite lookup_empty. Qed.

Lemma errProp_codedError (msg c k : string) :
  errProp (codedError msg c) k = if String.eqb "code" k then JStr c else JUndefined.
Proof. unfold codedError. now rewrite errProp_setProp, errProp_newError. Qed.

Lemma retryable_code (e : JSError) :
  errProp e "code" = JStr "UUID_GENERATION_FAILURE" -> isRetryableError e = true.
Proof. unfold isRetryableError. now intros ->. Qed.

Lemma tier2Rejected_bytes_only (P : Platform) (t1 t2 : Tape) :
  byteCalls t1 = byteCalls t2 -> tier2Rejected P t1 -> tier2Rejected P t2.
Proof. unfold tier2Rejected. now intros ->. Qed.

Lemma tier3Rejected_random_only (P : Platform) (t1 t2 : Tape) :
  randomCalls t1 = randomCalls t2 -> tier3Rejected P t1 -> tier3Rejected P t2.
Proof.
  intros Heq. unfold tier3Rejected.
  now rewrite (replaceXY_random_only P uuidTemplate t1 t2 Heq).
Qed.

(** C5, as amended.  [generateUUID] throws only when each of the three
    tiers was tried and rejected.  The error is then exactly: message
    "UUID generation system failure", code [UUID_GENERATION_FAILURE],
    [primaryError] the message of the failure of the first tier,
    [fallbackError] the summary "All UUID fallback methods failed" of the
    fallback chain (the messages of the second and third tier are not on
    it), and a [timestamp] read from the clock; the classifier marks it
    retryable. *)
Theorem generateUUID_failure (P : Platform) (t t' : Tape) (e : JSError) :
  generateUUID P t = (Throw e, t') ->
  (tier1Rejected P t /\ tier2Rejected P t /\ tier3Rejected P t)
  /\ e = setProp "timestamp" (JStr (Date_toISOString P (clockReads t + 3)))
           (setProp "fallbackError" (JStr "All UUID fallback methods failed")
              (setProp "primaryError" (JStr (tier1Message P t))
                 (codedError "UUID generation system failure" "UUID_GENERATION_FAILURE")))
  /\ isRetryableError e = true.
Proof.
  unfold generateUUID, bind, try_catch, uuidv4, isoNow, ret, throw, tier1Rejected,
    tier1Message.
  set (t1 := {| uuidCalls := S (uuidCalls t); byteCalls := byteCalls t;
                randomCalls := randomCalls t; clockReads := clockReads t |}).
  assert (Hfallback : forall fe t2, generateFallbackUUID P t1 = (Throw fe, t2) ->
            tier2Rejected P t /\ tier3Rejected P t
            /\ message fe = "All UUID fallback methods failed"
            /\ clockReads t2 = clockReads t + 3).
  { intros fe t2 Hfb. apply generateFallbackUUID_throw in Hfb as (H2 & H3 & Hm & Hc).
    split; [|split]; [ | | auto].
    - exact (tier2Rejected_bytes_only P t1 t eq_refl H2).
    - exact (tier3Rejected_random_only P t1 t eq_refl H3). }
  destruct (uuid_v4 P (uuidCalls t)) as [candidate|error].
  - destruct (uuidRegex_test candidate) eqn:Htest; cbn [negb]; [discriminate|].
    destruct (generateFallbackUUID P t1) as [[u|fe] t2] eqn:Hfb; [discriminate|].
    destruct (Hfallback fe t2 eq_refl) as (H2 & H3 & Hm & Hc).
    intros [= <- <-]. rewrite Hm, Hc.
    split; [tauto|]. split; [reflexivity|].
    apply retryable_code. now rewrite !errProp_setProp, errProp_codedError.
  - destruct (generateFallbackUUID P t1) as [[u|fe] t2] eqn:Hfb; [discriminate|].
    destruct (Hfallback fe t2 eq_refl) as (H2 & H3 & Hm & Hc).
    intros [= <- <-]. rewrite Hm, Hc.
    split; [tauto|]. split; [reflexivity|].
    apply retryable_code. now rewrite !errProp_setProp, errProp_codedError.
Qed.

(** On a platform where every tier fails the generator fails, and the
    failure carries the message of the first tier but neither the message
    of [crypto.randomBytes] nor that of [Math.random]. *)
Lemma fallback_messages_not_carried :
  exists e t',
    generateUUID brokenPlatform tape0 = (Throw e, t')
    /\ errProp e "code" = JStr "UUID_GENERATION_FAILURE"
    /\ carriesMessage e "uuid package unavailable" = true
    /\ carriesMessage e "crypto module unavailable" = false
    /\ carriesMessage e "Math.random is not a function" = false.
Proof.
  eexists. eexists. split; [vm_compute; reflexivity|].
  repeat split; vm_compute; reflexivity.
Qed.

Lemma generateUUID_failure_witness :
  exists e t',
    generateUUID brokenPlatform tape0 = (Throw e, t')
    /\ errProp e "primaryError" = JStr "uuid package unavailable"
    /\ errProp e "fallbackError" = JStr "All UUID fallback methods failed"
    /\ errProp e "timestamp" = JStr "2024-01-15T10:00:00.000Z"
    /\ isRetryableError e = true.
Proof.
  destruct (generateUUID brokenPlatform tape0) as [[u|e] t'] eqn:Hrun;
    [vm_compute in Hrun; discriminate Hrun|].
  exists e, t'. split; [reflexivity|].
  destruct (generateUUID_failure brokenPlatform tape0 t' e Hrun) as (_ & -> & Hretry).
  split; [|split; [|split]]; try exact Hretry; now rewrite !errProp_setProp.
Defined.

(** ** Update tools *)

Lemma get_defined_object (v : JSVal) (k : string) :
  get v k <> JUndefined -> exists m, v = JObj m.
Proof. destruct v; cbn [get]; try congruence. eauto. Qed.

Lemma nonempty_string_truthy (s : string) : s <> "" -> truthy (JStr s) = true.
Proof.
  intros Hne. cbn [truthy]. destruct (String.eqb_spec s ""); [contradiction | reflexivity].
Qed.

Lemma valid_id_is_string (v : JSVal) :
  isValidUUID v = true -> exists s, v = JStr s /\ s <> "".
Proof.
  destruct v as [| | | |s| |]; try discriminate. intros H. exists s. split; [reflexivity|].
  intros ->. discriminate H.
Qed.

Lemma valid_id_checks (v : JSVal) :
  isValidUUID v = true -> truthy v = true /\ notNonEmptyString v = false.
Proof.
  intros (s & -> & Hne)%valid_id_is_string.
  unfold notNonEmptyString. rewrite (nonempty_string_truthy s Hne). auto.
Qed.

Lemma errProp_annotate (tool : string) (params : JSVal) (e : JSError) :
  errProp (annotate tool params e) "code" = errProp e "code".
Proof. unfold annotate. now rewrite !errProp_setProp. Qed.

Lemma annotated_code (tool : string) (params : JSVal) (msg c : string) :
  errProp (annotate tool params (codedError msg c)) "code" = JStr c.
Proof. now rewrite errProp_annotate, errProp_codedError. Qed.

Lemma updatesRejected_iff (m : gmap string JSVal) :
  updatesRejected (JObj m) = true
  <-> truthy (get (JObj m) "updates") = true
      /\ typeof (get (JObj m) "updates") <> "object".
Proof.
  unfold updatesRejected, updatesOf, jsOr.
  destruct (truthy (get (JObj m) "updates")) eqn:Htruthy.
  - rewrite Htruthy. cbn [negb orb].
    destruct (String.eqb_spec (typeof (get (JObj m) "updates")) "object") as [->|Hne];
      cbn [negb]; split; intros H; try discriminate; auto.
    now destruct H.
  - cbn. split; [discriminate | now intros []].
Qed.

Lemma executeUpdateTask_run (m : gmap string JSVal) (id : string) (t : Tape) :
  get (JObj m) "taskId" ||| get (JObj m) "id" = JStr id ->
  isValidUUID (JStr id) = true ->
  executeUpdateTask (JObj m) t
  = if updatesRejected (JObj m)
    then (Throw (annotate "updateTask" (JObj m)
                   (codedError "Update data is required" "MISSING_UPDATE_DATA")), t)
    else (Ok (obj [("actionMetadata",
                    obj [("tool", JStr "updateTask"); ("task_id", JStr id);
                         ("updates", updatesOf (JObj m))]);
                   ("contextItemId", JStr id);
                   ("contextItemType", JStr "task");
                   ("updatedItemType", JStr "task");
                   ("actionIcon", JStr "edit")]), t).
Proof.
  intros Hid Hvalid. destruct (valid_id_checks _ Hvalid) as [_ Hcheck].
  unfold executeUpdateTask, try_catch, bind, ret, throw. cbn [readable].
  rewrite Hid, Hcheck, Hvalid. cbn [negb].
  fold (updatesOf (JObj m)). fold (updatesRejected (JObj m)).
  now destruct (updatesRejected (JObj m)).
Qed.

Lemma executeUpdateReminder_run (P : Platform) (m : gmap string JSVal) (id : string)
  (t : Tape) :
  get (JObj m) "reminderId" ||| get (JObj m) "id" = JStr id ->
  isValidUUID (JStr id) = true ->
  executeUpdateReminder P (JObj m) t
  = if updatesRejected (JObj m)
    then (Throw (annotate "updateReminder" (JObj m)
                   (codedError "Update data is required" "MISSING_UPDATE_DATA")), t)
    else
      match checkScheduledTime P (get (updatesOf (JObj m)) "scheduledTime")
              "Invalid scheduled time format in updates" t with
      | (Ok _, _) =>
          (Ok (obj [("actionMetadata",
                     obj [("tool", JStr "updateReminder"); ("reminder_id", JStr id);
                          ("updates", updatesOf (JObj m))]);
                    ("contextItemId", JStr id);
                    ("contextItemType", JStr "reminder");
                    ("updatedItemType", JStr "reminder");
                    ("actionIcon", JStr "edit")]), t)
      | (Throw e, _) => (Throw (annotate "updateReminder" (JObj m) e), t)
      end.
Proof.
  intros Hid Hvalid. destruct (valid_id_checks _ Hvalid) as [_ Hcheck].
  unfold executeUpdateReminder, try_catch, bind, ret, throw. cbn [readable].
  rewrite Hid, Hcheck, Hvalid. cbn [negb].
  fold (updatesOf (JObj m)). fold (updatesRejected (JObj m)).
  destruct (updatesRejected (JObj m)); [reflexivity|].
  unfold checkScheduledTime, ret, throw.
  destruct (truthy (get (updatesOf (JObj m)) "scheduledTime")); [|reflexivity].
  destruct (Date_isNaN P _) as [[|]|]; reflexivity.
Qed.

Lemma executeUpdateGoal_run (m : gmap string JSVal) (id : string) (t : Tape) :
  get (JObj m) "goalId" ||| get (JObj m) "id" = JStr id ->
  isValidUUID (JStr id) = true ->
  executeUpdateGoal (JObj m) t
  = if updatesRejected (JObj m)
    then (Throw (annotate "updateGoal" (JObj m)
                   (codedError "Update data is required" "MISSING_UPDATE_DATA")), t)
    else if badTarget (get (updatesOf (JObj m)) "target")
    then (Throw (annotate "updateGoal" (JObj m)
                   (codedError "Goal target must be a positive number"
                      "INVALID_GOAL_TARGET")), t)
    else if badProgress (get (updatesOf (JObj m)) "progress")
    then (Throw (annotate "updateGoal" (JObj m)
                   (codedError "Goal progress must be a non-negative number"
                      "INVALID_GOAL_PROGRESS")), t)
    else (Ok (obj [("actionMetadata",
                    obj [("tool", JStr "updateGoal"); ("goal_id", JStr id);
                         ("updates", updatesOf (JObj m))]);
                   ("contextItemId", JStr id);
                   ("contextItemType", JStr "goal");
                   ("updatedItemType", JStr "goal");
                   ("actionIcon", JStr "edit")]), t).
Proof.
  intros Hid Hvalid. destruct (valid_id_checks _ Hvalid) as [_ Hcheck].
  unfold executeUpdateGoal, try_catch, bind, ret, throw. cbn [readable].
  rewrite Hid, Hcheck, Hvalid. cbn [negb].
  fold (updatesOf (JObj m)). fold (updatesRejected (JObj m)).
  destruct (updatesRejected (JObj m)); [reflexivity|].
  destruct (badTarget _); [reflexivity|].
  now destruct (badProgress _).
Qed.

(** ** Dispatcher *)

Lemma template_string (P : Platform) (name : string) (t : Tape) :
  template P (JStr name) t = (Ok name, t).
Proof. reflexivity. Qed.

(** The classifier's record for a failure of a tool with a string name. *)
Lemma createToolErrorResponse_named (P : Platform) (name : string) (e : JSError)
  (params : JSVal) (t : Tape) :
  exists response,
    createToolErrorResponse P (JStr name) e params t = (Ok response, tick t)
    /\ get response "error" = JBool true
    /\ get response "tool" = JStr name
    /\ get (get response "technicalDetails") "errorCode"
       = (errProp e "code" ||| JStr "UNKNOWN_ERROR")
    /\ get response "retryable" = JBool (isRetryableError e).
Proof.
  unfold createToolErrorResponse, bind, isoNow, ret. rewrite template_string.
  eexists. split; [reflexivity|]. repeat split; now read_fields.
Qed.

(** The dispatcher on an envelope that names a tool by a string and has
    parameters: the result of the tool, or the failure fragment built by
    the classifier. *)
Lemma executeToolIfNeeded_named (P : Platform) (parsed params : JSVal) (name : string)
  (t : Tape) :
  nullish parsed = false ->
  get parsed "tool" ||| get parsed "selectedTool" = JStr name ->
  name <> "" ->
  get parsed "toolParams" ||| get parsed "parameters" = params ->
  truthy params = true ->
  executeToolIfNeeded P parsed t
  = match dispatch P (JStr name) params t with
    | (Ok result, t1) => (Ok result, t1)
    | (Throw e, t1) =>
        match createToolErrorResponse P (JStr name) e params t1 with
        | (Ok response, t2) => (Ok (obj [("errorDetails", response)]), t2)
        | (Throw e', t2) => (Throw e', t2)
        end
    end.
Proof.
  intros Hparsed Hname Hne Hparams Htruthy.
  unfold executeToolIfNeeded. rewrite Hname, Hparams, Htruthy.
  rewrite (nonempty_string_truthy name Hne). cbn [negb].
  assert (Hread : readable parsed "tool" t = (Ok tt, t)) by (now destruct parsed).
  unfold bind at 1. rewrite Hread.
  unfold try_catch, bind, ret. rewrite template_string.
  destruct (dispatch P (JStr name) params t) as [[result|e] t1].
  - now rewrite template_string.
  - destruct (createToolErrorResponse P (JStr name) e params t1) as [[response|e'] t2];
      [now rewrite template_string | reflexivity].
Qed.

Lemma envelope_fields (tool : string) (params : JSVal) :
  nullish (envelope tool params) = false
  /\ (tool <> "" ->
      get (envelope tool params) "tool" ||| get (envelope tool params) "selectedTool"
      = JStr tool)
  /\ (truthy params = true ->
      get (envelope tool params) "toolParams" ||| get (envelope tool params) "parameters"
      = params).
Proof.
  unfold envelope. split; [reflexivity|]. split; intros H; read_fields.
  - now apply truthy_or_l, nonempty_string_truthy.
  - now apply truthy_or_l.
Qed.

(** A failed tool call through the dispatcher: no [actionMetadata], no
    [multipleActions], and the error code of the tool in [errorDetails]. *)
Lemma dispatcher_failure_fragment (P : Platform) (tool : string) (params : JSVal)
  (e : JSError) (t t1 : Tape) :
  tool <> "" -> truthy params = true ->
  dispatch P (JStr tool) params t = (Throw e, t1) ->
  exists fragment,
    executeToolIfNeeded P (envelope tool params) t = (Ok fragment, tick t1)
    /\ get fragment "actionMetadata" = JUndefined
    /\ get fragment "multipleActions" = JUndefined
    /\ get (get (get fragment "errorDetails") "technicalDetails") "errorCode"
       = (errProp e "code" ||| JStr "UNKNOWN_ERROR").
Proof.
  intros Hne Htruthy Hrun.
  destruct (envelope_fields tool params) as (Hnull & Hname & Hparams).
  rewrite (executeToolIfNeeded_named P _ params tool t Hnull (Hname Hne) Hne
             (Hparams Htruthy) Htruthy), Hrun.
  destruct (createToolErrorResponse_named P tool e params t1)
    as (response & -> & _ & _ & Hcode & _).
  eexists. split; [reflexivity|]. repeat split; read_fields; auto.
Qed.

(** C8.  Whatever else the parameters hold, the updates among them,
    [updateTask] with a [taskId] that is a string, not empty, and fails the
    format validator fails with [INVALID_TASK_ID_FORMAT], and draws nothing
    from any identifier source: the state is unchanged by the tool, and
    through the dispatcher only the clock is read, for the time stamp of
    the error. *)
Theorem updateTask_malformed_id (P : Platform) (params : JSVal) (id : string) (t : Tape) :
  get params "taskId" = JStr id ->
  id <> "" ->
  isValidUUID (JStr id) = false ->
  (exists e, executeUpdateTask params t = (Throw e, t)
             /\ errProp e "code" = JStr "INVALID_TASK_ID_FORMAT")
  /\ exists fragment t',
       executeToolIfNeeded P (envelope "updateTask" params) t = (Ok fragment, t')
       /\ get fragment "actionMetadata" = JUndefined
       /\ get (get (get fragment "errorDetails") "technicalDetails") "errorCode"
          = JStr "INVALID_TASK_ID_FORMAT"
       /\ uuidCalls t' = uuidCalls t
       /\ byteCalls t' = byteCalls t
       /\ randomCalls t' = randomCalls t.
Proof.
  intros Hid Hne Hinvalid.
  assert (Hobj : exists m, params = JObj m).
  { apply (get_defined_object params "taskId"). rewrite Hid. discriminate. }
  destruct Hobj as [m ->].
  assert (Hrun : executeUpdateTask (JObj m) t
                 = (Throw (annotate "updateTask" (JObj m)
                             (codedError "Invalid task ID format" "INVALID_TASK_ID_FORMAT")),
                    t)).
  { unfold executeUpdateTask, try_catch, bind, ret, throw. cbn [readable].
    rewrite Hid, (truthy_or_l _ _ (nonempty_string_truthy id Hne)).
    unfold notNonEmptyString. rewrite (nonempty_string_truthy id Hne), Hinvalid.
    reflexivity. }
  split.
  - eexists. split; [exact Hrun|]. apply annotated_code.
  - destruct (dispatcher_failure_fragment P "updateTask" (JObj m) _ t t
                ltac:(discriminate) eq_refl Hrun)
      as (fragment & Hexec & Hmeta & _ & Hcode).
    exists fragment, (tick t). rewrite annotated_code in Hcode.
    repeat split; auto.
Qed.

Lemma updateTask_malformed_id_witness :
  exists e,
    executeUpdateTask
      (obj [("taskId", JStr "task-42"); ("updates", obj [("status", JStr "done")])]) tape0
    = (Throw e, tape0)
    /\ errProp e "code" = JStr "INVALID_TASK_ID_FORMAT".
Proof.
  apply (updateTask_malformed_id (samplePlatform noDecoder)
           (obj [("taskId", JStr "task-42"); ("updates", obj [("status", JStr "done")])])
           "task-42" tape0).
  - now read_fields.
  - discriminate.
  - reflexivity.
Defined.

(** When [taskId] is not such a string, the guard
    [!taskId || typeof taskId !== 'string'] on [params.taskId || params.id]
    decides.  A truthy [taskId] that is not a string is reported as
    missing, whatever [params.id] holds; a falsy one (absent, or the empty
    string) leaves the decision to [params.id], which is reported as
    missing or as malformed in its turn. *)
Lemma updateTask_id_guard (m : gmap string JSVal) (t : Tape) :
  let taskId := get (JObj m) "taskId" in
  let id := get (JObj m) "id" in
  (truthy taskId = true -> typeof taskId <> "string" ->
   failsWith (executeUpdateTask (JObj m) t) "MISSING_TASK_ID")
  /\ (truthy taskId = false -> notNonEmptyString id = true ->
      failsWith (executeUpdateTask (JObj m) t) "MISSING_TASK_ID")
  /\ (truthy taskId = false -> notNonEmptyString id = false -> isValidUUID id = false ->
      failsWith (executeUpdateTask (JObj m) t) "INVALID_TASK_ID_FORMAT").
Proof.
  intros taskId id.
  assert (Hmissing : notNonEmptyString (taskId ||| id) = true ->
                     failsWith (executeUpdateTask (JObj m) t) "MISSING_TASK_ID").
  { intros Hcheck. unfold executeUpdateTask, try_catch, bind, ret, throw. cbn [readable].
    fold taskId id. rewrite Hcheck. do 2 eexists. split; [reflexivity|].
    apply annotated_code. }
  split; [|split].
  - intros Htruthy Htype. apply Hmissing.
    rewrite (truthy_or_l _ _ Htruthy). unfold notNonEmptyString. rewrite Htruthy.
    cbn [negb orb]. now destruct (String.eqb_spec (typeof taskId) "string").
  - intros Hfalsy Hcheck. apply Hmissing.
    now rewrite (truthy_or_r _ _ Hfalsy).
  - intros Hfalsy Hcheck Hinvalid.
    unfold executeUpdateTask, try_catch, bind, ret, throw. cbn [readable].
    fold taskId id. rewrite (truthy_or_r _ _ Hfalsy), Hcheck, Hinvalid. cbn [negb].
    do 2 eexists. split; [reflexivity|]. apply annotated_code.
Qed.

(** Runs of the guard: a number with a valid [id] beside it, the empty
    string alone, the empty string with a malformed [id], and the empty
    string with a valid [id], which is then the item updated. *)
Example updateTask_id_guard_runs :
  failsWith (executeUpdateTask
               (obj [("taskId", JNum 42); ("id", JStr (sampleUuid 0));
                     ("updates", obj [])]) tape0) "MISSING_TASK_ID"
  /\ failsWith (executeUpdateTask (obj [("taskId", JStr ""); ("updates", obj [])]) tape0)
       "MISSING_TASK_ID"
  /\ failsWith (executeUpdateTask
                  (obj [("taskId", JStr ""); ("id", JStr "task-42"); ("updates", obj [])])
                  tape0) "INVALID_TASK_ID_FORMAT"
  /\ exists fragment,
       executeUpdateTask
         (obj [("taskId", JStr ""); ("id", JStr (sampleUuid 0)); ("updates", obj [])]) tape0
       = (Ok fragment, tape0)
       /\ get fragment "contextItemId" = JStr (sampleUuid 0).
Proof.
  split; [|split; [|split]].
  - do 2 eexists. split; vm_compute; reflexivity.
  - do 2 eexists. split; vm_compute; reflexivity.
  - do 2 eexists. split; vm_compute; reflexivity.
  - eexists. split; vm_compute; reflexivity.
Qed.

Lemma id_given_is_object (params : JSVal) (a b id : string) :
  get params a ||| get params b = JStr id -> exists m, params = JObj m.
Proof.
  destruct params; cbn [get jsOr truthy]; try discriminate. eauto.
Qed.

Lemma updates_absent_accepted (m : gmap string JSVal) :
  get (JObj m) "updates" = JUndefined ->
  updatesOf (JObj m) = JObj m /\ updatesRejected (JObj m) = false.
Proof.
  intros Habsent. unfold updatesRejected, updatesOf. now rewrite Habsent.
Qed.

Lemma failsWith_code {A} (e : JSError) (t : Tape) (c c' : string) :
  errProp e "code" = JStr c ->
  @failsWith A (Throw e, t) c' <-> c = c'.
Proof.
  intros Hcode. split.
  - intros (e' & t' & [= <- <-] & Hc). congruence.
  - intros <-. now exists e, t.
Qed.

Lemma failsWith_ok {A} (a : A) (t : Tape) (c : string) : ~ failsWith (Ok a, t) c.
Proof. intros (e & t' & [=] & _). Qed.

Lemma errProp_typeError (msg k : string) : errProp (typeError msg) k = JUndefined.
Proof. apply errProp_newError. Qed.

(** C10, as amended.  For each update tool called with an identifier that
    passes the format validator: the call fails with [MISSING_UPDATE_DATA]
    exactly when [params.updates] is a truthy value that is not an object
    (a non-empty string, a non-zero number, [true]); and when [params] has
    no [updates] field the whole [params] object is the updates payload and
    the call succeeds, provided the per-field checks of the tool
    ([scheduledTime] for reminders, [target] and [progress] for goals)
    accept that object. *)
Theorem update_tools_missing_update_data (P : Platform) (params : JSVal) (id : string)
  (t : Tape) :
  isValidUUID (JStr id) = true ->
  let updates := get params "updates" in
  let rejected := truthy updates = true /\ typeof updates <> "object" in
  (get params "taskId" ||| get params "id" = JStr id ->
   (failsWith (executeUpdateTask params t) "MISSING_UPDATE_DATA" <-> rejected)
   /\ (updates = JUndefined ->
       exists fragment,
         executeUpdateTask params t = (Ok fragment, t)
         /\ get (get fragment "actionMetadata") "updates" = params))
  /\ (get params "reminderId" ||| get params "id" = JStr id ->
      (failsWith (executeUpdateReminder P params t) "MISSING_UPDATE_DATA" <-> rejected)
      /\ (updates = JUndefined ->
          truthy (get params "scheduledTime") = false
          \/ Date_isNaN P (get params "scheduledTime") = Some false ->
          exists fragment,
            executeUpdateReminder P params t = (Ok fragment, t)
            /\ get (get fragment "actionMetadata") "updates" = params))
  /\ (get params "goalId" ||| get params "id" = JStr id ->
      (failsWith (executeUpdateGoal params t) "MISSING_UPDATE_DATA" <-> rejected)
      /\ (updates = JUndefined ->
          badTarget (get params "target") = false ->
          badProgress (get params "progress") = false ->
          exists fragment,
            executeUpdateGoal params t = (Ok fragment, t)
            /\ get (get fragment "actionMetadata") "updates" = params)).
Proof.
  intros Hvalid updates rejected. subst updates rejected.
  split; [|split]; intros Hid; destruct (id_given_is_object _ _ _ _ Hid) as [m ->].
  - rewrite (executeUpdateTask_run m id t Hid Hvalid). split.
    + rewrite <- updatesRejected_iff.
      destruct (updatesRejected (JObj m)).
      * rewrite failsWith_code by apply annotated_code. tauto.
      * split; [intros []%failsWith_ok | discriminate].
    + intros Habsent. destruct (updates_absent_accepted m Habsent) as [Hsame ->].
      eexists. split; [reflexivity|]. now read_fields.
  - rewrite (executeUpdateReminder_run P m id t Hid Hvalid). split.
    + rewrite <- updatesRejected_iff.
      destruct (updatesRejected (JObj m)).
      * rewrite failsWith_code by apply annotated_code. tauto.
      * unfold checkScheduledTime, ret, throw.
        destruct (truthy (get (updatesOf (JObj m)) "scheduledTime"));
          [destruct (Date_isNaN P _) as [[|]|]|];
          (split; [|discriminate]).
        -- rewrite failsWith_code by apply annotated_code. discriminate.
        -- intros []%failsWith_ok.
        -- intros (e & t' & [= <- <-] & Hcode).
           rewrite errProp_annotate, errProp_typeError in Hcode. discriminate.
        -- intros []%failsWith_ok.
    + intros Habsent Htime. destruct (updates_absent_accepted m Habsent) as [Hsame ->].
      rewrite Hsame. unfold checkScheduledTime, ret, throw.
      destruct Htime as [-> | Htime].
      * eexists. split; [reflexivity|]. now read_fields.
      * rewrite Htime. destruct (truthy (get (JObj m) "scheduledTime"));
          (eexists; split; [reflexivity|]; now read_fields).
  - rewrite (executeUpdateGoal_run m id t Hid Hvalid). split.
    + rewrite <- updatesRejected_iff.
      destruct (updatesRejected (JObj m)).
      * rewrite failsWith_code by apply annotated_code. tauto.
      * destruct (badTarget _); [|destruct (badProgress _)]; (split; [|discriminate]).
        -- rewrite failsWith_code by apply annotated_code. discriminate.
        -- rewrite failsWith_code by apply annotated_code. discriminate.
        -- intros []%failsWith_ok.
    + intros Habsent Htarget Hprogress.
      destruct (updates_absent_accepted m Habsent) as [Hsame ->].
      rewrite Hsame, Htarget, Hprogress.
      eexists. split; [reflexivity|]. now read_fields.
Qed.

Lemma update_tools_missing_update_data_witness :
  exists fragment,
    executeUpdateGoal sampleGoalUpdate tape0 = (Ok fragment, tape0)
    /\ get (get fragment "actionMetadata") "updates" = sampleGoalUpdate.
Proof.
  apply (update_tools_missing_update_data (samplePlatform noDecoder) sampleGoalUpdate
           "a1b2c3d4-e5f6-4789-a012-b3c4d5e6f789" tape0).
  - reflexivity.
  - vm_compute. reflexivity.
  - vm_compute. reflexivity.
  - vm_compute. reflexivity.
  - vm_compute. reflexivity.
Defined.

(** An object [params] whose [updates] is a string: the identifier is
    valid, and the tool fails with [MISSING_UPDATE_DATA]. *)
Lemma update_with_string_updates_rejected :
  typeof (obj [("taskId", JStr "a1b2c3d4-e5f6-4789-a012-b3c4d5e6f789");
               ("updates", JStr "mark it done")]) = "object"
  /\ isValidUUID (JStr "a1b2c3d4-e5f6-4789-a012-b3c4d5e6f789") = true
  /\ failsWith
       (executeUpdateTask
          (obj [("taskId", JStr "a1b2c3d4-e5f6-4789-a012-b3c4d5e6f789");
                ("updates", JStr "mark it done")]) tape0)
       "MISSING_UPDATE_DATA".
Proof.
  repeat split; try reflexivity.
  eexists. eexists. split; vm_compute; reflexivity.
Qed.

(** ** Expense batches *)

(** On numbers the amount check of the source accepts exactly the doubles
    greater than 0. *)
Lemma badAmount_number (x : float) : badAmount (JNum x) = negb (PrimFloat.ltb 0 x).
Proof.
  unfold badAmount. cbn [truthy typeof numLe0 String.eqb Ascii.eqb Bool.eqb negb orb].
  unfold PrimFloat.is_zero, PrimFloat.is_nan.
  rewrite !FloatAxioms.eqb_spec, FloatAxioms.leb_spec, FloatAxioms.ltb_spec.
  change (Prim2SF PrimFloat.zero) with (S754_zero false).
  change (Prim2SF 0) with (S754_zero false).
  unfold SFeqb, SFleb, SFltb.
  destruct (Prim2SF x) as [[|]|[|]| |[|] m e]; cbn [SFcompare];
    rewrite ?Z.compare_refl, ?Pos.compare_cont_refl; reflexivity.
Qed.

Lemma string_of_check (v : JSVal) :
  notNonEmptyString v = false -> exists s, v = JStr s /\ s <> "".
Proof.
  unfold notNonEmptyString.
  destruct v as [| |b|x|s|xs|m];
    cbn [truthy typeof negb String.eqb Ascii.eqb Bool.eqb];
    rewrite ?orb_true_r; try discriminate.
  destruct (String.eqb_spec s ""); [discriminate|]. eauto.
Qed.



Lemma accepted_checks (expense : JSVal) :
  expenseAccepted expense ->
  notNonEmptyString (get expense "item") = false
  /\ badAmount (get expense "amount") = false
  /\ exists m, expense = JObj m.
Proof.
  intros (s & x & Hs & Hne & Hx & Hpos). rewrite Hs, Hx, badAmount_number, Hpos.
  unfold notNonEmptyString. rewrite (nonempty_string_truthy s Hne).
  repeat split. apply (get_defined_object expense "item"). rewrite Hs. discriminate.
Qed.




Lemma validatedExpense_fields (m : gmap string JSVal) (id : string) :
  get (validatedExpense (JObj m) id) "expense_id" = JStr id
  /\ get (validatedExpense (JObj m) id) "amount" = get (JObj m) "amount".
Proof.
  unfold validatedExpense, get. cbn [spread]. split.
  - now rewrite lookup_insert_eq.
  - now rewrite !lookup_insert_ne by discriminate.
Qed.

(** On a batch of accepted expenses the loop mints one identifier per
    expense, in order, and keeps one record per expense. *)
Lemma validateExpenses_accepts (P : Platform) (expenses : list JSVal) :
  forall i validated t ids t',
    Forall expenseAccepted expenses ->
    mintAll P (length expenses) t = (Ok ids, t') ->
    validateExpenses P expenses i validated t
    = (Ok (validated ++ zip_with validatedExpense expenses ids)%list, t')
    /\ length ids = length expenses
    /\ Forall (fun id => isValidUUID (JStr id) = true) ids.
Proof.
  induction expenses as [|expense rest IH]; intros i validated t ids t' Haccepted Hmint.
  - cbn in Hmint. unfold ret in Hmint. injection Hmint as <- <-.
    cbn. unfold ret. now rewrite app_nil_r.
  - inversion Haccepted as [|? ? Hhead Htail]; subst.
    cbn [mintAll length] in Hmint. unfold bind at 1 in Hmint.
    destruct (generateUUID P t) as [[id|e] t1] eqn:Hgen; [|discriminate].
    unfold bind, ret in Hmint.
    destruct (mintAll P (length rest) t1) as [[ids'|e] t2] eqn:Hrest; [|discriminate].
    injection Hmint as <- <-.
    destruct (generateUUID_ok P t t1 id Hgen) as (Hvalid & _).
    destruct (accepted_checks expense Hhead) as (Hitem & Hamount & m & ->).
    destruct Hhead as (name & x & Hname & _).
    cbn [validateExpenses]. unfold bind at 1. cbn [readable]. unfold ret at 1.
    rewrite Hitem, Hamount. unfold bind at 1. rewrite Hgen, Hvalid. cbn [negb].
    rewrite Hname. unfold bind, callTrim, ret.
    destruct (IH (S i) (validated ++ [JObj (<["expense_id" := JStr id]>
                                          (<["item" := JStr (trim name)]>
                                             (spread (JObj m))))])%list
                t1 ids' t2 Htail Hrest) as (Hrun & Hlen & Hids).
    rewrite Hrun. split; [|split].
    + rewrite <- app_assoc. cbn [zip_with app]. unfold validatedExpense at 2, trimmedItem.
      now rewrite Hname.
    + cbn [length]. now rewrite Hlen.
    + now constructor.
Qed.

Lemma total_of_validated (expenses : list JSVal) :
  forall ids sum,
    Forall expenseAccepted expenses ->
    fold_left (fun sum exp => plusAmount sum (get exp "amount"))
      (zip_with validatedExpense expenses ids) (JNum sum)
    = JNum (fold_left (fun sum e => sum + amountOf e)%float (firstn (length ids) expenses) sum).
Proof.
  induction expenses as [|expense rest IH]; intros [|id ids] sum Haccepted; try reflexivity.
  inversion Haccepted as [|? ? Hhead Htail]; subst.
  destruct (accepted_checks expense Hhead) as (_ & _ & m & ->).
  destruct Hhead as (name & x & _ & _ & Hx & _).
  cbn [zip_with fold_left length firstn].
  destruct (validatedExpense_fields m id) as [_ ->].
  unfold amountOf. rewrite Hx. cbn [plusAmount]. now apply IH.
Qed.

Lemma entries_of_validated (expenses : list JSVal) :
  forall ids,
    Forall expenseAccepted expenses ->
    map expenseAction (zip_with validatedExpense expenses ids)
    = zip_with expenseEntry expenses ids.
Proof.
  induction expenses as [|expense rest IH]; intros [|id ids] Haccepted; try reflexivity.
  inversion Haccepted as [|? ? Hhead Htail]; subst.
  destruct (accepted_checks expense Hhead) as (_ & _ & m & ->).
  cbn [zip_with map]. rewrite (IH ids Htail). f_equal.
  unfold expenseAction, expenseEntry.
  now destruct (validatedExpense_fields m id) as [-> _].
Qed.

Lemma accepted_batch_object (params : JSVal) :
  expenseBatch params <> [] -> Forall expenseAccepted (expenseBatch params) ->
  exists m, params = JObj m.
Proof.
  intros Hne Haccepted. unfold expenseBatch in *.
  destruct (get params "expenses") as [| |b|x|s|xs|m'] eqn:Hexpenses;
    try (inversion Haccepted as [|? ? Hhead _]; subst;
         now destruct (accepted_checks params Hhead) as (_ & _ & Hm)).
  apply (get_defined_object params "expenses"). rewrite Hexpenses. discriminate.
Qed.

(** C7.  For a non-empty batch in which every expense passes validation,
    and a state from which one identifier per expense can be minted,
    [trackExpenses] returns a fragment whose [multipleActions] has one
    entry per expense, in order, the entry of an expense holding the
    identifier minted for it (which passes the validator) and its record;
    [total_amount] is the sum of the amounts, added from 0 in the order of
    the batch; and the fragment has no [contextItemType] and no
    [contextItemId]. *)
Theorem trackExpenses_valid_batch (P : Platform) (params : JSVal) (t t' : Tape)
  (ids : list string) :
  expenseBatch params <> [] ->
  Forall expenseAccepted (expenseBatch params) ->
  mintAll P (length (expenseBatch params)) t = (Ok ids, t') ->
  exists fragment,
    executeTrackExpenses P params t = (Ok fragment, t')
    /\ get fragment "multipleActions" = JArr (zip_with expenseEntry (expenseBatch params) ids)
    /\ length (zip_with expenseEntry (expenseBatch params) ids)
       = length (expenseBatch params)
    /\ Forall (fun id => isValidUUID (JStr id) = true) ids
    /\ get (get fragment "actionMetadata") "total_amount"
       = JNum (fold_left (fun sum e => sum + amountOf e)%float (expenseBatch params) 0%float)
    /\ get fragment "contextItemType" = JUndefined
    /\ get fragment "contextItemId" = JUndefined.
Proof.
  intros Hne Haccepted Hmint.
  destruct (accepted_batch_object params Hne Haccepted) as [m ->].
  destruct (validateExpenses_accepts P _ 0 [] t ids t' Haccepted Hmint)
    as (Hrun & Hlen & Hids).
  unfold executeTrackExpenses, try_catch. unfold bind at 1. cbn [readable]. unfold ret at 1.
  destruct (length (expenseBatch (JObj m)) =? 0)%nat eqn:Hzero.
  { apply Nat.eqb_eq in Hzero. destruct (expenseBatch (JObj m)); [contradiction|discriminate]. }
  unfold bind. rewrite Hrun. unfold ret. cbn [app].
  eexists. split; [reflexivity|]. repeat split; read_fields.
  - now rewrite entries_of_validated.
  - rewrite length_zip_with. lia.
  - exact Hids.
  - rewrite total_of_validated by assumption. rewrite Hlen.
    now rewrite firstn_all.
Qed.

Lemma trackExpenses_valid_batch_witness :
  exists fragment entry t',
    executeTrackExpenses (samplePlatform noDecoder) coffee tape0 = (Ok fragment, t')
    /\ get fragment "multipleActions" = JArr [entry]
    /\ get entry "id" = JStr "a1b2c3d4-e5f6-4789-a012-b3c4d5e6f700"
    /\ get (get fragment "actionMetadata") "total_amount" = JNum 5.5
    /\ get fragment "contextItemType" = JUndefined.
Proof.
  destruct (trackExpenses_valid_batch (samplePlatform noDecoder) coffee tape0
              {| uuidCalls := 1; byteCalls := 0; randomCalls := 0; clockReads := 0 |}
              ["a1b2c3d4-e5f6-4789-a012-b3c4d5e6f700"])
    as (fragment & Hrun & Hactions & _ & _ & Htotal & Htype & _).
  - vm_compute. discriminate.
  - change (expenseBatch coffee)
      with [obj [("item", JStr "Coffee"); ("amount", JNum 5.5); ("category", JStr "Food");
                 ("date", JStr "2024-01-15")]].
    constructor; [|constructor].
    exists "Coffee", 5.5%float. repeat split; now read_fields.
  - vm_compute. reflexivity.
  - exists fragment. eexists. eexists. split; [exact Hrun|].
    split; [exact Hactions|]. split; [vm_compute; reflexivity|].
    split; [exact Htotal|]. exact Htype.
Defined.

(** ** Fragments of the dispatcher *)

Lemma check_truthy (v : JSVal) : notNonEmptyString v = false -> truthy v = true.
Proof.
  unfold notNonEmptyString. destruct (truthy v); [reflexivity | discriminate].
Qed.

Ltac sound_field :=
  read_fields;
  first [ left; reflexivity
        | right; reflexivity
        | right; apply valid_id_checks; assumption
        | right; apply check_truthy; assumption ].

Ltac sound_leaf :=
  unfold fieldsSound, mergedFields;
  repeat (constructor; [sound_field|]); constructor.

(** Case analysis on every test and every intermediate outcome of a run. *)
Ltac split_run :=
  repeat match goal with
    | |- context [match ?x with _ => _ end] =>
        lazymatch x with
        | context [match _ with _ => _ end] => fail
        | _ => destruct x eqn:?
        end
    end.

Ltac sound_tool :=
  unfold try_catch, bind, ret, throw, readable, callTrim, trimOrNull, checkScheduledTime;
  split_run; try discriminate; intros [= <- <-];
  repeat match goal with H : negb _ = false |- _ => apply negb_false_iff in H end;
  sound_leaf.

Lemma executeCreateTask_sound (P : Platform) (params fragment : JSVal) (t t' : Tape) :
  executeCreateTask P params t = (Ok fragment, t') -> fieldsSound fragment.
Proof. unfold executeCreateTask. sound_tool. Qed.

Lemma executeUpdateTask_sound (params fragment : JSVal) (t t' : Tape) :
  executeUpdateTask params t = (Ok fragment, t') -> fieldsSound fragment.
Proof. unfold executeUpdateTask. sound_tool. Qed.

Lemma executeCreateReminder_sound (P : Platform) (params fragment : JSVal) (t t' : Tape) :
  executeCreateReminder P params t = (Ok fragment, t') -> fieldsSound fragment.
Proof. unfold executeCreateReminder. sound_tool. Qed.

Lemma executeUpdateReminder_sound (P : Platform) (params fragment : JSVal) (t t' : Tape) :
  executeUpdateReminder P params t = (Ok fragment, t') -> fieldsSound fragment.
Proof. unfold executeUpdateReminder. sound_tool. Qed.

Lemma executeTrackExpenses_sound (P : Platform) (params fragment : JSVal) (t t' : Tape) :
  executeTrackExpenses P params t = (Ok fragment, t') -> fieldsSound fragment.
Proof. unfold executeTrackExpenses. sound_tool. Qed.

Lemma executeCreateGoal_sound (P : Platform) (params fragment : JSVal) (t t' : Tape) :
  executeCreateGoal P params t = (Ok fragment, t') -> fieldsSound fragment.
Proof. unfold executeCreateGoal. sound_tool. Qed.

Lemma executeUpdateGoal_sound (params fragment : JSVal) (t t' : Tape) :
  executeUpdateGoal params t = (Ok fragment, t') -> fieldsSound fragment.
Proof. unfold executeUpdateGoal. sound_tool. Qed.

Lemma executeCreateJournalEntry_sound (P : Platform) (params fragment : JSVal)
  (t t' : Tape) :
  executeCreateJournalEntry P params t = (Ok fragment, t') -> fieldsSound fragment.
Proof. unfold executeCreateJournalEntry. sound_tool. Qed.

Lemma executeGeneralChat_sound (params fragment : JSVal) (t t' : Tape) :
  executeGeneralChat params t = (Ok fragment, t') -> fieldsSound fragment.
Proof. unfold executeGeneralChat. sound_tool. Qed.

Lemma dispatch_sound (P : Platform) (toolName params fragment : JSVal) (t t' : Tape) :
  dispatch P toolName params t = (Ok fragment, t') -> fieldsSound fragment.
Proof.
  unfold dispatch. cbn [switchStr].
  destruct (strictEqStr toolName "createTask"); [apply executeCreateTask_sound|].
  destruct (strictEqStr toolName "updateTask"); [apply executeUpdateTask_sound|].
  destruct (strictEqStr toolName "createReminder"); [apply executeCreateReminder_sound|].
  destruct (strictEqStr toolName "updateReminder"); [apply executeUpdateReminder_sound|].
  destruct (strictEqStr toolName "trackExpenses"); [apply executeTrackExpenses_sound|].
  destruct (strictEqStr toolName "createGoal"); [apply executeCreateGoal_sound|].
  destruct (strictEqStr toolName "updateGoal"); [apply executeUpdateGoal_sound|].
  destruct (strictEqStr toolName "createJournalEntry");
    [apply executeCreateJournalEntry_sound|].
  destruct (strictEqStr toolName "generalChat"); [apply executeGeneralChat_sound|].
  unfold bind, template, ret, throw. destruct (ToString P toolName); discriminate.
Qed.

(** Whatever the dispatcher returns, each merged field it defines is
    truthy: an object, a non-empty array of actions, a non-empty literal or
    an identifier that passed a check. *)
Lemma executeToolIfNeeded_sound (P : Platform) (parsed fragment : JSVal) (t t' : Tape) :
  executeToolIfNeeded P parsed t = (Ok fragment, t') -> fieldsSound fragment.
Proof.
  unfold executeToolIfNeeded. unfold bind at 1.
  destruct (readable parsed "tool" t) as [[[]|e] t0]; [|discriminate].
  destruct (negb (truthy (get parsed "tool" ||| get parsed "selectedTool"))).
  { unfold ret. intros [= <- <-]. sound_leaf. }
  destruct (negb (truthy (get parsed "toolParams" ||| get parsed "parameters"))).
  { unfold bind, ret. destruct (template P _ t0) as [[name|e] t1]; [|discriminate].
    intros [= <- <-]. sound_leaf. }
  unfold try_catch. unfold bind at 1.
  destruct (template P _ t0) as [[name|e] t1].
  - unfold bind at 1.
    destruct (dispatch P _ _ t1) as [[result|e] t2] eqn:Hrun.
    + unfold bind, ret. destruct (template P _ t2) as [[name'|e] t3].
      * intros [= <- <-]. exact (dispatch_sound P _ _ _ _ _ Hrun).
      * destruct (createToolErrorResponse P _ e _ t3) as [[response|e'] t4];
          [|discriminate].
        destruct (template P _ t4) as [[name''|e'] t5]; [|discriminate].
        intros [= <- <-]. sound_leaf.
    + unfold bind, ret.
      destruct (createToolErrorResponse P _ e _ t2) as [[response|e'] t3]; [|discriminate].
      destruct (template P _ t3) as [[name'|e'] t4]; [|discriminate].
      intros [= <- <-]. sound_leaf.
  - unfold bind, ret.
    destruct (createToolErrorResponse P _ e _ t1) as [[response|e'] t2]; [|discriminate].
    destruct (template P _ t2) as [[name'|e'] t3]; [|discriminate].
    intros [= <- <-]. sound_leaf.
Qed.

Lemma defined_field_kept (fragment parsed : JSVal) (field : string) :
  fieldsSound fragment -> In field mergedFields ->
  get fragment field <> JUndefined ->
  get fragment field ||| get parsed field ||| JNull = get fragment field.
Proof.
  intros Hsound Hin Hdefined.
  unfold fieldsSound in Hsound. rewrite List.Forall_forall in Hsound.
  destruct (Hsound field Hin) as [Hundef | Htruthy]; [contradiction|].
  unfold jsOr at 2. rewrite Htruthy. unfold jsOr. now rewrite Htruthy.
Qed.

(** The dispatcher reads the tool name and the parameters under either
    pair of names. *)
Lemma aliases_accepted (P : Platform) (m : gmap string JSVal) (name params : JSVal) :
  m !! "tool" = None -> m !! "toolParams" = None ->
  m !! "selectedTool" = None -> m !! "parameters" = None ->
  executeToolIfNeeded P (JObj (<["selectedTool" := name]> (<["parameters" := params]> m)))
  = executeToolIfNeeded P (JObj (<["tool" := name]> (<["toolParams" := params]> m))).
Proof.
  intros Htool Hparams Hselected Hparameters.
  set (A := JObj (<["selectedTool" := name]> (<["parameters" := params]> m))).
  set (B := JObj (<["tool" := name]> (<["toolParams" := params]> m))).
  assert (HA : get A "tool" = JUndefined /\ get A "selectedTool" = name
               /\ get A "toolParams" = JUndefined /\ get A "parameters" = params).
  { unfold A, get. repeat split;
      repeat (rewrite lookup_insert_eq || rewrite lookup_insert_ne by discriminate);
      rewrite ?Htool, ?Hparams; reflexivity. }
  assert (HB : get B "tool" = name /\ get B "selectedTool" = JUndefined
               /\ get B "toolParams" = params /\ get B "parameters" = JUndefined).
  { unfold B, get. repeat split;
      repeat (rewrite lookup_insert_eq || rewrite lookup_insert_ne by discriminate);
      rewrite ?Hselected, ?Hparameters; reflexivity. }
  destruct HA as (HA1 & HA2 & HA3 & HA4). destruct HB as (HB1 & HB2 & HB3 & HB4).
  unfold executeToolIfNeeded.
  rewrite HA1, HA2, HA3, HA4, HB1, HB2, HB3, HB4.
  rewrite !(truthy_or_r JUndefined) by reflexivity.
  change (readable B "tool") with (readable A "tool").
  destruct (truthy name) eqn:Hname.
  - rewrite (truthy_or_l name JUndefined Hname).
    destruct (truthy params) eqn:Hp.
    + rewrite (truthy_or_l params JUndefined Hp), ?Hname, ?Hp. reflexivity.
    + rewrite (truthy_or_r params JUndefined Hp), ?Hname, ?Hp. reflexivity.
  - rewrite (truthy_or_r name JUndefined Hname), ?Hname. reflexivity.
Qed.

(** C2.  When the reply decodes to an envelope and the dispatcher returns
    a fragment, each of [actionMetadata], [contextItemId],
    [contextItemType], [updatedItemType], [actionIcon] and
    [multipleActions] that the fragment defines is the value of that field
    in the response, whatever value the model gave to the field of the same
    name.  The dispatcher reads the tool name and the parameters from
    [selectedTool] and [parameters] as it does from [tool] and
    [toolParams]. *)
Theorem dispatcher_output_takes_precedence (P : Platform) (s span : string)
  (parsed fragment : JSVal) (t t' : Tape) :
  regexMatch braceRegex s = Some span ->
  JSON_parse P span = Some parsed ->
  executeToolIfNeeded P parsed t = (Ok fragment, t') ->
  (exists response,
      parseAIResponse P (JStr s) t = (Ok response, t')
      /\ (get fragment "actionMetadata" <> JUndefined ->
          actionMetadata response = get fragment "actionMetadata")
      /\ (get fragment "contextItemId" <> JUndefined ->
          contextItemId response = get fragment "contextItemId")
      /\ (get fragment "contextItemType" <> JUndefined ->
          contextItemType response = get fragment "contextItemType")
      /\ (get fragment "updatedItemType" <> JUndefined ->
          updatedItemType response = get fragment "updatedItemType")
      /\ (get fragment "actionIcon" <> JUndefined ->
          actionIcon response = get fragment "actionIcon")
      /\ (get fragment "multipleActions" <> JUndefined ->
          multipleActions response = get fragment "multipleActions"))
  /\ (forall m name params,
        m !! "tool" = None -> m !! "toolParams" = None ->
        m !! "selectedTool" = None -> m !! "parameters" = None ->
        executeToolIfNeeded P
          (JObj (<["selectedTool" := name]> (<["parameters" := params]> m)))
        = executeToolIfNeeded P (JObj (<["tool" := name]> (<["toolParams" := params]> m)))).
Proof.
  intros Hmatch Hparse Hexec. split; [|apply aliases_accepted].
  pose proof (executeToolIfNeeded_sound P parsed fragment t t' Hexec) as Hsound.
  exists (merge (JStr s) parsed fragment). split.
  - unfold parseAIResponse, tryStructured, matchBraces, jsonParse, bind, try_catch, ret.
    now rewrite Hmatch, Hparse, Hexec.
  - unfold merge. cbn [actionMetadata contextItemId contextItemType updatedItemType
                       actionIcon multipleActions].
    repeat split; intros Hdefined;
      (apply defined_field_kept; [exact Hsound | unfold mergedFields; simpl; tauto
                                 | exact Hdefined]).
Qed.

Lemma dispatcher_output_takes_precedence_witness :
  exists response t',
    parseAIResponse (samplePlatform sampleDecoder) (JStr aliasReplyJson) tape0
    = (Ok response, t')
    /\ get aliasReplyDecoded "contextItemId" = JStr "made-up-id"
    /\ contextItemId response = JStr "a1b2c3d4-e5f6-4789-a012-b3c4d5e6f700"
    /\ get aliasReplyDecoded "actionIcon" = JStr "star"
    /\ actionIcon response = JStr "task".
Proof.
  destruct (executeToolIfNeeded (samplePlatform sampleDecoder) aliasReplyDecoded tape0)
    as [[fragment|e] t'] eqn:Hexec; [|vm_compute in Hexec; discriminate Hexec].
  destruct (dispatcher_output_takes_precedence (samplePlatform sampleDecoder)
              aliasReplyJson aliasReplyJson aliasReplyDecoded fragment tape0 t')
    as [(response & Hrun & _ & Hid & _ & _ & Hicon & _) _].
  - vm_compute. reflexivity.
  - vm_compute. reflexivity.
  - exact Hexec.
  - exists response, t'. split; [exact Hrun|].
    vm_compute in Hexec. injection Hexec as <- <-.
    split; [vm_compute; reflexivity|]. split; [rewrite Hid; vm_compute; [reflexivity|discriminate]|].
    split; [vm_compute; reflexivity|]. rewrite Hicon; vm_compute; [reflexivity|discriminate].
Defined.

(** C1, at a failing input.  The reply asks for [createTask] without a
    description.  The dispatcher returns the failure fragment, whose
    [errorDetails] names the tool and the code [INVALID_PARAMETERS]; the
    response of the parser has [errorDetails] [null] all the same, and
    [actionMetadata] [null]: neither of the two is populated. *)
Theorem dispatcher_failure_not_surfaced :
  regexMatch braceRegex badReply = Some badReplyJson
  /\ exists fragment t1 response t2,
       executeToolIfNeeded (samplePlatform sampleDecoder) badReplyDecoded tape0
       = (Ok fragment, t1)
       /\ get (get fragment "errorDetails") "tool" = JStr "createTask"
       /\ get (get (get fragment "errorDetails") "technicalDetails") "errorCode"
          = JStr "INVALID_PARAMETERS"
       /\ parseAIResponse (samplePlatform sampleDecoder) (JStr badReply) tape0
          = (Ok response, t2)
       /\ errorDetails response = JNull
       /\ actionMetadata response = JNull.
Proof.
  split; [vm_compute; reflexivity|].
  do 4 eexists. split; [vm_compute; reflexivity|].
  split; [vm_compute; reflexivity|]. split; [vm_compute; reflexivity|].
  split; [vm_compute; reflexivity|]. split; reflexivity.
Qed.

(** The response takes [errorDetails] from the envelope of the model
    alone, whatever the dispatcher returned. *)
Lemma errorDetails_from_model_only (aiMessage parsed fragment : JSVal) :
  errorDetails (merge aiMessage parsed fragment) = get parsed "errorDetails" ||| JNull.
Proof. reflexivity. Qed.

(** * Further properties *)

(** ** The format of an identifier *)

Lemma matchExact_intro (p : list CharClass) :
  forall s, String.length s = length p ->
    (forall i cl c, nth_error p i = Some cl -> String.get i s = Some c ->
                    classMatches cl c = true) ->
    matchExact p s = true.
Proof.
  induction p as [|cl p IH]; intros [|c s] Hlen Hat; simpl in Hlen; try discriminate.
  - reflexivity.
  - cbn [matchExact]. rewrite (Hat 0 cl c eq_refl eq_refl). cbn [andb].
    apply IH; [lia|]. intros i cl' c' Hi Hc. exact (Hat (S i) cl' c' Hi Hc).
Qed.

Ltac each_char c := destruct c as [[|] [|] [|] [|] [|] [|] [|] [|]].

Lemma nibble_four (c : ascii) : nibble c = Some 4 -> c = "4"%char.
Proof.
  each_char c; vm_compute; intros H; first [discriminate H | reflexivity].
Qed.

Lemma canonical_uuidRegex (s : string) : canonicalFormat s -> uuidRegex_test s = true.
Proof.
  intros (Hlen & Hhyphen & Hhex & (c14 & H14 & Hv14) & (c19 & v19 & H19 & Hv19 & Hin19)).
  apply matchExact_intro; [exact Hlen|].
  intros i cl c Hi Hc.
  assert (Hlt : i < 36).
  { change 36 with (length uuidRegex). apply List.nth_error_Some. rewrite Hi. discriminate. }
  assert (Hcase : In i [8; 13; 18; 23] \/ i = 14 \/ i = 19
                  \/ (~ In i [8; 13; 18; 23] /\ i <> 14 /\ i <> 19)).
  { simpl. lia. }
  destruct Hcase as [Hh | [-> | [-> | (Hnot & Hn14 & Hn19)]]].
  - rewrite (Hhyphen i Hh) in Hc. injection Hc as <-.
    simpl in Hh. destruct Hh as [<-|[<-|[<-|[<-|[]]]]]; injection Hi as <-; reflexivity.
  - injection Hi as <-. rewrite H14 in Hc. injection Hc as <-.
    now rewrite (nibble_four c14 Hv14).
  - injection Hi as <-. rewrite H19 in Hc. injection Hc as <-.
    cbn [classMatches]. rewrite Hv19. simpl in Hin19.
    destruct Hin19 as [<-|[<-|[<-|[<-|[]]]]]; reflexivity.
  - destruct (Hhex i Hlt Hnot) as (c' & v & Hc' & Hv). rewrite Hc' in Hc. injection Hc as <-.
    assert (Hcl : cl = Hex).
    { do 36 (destruct i as [|i]; [first [ now injection Hi | exfalso; simpl in Hnot; lia ]|]).
      lia. }
    subst cl. cbn [classMatches]. now rewrite Hv.
Qed.

(** X1.  [isValidUUID] accepts a value exactly when it is a string in the
    canonical format of a version-4 identifier: 36 characters, hyphens at
    positions 8, 13, 18 and 23, hexadecimal digits (of either case)
    elsewhere, the digit 4 at position 14 and one of 8, 9, a, b at position
    19.  A value that is not a string is refused. *)
Theorem isValidUUID_characterized (v : JSVal) :
  isValidUUID v = true <-> exists s, v = JStr s /\ canonicalFormat s.
Proof.
  split.
  - destruct v as [| | | |s| |]; try discriminate.
    intros H. exists s. split; [reflexivity|]. now apply uuidRegex_canonical.
  - intros (s & -> & Hs). now apply canonical_uuidRegex.
Qed.

Lemma lowerChar_class (cl : CharClass) :
  In cl uuidRegex -> forall c, classMatches cl (lowerChar c) = classMatches cl c.
Proof.
  intros Hin.
  assert (Hcl : cl = Hex \/ cl = Variant \/ cl = Lit "-" \/ cl = Lit "4").
  { unfold uuidRegex in Hin. simpl in Hin.
    repeat (destruct Hin as [<-|Hin]; [tauto|]). destruct Hin. }
  intros c. destruct Hcl as [->|[->|[->| ->]]]; each_char c; vm_compute; reflexivity.
Qed.

Lemma matchExact_lower (p : list CharClass) :
  (forall cl, In cl p -> forall c, classMatches cl (lowerChar c) = classMatches cl c) ->
  forall s, matchExact p (toLowerCase s) = matchExact p s.
Proof.
  induction p as [|cl p IH]; intros Hp [|c s]; try reflexivity.
  cbn [matchExact toLowerCase]. rewrite (Hp cl (or_introl eq_refl)).
  rewrite IH; [reflexivity|]. intros cl' Hin. apply Hp. now right.
Qed.

(** X2.  [isValidUUID] does not depend on the case of the letters: a string
    and its lower-cased form are accepted or refused together. *)
Theorem isValidUUID_ignores_case (s : string) :
  isValidUUID (JStr (toLowerCase s)) = isValidUUID (JStr s).
Proof.
  unfold isValidUUID, uuidRegex_test. apply matchExact_lower. intros cl Hin.
  now apply lowerChar_class.
Qed.

(** ** The fallback chain of the generator *)

#[local] Arguments hexByte : simpl never.

#[local] Arguments classMatches : simpl never.

Lemma hexDigit_char (d : Z) :
  (0 <= d < 16)%Z ->
  exists c, hexDigit d = String c "" /\ nibble c = Some (Z.to_nat d).
Proof.
  intros Hd.
  assert (Hcases : In d [0; 1; 2; 3; 4; 5; 6; 7; 8; 9; 10; 11; 12; 13; 14; 15]%Z)
    by (simpl; lia).
  simpl in Hcases.
  repeat (destruct Hcases as [<-|Hcases]; [eexists; split; reflexivity|]).
  destruct Hcases.
Qed.

Lemma hexByte_chars (b : Z) :
  exists c1 c2, hexByte b = String c1 (String c2 "")
                /\ classMatches Hex c1 = true /\ classMatches Hex c2 = true.
Proof.
  unfold hexByte.
  destruct (hexDigit_char ((b mod 256) / 16)) as (c1 & -> & H1).
  { pose proof (Z.mod_pos_bound b 256). split; [apply Z.div_pos; lia|].
    apply Z.div_lt_upper_bound; lia. }
  destruct (hexDigit_char (b mod 16)) as (c2 & -> & H2).
  { pose proof (Z.mod_pos_bound b 16). lia. }
  exists c1, c2. unfold classMatches. now rewrite H1, H2.
Qed.

Lemma land_range (b : Z) (n : Z) (k : Z) :
  (0 <= k)%Z -> n = Z.ones k -> (0 <= Z.land b n < 2 ^ k)%Z.
Proof.
  intros Hk ->. rewrite Z.land_ones by assumption. apply Z.mod_pos_bound.
  now apply Z.pow_pos_nonneg.
Qed.

(** [(b & 0x0f) | 0x40] prints as ["4"] and a digit. *)
Lemma hexByte_version (b : Z) :
  exists c, hexByte (Z.lor (Z.land b 15) 64 mod 256) = String "4" (String c "")
            /\ classMatches Hex c = true.
Proof.
  pose proof (land_range b 15 4 ltac:(lia) eq_refl) as Hr.
  set (r := Z.land b 15) in *.
  assert (Hcases : In r [0; 1; 2; 3; 4; 5; 6; 7; 8; 9; 10; 11; 12; 13; 14; 15]%Z)
    by (simpl; lia).
  simpl in Hcases.
  repeat (destruct Hcases as [<-|Hcases]; [eexists; split; reflexivity|]).
  destruct Hcases.
Qed.

(** [(b & 0x3f) | 0x80] prints as one of ["8"], ["9"], ["a"], ["b"] and a
    digit. *)
Lemma hexByte_variant (b : Z) :
  exists c1 c2, hexByte (Z.lor (Z.land b 63) 128 mod 256) = String c1 (String c2 "")
                /\ classMatches Variant c1 = true /\ classMatches Hex c2 = true.
Proof.
  pose proof (land_range b 63 6 ltac:(lia) eq_refl) as Hr.
  set (r := Z.land b 63) in *.
  assert (Hcases : In r (map Z.of_nat (seq 0 64))).
  { apply in_map_iff. exists (Z.to_nat r). split; [lia|]. apply in_seq. lia. }
  simpl in Hcases.
  repeat (destruct Hcases as [<-|Hcases]; [eexists; eexists; split; [|split]; reflexivity|]).
  destruct Hcases.
Qed.

Lemma cryptoCandidate_valid (buf : list Z) :
  length buf = 16 -> isValidUUID (JStr (cryptoCandidate buf)) = true.
Proof.
  intros Hlen.
  do 16 (destruct buf as [|? buf]; [discriminate Hlen|]).
  destruct buf; [|discriminate Hlen]. clear Hlen.
  unfold cryptoCandidate, byteAt. simpl.
  destruct (hexByte_version z5) as (v & -> & Hv).
  destruct (hexByte_variant z7) as (w1 & w2 & -> & Hw1 & Hw2).
  repeat match goal with
         | |- context [hexByte ?b] =>
             let c1 := fresh "c" in let c2 := fresh "c" in
             let H1 := fresh "H" in let H2 := fresh "H" in
             destruct (hexByte_chars b) as (c1 & c2 & -> & H1 & H2)
         end.
  unfold isValidUUID, uuidRegex_test, uuidRegex, jsSubstring. simpl.
  repeat match goal with H : classMatches _ _ = true |- _ => rewrite H; clear H end.
  reflexivity.
Qed.

Lemma toString16_x (r : Z) :
  (0 <= r < 16)%Z -> exists c, toString16 r = String c "" /\ classMatches Hex c = true.
Proof.
  intros Hr.
  assert (Hcases : In r [0; 1; 2; 3; 4; 5; 6; 7; 8; 9; 10; 11; 12; 13; 14; 15]%Z)
    by (simpl; lia).
  simpl in Hcases.
  repeat (destruct Hcases as [<-|Hcases]; [eexists; split; reflexivity|]).
  destruct Hcases.
Qed.

Lemma toString16_y (r : Z) :
  (0 <= r < 16)%Z ->
  exists c, toString16 (Z.lor (Z.land r 3) 8) = String c "" /\ classMatches Variant c = true.
Proof.
  intros Hr.
  assert (Hcases : In r [0; 1; 2; 3; 4; 5; 6; 7; 8; 9; 10; 11; 12; 13; 14; 15]%Z)
    by (simpl; lia).
  simpl in Hcases.
  repeat (destruct Hcases as [<-|Hcases]; [eexists; split; reflexivity|]).
  destruct Hcases.
Qed.

Lemma replaceXY_digits (P : Platform) (template : string) :
  forall t,
    (forall k, k < countXY template -> digitDraw P (randomCalls t + k)) ->
    exists candidate t',
      replaceXY P template t = (Ok candidate, t')
      /\ matchExact (map classOfTemplate (list_ascii_of_string template)) candidate = true.
Proof.
  induction template as [|c rest IH]; intros t Hdraws.
  - exists "", t. split; reflexivity.
  - cbn [replaceXY countXY list_ascii_of_string map] in *. unfold classOfTemplate at 1.
    destruct (Ascii.eqb c "x") eqn:Hx; cbn [orb] in *.
    + destruct (Hdraws 0 ltac:(lia)) as (x & Hdraw & Hrange).
      rewrite Nat.add_0_r in Hdraw.
      unfold bind at 1, mathRandom. rewrite Hdraw.
      set (t1 := {| uuidCalls := uuidCalls t; byteCalls := byteCalls t;
                    randomCalls := S (randomCalls t); clockReads := clockReads t |}).
      destruct (IH t1) as (rest' & t' & Hrest & Hmatch).
      { intros k Hk. cbn [t1 randomCalls].
        replace (S (randomCalls t) + k) with (randomCalls t + S k) by lia.
        apply Hdraws. lia. }
      unfold bind, ret. rewrite Hrest.
      destruct (toString16_x _ Hrange) as (d & -> & Hd).
      exists (String d rest'), t'. split; [reflexivity|].
      cbn [matchExact]. now rewrite Hd.
    + destruct (Ascii.eqb c "y") eqn:Hy.
      * destruct (Hdraws 0 ltac:(lia)) as (x & Hdraw & Hrange).
        rewrite Nat.add_0_r in Hdraw.
        unfold bind at 1, mathRandom. rewrite Hdraw.
        set (t1 := {| uuidCalls := uuidCalls t; byteCalls := byteCalls t;
                      randomCalls := S (randomCalls t); clockReads := clockReads t |}).
        destruct (IH t1) as (rest' & t' & Hrest & Hmatch).
        { intros k Hk. cbn [t1 randomCalls].
          replace (S (randomCalls t) + k) with (randomCalls t + S k) by lia.
          apply Hdraws. lia. }
        unfold bind, ret. rewrite Hrest.
        destruct (toString16_y _ Hrange) as (d & -> & Hd).
        exists (String d rest'), t'. split; [reflexivity|].
        cbn [matchExact]. now rewrite Hd.
      * destruct (IH t) as (rest' & t' & Hrest & Hmatch).
        { intros k Hk. apply Hdraws. simpl. lia. }
        unfold bind, ret. rewrite Hrest.
        exists (String c rest'), t'. split; [reflexivity|].
        cbn [matchExact]. unfold classMatches. now rewrite Ascii.eqb_refl.
Qed.

Lemma template_classes :
  map classOfTemplate (list_ascii_of_string uuidTemplate) = uuidRegex.
Proof. reflexivity. Qed.

Lemma generateFallbackUUID_crypto (P : Platform) (t : Tape) (buf : list Z) :
  crypto_randomBytes P (byteCalls t) = Ok buf ->
  isValidUUID (JStr (cryptoCandidate buf)) = true ->
  generateFallbackUUID P t
  = (Ok (cryptoCandidate buf),
     {| uuidCalls := uuidCalls t; byteCalls := S (byteCalls t);
        randomCalls := randomCalls t; clockReads := S (clockReads t) |}).
Proof.
  intros Hbuf Hvalid.
  unfold generateFallbackUUID, bind, try_catch, dateNow, randomBytes16, ret, throw.
  cbn [tick uuidCalls byteCalls randomCalls clockReads].
  now rewrite Hbuf, Hvalid.
Qed.

(** X3.  When [crypto.randomBytes] delivers 16 bytes, [generateFallbackUUID]
    returns the identifier built from them, whatever the bytes are: it has
    the canonical format and passes [isValidUUID], and [Math.random] is not
    drawn. *)
Theorem crypto_fallback_valid (P : Platform) (t : Tape) (buf : list Z) :
  crypto_randomBytes P (byteCalls t) = Ok buf ->
  length buf = 16 ->
  exists t',
    generateFallbackUUID P t = (Ok (cryptoCandidate buf), t')
    /\ isValidUUID (JStr (cryptoCandidate buf)) = true
    /\ canonicalFormat (cryptoCandidate buf)
    /\ randomCalls t' = randomCalls t.
Proof.
  intros Hbuf Hlen. pose proof (cryptoCandidate_valid buf Hlen) as Hvalid.
  eexists. split; [exact (generateFallbackUUID_crypto P t buf Hbuf Hvalid)|].
  split; [exact Hvalid|]. split; [|reflexivity].
  now apply uuidRegex_canonical.
Qed.

Lemma crypto_fallback_valid_witness :
  exists t',
    generateFallbackUUID (samplePlatform noDecoder) tape0
    = (Ok "abababab-abab-4bab-abab-abababababab", t').
Proof.
  destruct (crypto_fallback_valid (samplePlatform noDecoder) tape0 (repeat 171%Z 16))
    as (t' & Hrun & _); [reflexivity | reflexivity |].
  exists t'. exact Hrun.
Defined.

(** X4.  With a [crypto.randomBytes] that delivers 16 bytes, [generateUUID]
    returns an identifier that passes [isValidUUID] whatever the package
    [uuid] does (return a malformed string, or throw): the identifier is
    the one of the package or the one built from the bytes, and
    [Math.random] is not drawn. *)
Theorem generateUUID_available_with_crypto (P : Platform) (t : Tape) (buf : list Z) :
  crypto_randomBytes P (byteCalls t) = Ok buf ->
  length buf = 16 ->
  exists uuid t',
    generateUUID P t = (Ok uuid, t')
    /\ isValidUUID (JStr uuid) = true
    /\ randomCalls t' = randomCalls t
    /\ (uuid = cryptoCandidate buf \/ uuid_v4 P (uuidCalls t) = Ok uuid).
Proof.
  intros Hbuf Hlen. pose proof (cryptoCandidate_valid buf Hlen) as Hvalid.
  unfold generateUUID, bind, try_catch, uuidv4, ret, throw.
  set (t1 := {| uuidCalls := S (uuidCalls t); byteCalls := byteCalls t;
                randomCalls := randomCalls t; clockReads := clockReads t |}).
  pose proof (generateFallbackUUID_crypto P t1 buf Hbuf Hvalid) as Hfb.
  destruct (uuid_v4 P (uuidCalls t)) as [candidate|error].
  - destruct (uuidRegex_test candidate) eqn:Htest; cbn [negb].
    + exists candidate, t1. repeat split; auto.
    + rewrite Hfb. eexists. eexists. repeat split; auto.
  - rewrite Hfb. eexists. eexists. repeat split; auto.
Qed.

Lemma generateUUID_available_with_crypto_witness :
  exists uuid t',
    generateUUID (samplePlatform noDecoder) tape0 = (Ok uuid, t')
    /\ isValidUUID (JStr uuid) = true.
Proof.
  destruct (generateUUID_available_with_crypto (samplePlatform noDecoder) tape0
              (repeat 171%Z 16))
    as (uuid & t' & Hrun & Hvalid & _); [reflexivity | reflexivity |].
  exists uuid, t'. split; assumption.
Defined.

(** X5.  When [crypto.randomBytes] throws and each of the next 31 draws of
    [Math.random] gives a digit ([(x * 16) | 0] from 0 to 15, as a draw in
    the interval from 0 to 1 does), [generateFallbackUUID] returns after
    exactly these 31 draws an identifier of the canonical format, which
    passes [isValidUUID]: the first candidate of the template is valid and
    nothing is tried again. *)
Theorem random_fallback_valid (P : Platform) (t : Tape) (e : JSError) :
  crypto_randomBytes P (byteCalls t) = Throw e ->
  (forall k, k < 31 -> digitDraw P (randomCalls t + k)) ->
  exists uuid t',
    generateFallbackUUID P t = (Ok uuid, t')
    /\ isValidUUID (JStr uuid) = true
    /\ canonicalFormat uuid
    /\ randomCalls t' = randomCalls t + 31.
Proof.
  intros Hcrypto Hdraws.
  unfold generateFallbackUUID, bind, try_catch, dateNow, randomBytes16, ret, throw.
  cbn [tick uuidCalls byteCalls randomCalls clockReads]. rewrite Hcrypto.
  set (t2 := {| uuidCalls := uuidCalls t; byteCalls := S (byteCalls t);
                randomCalls := randomCalls t; clockReads := S (clockReads t) |}).
  destruct (replaceXY_digits P uuidTemplate t2) as (uuid & t' & Hrun & Hmatch).
  { rewrite countXY_template. exact Hdraws. }
  rewrite template_classes in Hmatch.
  assert (Hvalid : isValidUUID (JStr uuid) = true) by exact Hmatch.
  destruct (replaceXY_tape P uuidTemplate t2 _ _ Hrun) as (_ & _ & _ & Hcount).
  rewrite Hrun, Hvalid. cbn [negb].
  exists uuid, t'. split; [reflexivity|]. split; [exact Hvalid|].
  split; [now apply uuidRegex_canonical|].
  rewrite (Hcount uuid eq_refl), countXY_template. reflexivity.
Qed.

Lemma random_fallback_valid_witness :
  exists t',
    generateFallbackUUID noCryptoPlatform tape0
    = (Ok "88888888-8888-4888-8888-888888888888", t').
Proof.
  destruct (random_fallback_valid noCryptoPlatform tape0
              (newError "crypto module unavailable"))
    as (uuid & t' & Hrun & _).
  - reflexivity.
  - intros k _. exists 0.5%float. split; [reflexivity|]. vm_compute. split; [discriminate | reflexivity].
  - exists t'. rewrite Hrun. f_equal. f_equal.
    vm_compute in Hrun. now injection Hrun as <- _.
Defined.

(** ** The earlier generator *)

Example legacy_returns_malformed :
  fst (Legacy.generateUUID shortBufferPlatform tape0) = Ok "010203----"
  /\ isValidUUID (JStr "010203----") = false
  /\ fst (generateUUID shortBufferPlatform tape0) = Ok "88888888-8888-4888-8888-888888888888".
Proof. repeat split; vm_compute; reflexivity. Qed.

Lemma legacy_fallback_run (P : Platform) (t : Tape) :
  Legacy.generateFallbackUUID P t
  = match crypto_randomBytes P (byteCalls t) with
    | Ok buf =>
        (Ok (cryptoCandidate buf),
         {| uuidCalls := uuidCalls t; byteCalls := S (byteCalls t);
            randomCalls := randomCalls t; clockReads := clockReads t |})
    | Throw _ =>
        replaceXY P uuidTemplate
          {| uuidCalls := uuidCalls t; byteCalls := S (byteCalls t);
             randomCalls := randomCalls t; clockReads := clockReads t |}
    end.
Proof.
  unfold Legacy.generateFallbackUUID, try_catch, bind, randomBytes16, ret.
  now destruct (crypto_randomBytes P (byteCalls t)).
Qed.

(** When the candidate of [crypto.randomBytes] is not used, the fallback
    returns exactly the valid candidates of the template construction. *)
Lemma generateFallbackUUID_random (P : Platform) (t t' : Tape) (u : string) :
  match crypto_randomBytes P (byteCalls t) with
  | Ok buf => isValidUUID (JStr (cryptoCandidate buf)) = false
  | Throw _ => True
  end ->
  generateFallbackUUID P t = (Ok u, t')
  <-> replaceXY P uuidTemplate
        {| uuidCalls := uuidCalls t; byteCalls := S (byteCalls t);
           randomCalls := randomCalls t; clockReads := S (clockReads t) |} = (Ok u, t')
      /\ isValidUUID (JStr u) = true.
Proof.
  intros Hcrypto.
  unfold generateFallbackUUID, bind, try_catch, dateNow, randomBytes16, isoNow, ret, throw.
  cbn [tick uuidCalls byteCalls randomCalls clockReads].
  set (t2 := {| uuidCalls := uuidCalls t; byteCalls := S (byteCalls t);
                randomCalls := randomCalls t; clockReads := S (clockReads t) |}).
  assert (Htier : match replaceXY P uuidTemplate t2 with
                  | (Ok m, t3) =>
                      if negb (isValidUUID (JStr m))
                      then (Throw (newError ("Math.random fallback generated invalid UUID: "
                                             ++ m)), t3)
                      else (Ok m, t3)
                  | (Throw e, t3) => (Throw e, t3)
                  end = (Ok u, t')
                  <-> replaceXY P uuidTemplate t2 = (Ok u, t')
                      /\ isValidUUID (JStr u) = true).
  { destruct (replaceXY P uuidTemplate t2) as [[m|e] t3].
    - destruct (isValidUUID (JStr m)) eqn:Hm; cbn [negb]; split.
      + intros [= <- <-]. auto.
      + now intros [[= <- <-] _].
      + discriminate.
      + intros [[= <- <-] Hu]. congruence.
    - split; [discriminate | now intros [? _]]. }
  destruct (crypto_randomBytes P (byteCalls t)) as [buf|e].
  - rewrite Hcrypto. cbn [negb]. rewrite <- Htier.
    destruct (replaceXY P uuidTemplate t2) as [[m|e] t3]; [|split; discriminate].
    destruct (negb (isValidUUID (JStr m))); [split; discriminate | tauto].
  - rewrite <- Htier.
    destruct (replaceXY P uuidTemplate t2) as [[m|e'] t3]; [|split; discriminate].
    destruct (negb (isValidUUID (JStr m))); [split; discriminate | tauto].
Qed.

(** X6.  The earlier generator, which returns the candidates of the
    fallback unvalidated, against the current one, from the same state.
    Whenever the earlier generator returns an identifier that
    [isValidUUID] accepts, the current one returns the same identifier;
    and whenever the current one returns, the earlier one returns too, and
    the same identifier if what it returns is valid. *)
Theorem legacy_generator_refined (P : Platform) (t : Tape) :
  (forall u t1,
      Legacy.generateUUID P t = (Ok u, t1) ->
      isValidUUID (JStr u) = true ->
      exists t2, generateUUID P t = (Ok u, t2))
  /\ (forall u t2,
        generateUUID P t = (Ok u, t2) ->
        exists u' t1,
          Legacy.generateUUID P t = (Ok u', t1)
          /\ (isValidUUID (JStr u') = true -> u' = u)).
Proof.
  unfold Legacy.generateUUID, generateUUID, bind, try_catch, uuidv4, ret, throw.
  set (t0 := {| uuidCalls := S (uuidCalls t); byteCalls := byteCalls t;
                randomCalls := randomCalls t; clockReads := clockReads t |}).
  set (a := {| uuidCalls := S (uuidCalls t); byteCalls := S (byteCalls t);
               randomCalls := randomCalls t; clockReads := clockReads t |}).
  set (b := {| uuidCalls := S (uuidCalls t); byteCalls := S (byteCalls t);
               randomCalls := randomCalls t; clockReads := S (clockReads t) |}).
  pose proof (replaceXY_random_only P uuidTemplate a b eq_refl) as Hsame.
  assert (Hfallback :
    (forall u t1,
        Legacy.generateFallbackUUID P t0 = (Ok u, t1) ->
        isValidUUID (JStr u) = true ->
        exists t2, generateFallbackUUID P t0 = (Ok u, t2))
    /\ (forall u t2,
          generateFallbackUUID P t0 = (Ok u, t2) ->
          exists u' t1,
            Legacy.generateFallbackUUID P t0 = (Ok u', t1)
            /\ (isValidUUID (JStr u') = true -> u' = u))).
  { rewrite (legacy_fallback_run P t0).
    cbn [uuidCalls byteCalls randomCalls clockReads t0]. fold a.
    split.
    - intros u t1 Hlegacy Hvalid.
      destruct (crypto_randomBytes P (byteCalls t)) as [buf|e] eqn:Hcrypto.
      + injection Hlegacy as <- <-. eexists.
        exact (generateFallbackUUID_crypto P t0 buf Hcrypto Hvalid).
      + rewrite Hlegacy in Hsame. cbn [fst] in Hsame.
        destruct (replaceXY P uuidTemplate b) as [[m|e'] t3] eqn:Hb;
          [|discriminate Hsame].
        cbn [fst] in Hsame. injection Hsame as <-.
        exists t3. apply generateFallbackUUID_random.
        * cbn [byteCalls t0]. now rewrite Hcrypto.
        * auto.
    - intros u t2 Hcurrent.
      destruct (crypto_randomBytes P (byteCalls t)) as [buf|e] eqn:Hcrypto.
      + exists (cryptoCandidate buf), a. split; [reflexivity|]. intros Hvalid.
        pose proof (generateFallbackUUID_crypto P t0 buf Hcrypto Hvalid) as Hrun.
        rewrite Hrun in Hcurrent. now injection Hcurrent.
      + apply generateFallbackUUID_random in Hcurrent as [Hb _];
          [|cbn [byteCalls t0]; now rewrite Hcrypto].
        change (replaceXY P uuidTemplate b = (Ok u, t2)) in Hb.
        rewrite Hb in Hsame. cbn [fst] in Hsame.
        destruct (replaceXY P uuidTemplate a) as [[m|e'] t3]; [|discriminate Hsame].
        cbn [fst] in Hsame. injection Hsame as ->.
        exists u, t3. auto. }
  destruct Hfallback as [Hforward Hbackward].
  destruct (uuid_v4 P (uuidCalls t)) as [candidate|error].
  - destruct (uuidRegex_test candidate) eqn:Htest; cbn [negb].
    + split.
      * intros u t1 [= <- <-] _. eauto.
      * intros u t2 [= <- <-]. exists candidate, t0. auto.
    + split.
      * intros u t1 Hlegacy Hvalid. destruct (Hforward u t1 Hlegacy Hvalid) as [t2 ->]. eauto.
      * intros u t2 Hcurrent.
        destruct (generateFallbackUUID P t0) as [[m|fe] t3] eqn:Hfb; [|discriminate].
        injection Hcurrent as <- <-.
        destruct (Hbackward m t3 eq_refl) as (u' & t1 & -> & Hu'). eauto.
  - split.
    + intros u t1 Hlegacy Hvalid. destruct (Hforward u t1 Hlegacy Hvalid) as [t2 ->]. eauto.
    + intros u t2 Hcurrent.
      destruct (generateFallbackUUID P t0) as [[m|fe] t3] eqn:Hfb; [|discriminate].
      injection Hcurrent as <- <-.
      destruct (Hbackward m t3 eq_refl) as (u' & t1 & -> & Hu'). eauto.
Qed.

(** ** The failures of the tools *)

Lemma minted_valid (P : Platform) (t t' : Tape) (id : string) :
  generateUUID P t = (Ok id, t') -> negb (isValidUUID (JStr id)) = true -> False.
Proof.
  intros Hgen Hneg. destruct (generateUUID_ok P t t' id Hgen) as [Hvalid _].
  rewrite Hvalid in Hneg. discriminate.
Qed.

Lemma checked_string (v w : JSVal) :
  notNonEmptyString v = false -> v = w -> (forall s, w <> JStr s) -> False.
Proof.
  intros (s & -> & _)%string_of_check <- Hw. now apply (Hw s).
Qed.

Ltac dead_branch :=
  first
    [ discriminate
    | match goal with
      | Hgen : generateUUID _ _ = (Ok ?id, _), Hneg : negb (isValidUUID (JStr ?id)) = true
        |- _ => exfalso; exact (minted_valid _ _ _ _ Hgen Hneg)
      end
    | match goal with
      | Hcheck : notNonEmptyString ?v = false, Heq : ?v = _ |- _ =>
          exfalso; apply (checked_string _ _ Hcheck Heq); intros ?; discriminate
      end
    | match goal with
      | Hcheck : notNonEmptyString _ = false |- _ =>
          apply string_of_check in Hcheck; destruct Hcheck as (? & Hcheck & _);
          discriminate Hcheck
      end
    | match goal with
      | Htruthy : truthy ?v = true, Heq : ?v = _ |- _ =>
          rewrite Heq in Htruthy; discriminate Htruthy
      end
    | match goal with
      | Hmood : truthy ?v && negb (String.eqb (typeof ?v) "string") = false,
        Htruthy : truthy ?v = true, Heq : ?v = _ |- _ =>
          rewrite Htruthy, Heq in Hmood; discriminate Hmood
      end ].

Ltac raised_here :=
  first
    [ apply raised_validation; simpl; tauto
    | eapply raised_generator; eassumption
    | apply raised_type; simpl; tauto ].

Lemma generateUUID_throw_code (P : Platform) (t t' : Tape) (e : JSError) :
  generateUUID P t = (Throw e, t') -> errProp e "code" = JStr "UUID_GENERATION_FAILURE".
Proof.
  unfold generateUUID, bind, try_catch, uuidv4, isoNow, ret, throw.
  destruct (uuid_v4 P (uuidCalls t)) as [candidate|error];
    [destruct (negb (uuidRegex_test candidate)); [|discriminate]|];
    (destruct (generateFallbackUUID P _) as [[u|fe] t2]; [discriminate|];
     intros [= <- <-]; now rewrite !errProp_setProp, errProp_codedError).
Qed.

(** Where a failure leaves the state: untouched, unless an identifier was
    asked for. *)
Ltac tape_here :=
  first
    [ right; right; reflexivity
    | left; rewrite errProp_annotate; eapply generateUUID_throw_code; eassumption
    | right; left; rewrite errProp_annotate; apply errProp_typeError ].

Ltac step_run :=
  repeat (cbv beta iota;
          match goal with
          | |- context [match ?x with _ => _ end] =>
              lazymatch x with
              | context [match _ with _ => _ end] => fail
              | _ => destruct x eqn:?
              end
          end);
  cbv beta iota.

Ltac open_tool :=
  unfold readable, trimOrNull, callTrim, checkScheduledTime, try_catch, bind, ret, throw.

Ltac raising_tool :=
  open_tool; step_run; try dead_branch; intros [= <- <-];
  (split; [eexists; split; [reflexivity | raised_here] | tape_here]).

Lemma executeCreateTask_raises (P : Platform) (params : JSVal) (e : JSError) (t t' : Tape) :
  executeCreateTask P params t = (Throw e, t') -> failureShape P "createTask" params e t t'.
Proof. unfold executeCreateTask, failureShape. raising_tool. Qed.

Lemma executeUpdateTask_raises (P : Platform) (params : JSVal) (e : JSError) (t t' : Tape) :
  executeUpdateTask params t = (Throw e, t') -> failureShape P "updateTask" params e t t'.
Proof. unfold executeUpdateTask, failureShape. raising_tool. Qed.

Lemma executeCreateReminder_raises (P : Platform) (params : JSVal) (e : JSError)
  (t t' : Tape) :
  executeCreateReminder P params t = (Throw e, t') ->
  failureShape P "createReminder" params e t t'.
Proof. unfold executeCreateReminder, failureShape. raising_tool. Qed.

Lemma executeUpdateReminder_raises (P : Platform) (params : JSVal) (e : JSError)
  (t t' : Tape) :
  executeUpdateReminder P params t = (Throw e, t') ->
  failureShape P "updateReminder" params e t t'.
Proof. unfold executeUpdateReminder, failureShape. raising_tool. Qed.

Lemma executeCreateGoal_raises (P : Platform) (params : JSVal) (e : JSError) (t t' : Tape) :
  executeCreateGoal P params t = (Throw e, t') -> failureShape P "createGoal" params e t t'.
Proof. unfold executeCreateGoal, failureShape. raising_tool. Qed.

Lemma executeUpdateGoal_raises (P : Platform) (params : JSVal) (e : JSError) (t t' : Tape) :
  executeUpdateGoal params t = (Throw e, t') -> failureShape P "updateGoal" params e t t'.
Proof. unfold executeUpdateGoal, failureShape. raising_tool. Qed.

Lemma executeCreateJournalEntry_raises (P : Platform) (params : JSVal) (e : JSError)
  (t t' : Tape) :
  executeCreateJournalEntry P params t = (Throw e, t') ->
  failureShape P "createJournalEntry" params e t t'.
Proof. unfold executeCreateJournalEntry, failureShape. raising_tool. Qed.

Lemma executeGeneralChat_raises (P : Platform) (params : JSVal) (e : JSError) (t t' : Tape) :
  executeGeneralChat params t = (Throw e, t') -> failureShape P "generalChat" params e t t'.
Proof. unfold executeGeneralChat, failureShape. raising_tool. Qed.

Lemma validateExpenses_raises (P : Platform) (expenses : list JSVal) :
  forall i validated t e t',
    validateExpenses P expenses i validated t = (Throw e, t') ->
    Raised P "trackExpenses" e.
Proof.
  induction expenses as [|expense rest IH]; intros i validated t e t';
    cbn [validateExpenses].
  - discriminate.
  - open_tool. step_run; try dead_branch;
      first [ intros [= <- <-];
              first [ raised_here
                    | now apply raised_expense_item
                    | now apply raised_expense_amount ]
            | apply IH ].
Qed.

Lemma executeTrackExpenses_raises (P : Platform) (params : JSVal) (e : JSError)
  (t t' : Tape) :
  executeTrackExpenses P params t = (Throw e, t') ->
  exists e0, e = annotate "trackExpenses" params e0 /\ Raised P "trackExpenses" e0.
Proof.
  unfold executeTrackExpenses. unfold try_catch, bind at 1.
  destruct (readable params "expenses" t) as [[[]|e0] t0] eqn:Hread.
  - destruct (length (expenseBatch params) =? 0)%nat.
    + unfold throw. intros [= <- <-]. eexists. split; [reflexivity|]. raised_here.
    + unfold bind.
      destruct (validateExpenses P (expenseBatch params) 0 [] t0) as [[validated|e0] t1]
        eqn:Hloop; [discriminate|].
      unfold throw. intros [= <- <-]. eexists. split; [reflexivity|].
      exact (validateExpenses_raises P _ _ _ _ _ _ Hloop).
  - unfold throw. intros [= <- <-]. eexists. split; [reflexivity|].
    destruct params; cbn [readable] in Hread; unfold throw, ret in Hread;
      try discriminate Hread; injection Hread as <- <-; raised_here.
Qed.

Lemma dispatch_known (P : Platform) (name : string) (params : JSVal) :
  In name toolNames ->
  dispatch P (JStr name) params
  = (if String.eqb name "createTask" then executeCreateTask P params
     else if String.eqb name "updateTask" then executeUpdateTask params
     else if String.eqb name "createReminder" then executeCreateReminder P params
     else if String.eqb name "updateReminder" then executeUpdateReminder P params
     else if String.eqb name "trackExpenses" then executeTrackExpenses P params
     else if String.eqb name "createGoal" then executeCreateGoal P params
     else if String.eqb name "updateGoal" then executeUpdateGoal params
     else if String.eqb name "createJournalEntry" then executeCreateJournalEntry P params
     else executeGeneralChat params).
Proof.
  intros Hin. unfold toolNames in Hin. simpl in Hin.
  repeat (destruct Hin as [<-|Hin]; [reflexivity|]). destruct Hin.
Qed.

Lemma dispatch_unknown (P : Platform) (name : string) (params : JSVal) (t : Tape) :
  ~ In name toolNames ->
  dispatch P (JStr name) params t
  = (Throw (codedError ("Unknown tool: " ++ name) "UNKNOWN_TOOL"), t).
Proof.
  intros Hnot. unfold dispatch. cbn [switchStr strictEqStr].
  repeat match goal with
         | |- context [String.eqb name ?k] =>
             destruct (String.eqb_spec name k) as [->|_];
             [exfalso; apply Hnot; unfold toolNames; simpl; tauto|]
         end.
  reflexivity.
Qed.

Lemma dispatch_raises (P : Platform) (name : string) (params : JSVal) (e : JSError)
  (t t' : Tape) :
  In name toolNames ->
  dispatch P (JStr name) params t = (Throw e, t') ->
  exists e0, e = annotate name params e0 /\ Raised P name e0.
Proof.
  intros Hin. rewrite (dispatch_known P name params Hin).
  unfold toolNames in Hin. simpl in Hin.
  repeat (destruct Hin as [<-|Hin];
          [cbn [String.eqb Ascii.eqb Bool.eqb]; intros Hrun;
           first [ exact (proj1 (executeCreateTask_raises _ _ _ _ _ Hrun))
                 | exact (proj1 (executeUpdateTask_raises P _ _ _ _ Hrun))
                 | exact (proj1 (executeCreateReminder_raises _ _ _ _ _ Hrun))
                 | exact (proj1 (executeUpdateReminder_raises _ _ _ _ _ Hrun))
                 | exact (executeTrackExpenses_raises _ _ _ _ _ Hrun)
                 | exact (proj1 (executeCreateGoal_raises _ _ _ _ _ Hrun))
                 | exact (proj1 (executeUpdateGoal_raises P _ _ _ _ Hrun))
                 | exact (proj1 (executeCreateJournalEntry_raises _ _ _ _ _ Hrun))
                 | exact (proj1 (executeGeneralChat_raises P _ _ _ _ Hrun)) ]|]).
  destruct Hin.
Qed.

(** *** Classification of the failures *)

Lemma isRetryableError_annotate (tool : string) (params : JSVal) (e : JSError) :
  isRetryableError (annotate tool params e) = isRetryableError e.
Proof. unfold isRetryableError. now rewrite errProp_annotate. Qed.

Lemma isRetryableError_coded (msg code : string) :
  isRetryableError (codedError msg code)
  = existsb (String.eqb code) retryableCodes || includes msg "timeout".
Proof. unfold isRetryableError. now rewrite errProp_codedError. Qed.

Lemma isRetryableError_typeError (msg : string) :
  isRetryableError (typeError msg) = includes msg "timeout".
Proof. unfold isRetryableError. now rewrite errProp_typeError. Qed.

Lemma includes_skip (c : ascii) (needle d s : string) :
  occurs c d = false ->
  includes (d ++ s) (String c needle) = includes s (String c needle).
Proof.
  induction d as [|x d IH]; intros Hd; [reflexivity|].
  cbn [occurs] in Hd. apply orb_false_iff in Hd as [Hx Hd].
  change (String x d ++ s) with (String x (d ++ s)).
  cbn [includes String.prefix].
  destruct (ascii_dec c x) as [->|_]; [now rewrite Ascii.eqb_refl in Hx|].
  cbn [orb]. now apply IH.
Qed.

Lemma occurs_digits (c : ascii) (u : Decimal.uint) :
  (nat_of_ascii c <? 48)%nat || (57 <? nat_of_ascii c)%nat = true ->
  occurs c (NilEmpty.string_of_uint u) = false.
Proof.
  intros Hc. induction u; cbn [NilEmpty.string_of_uint occurs]; rewrite ?IHu;
    try reflexivity; rewrite orb_false_r; apply Ascii.eqb_neq; intros ->;
    discriminate Hc.
Qed.

Lemma positional_not_timeout (i : nat) (rest : string) :
  includes ("Expense " ++ natToString i ++ rest) "timeout" = includes rest "timeout".
Proof.
  change ("Expense " ++ natToString i ++ rest)
    with (String "E" (String "x" (String "p" (String "e" (String "n" (String "s"
            (String "e" (String " " (natToString i ++ rest))))))))).
  cbn [includes String.prefix]. 
  repeat match goal with
         | |- context [ascii_dec ?a ?b] => destruct (ascii_dec a b); [discriminate|]
         end.
  cbn [orb]. apply includes_skip. now apply occurs_digits.
Qed.

Lemma raised_classified (P : Platform) (tool : string) (e : JSError) :
  Raised P tool e ->
  (isRetryableError e = true <-> errProp e "code" = JStr "UUID_GENERATION_FAILURE").
Proof.
  intros [msg code Hin | i _ | i _ | t t' e0 Hgen | msg Hin].
  - rewrite isRetryableError_coded, errProp_codedError. cbn [String.eqb Ascii.eqb Bool.eqb].
    unfold validationFailures in Hin.
    repeat match type of Hin with
           | In _ (if ?b then _ else _) => destruct b
           end;
      simpl in Hin;
      repeat (destruct Hin as [[= <- <-]|Hin]; [split; discriminate|]);
      destruct Hin.
  - rewrite isRetryableError_coded, errProp_codedError, positional_not_timeout.
    split; discriminate.
  - rewrite isRetryableError_coded, errProp_codedError, positional_not_timeout.
    split; discriminate.
  - pose proof (generateUUID_throw_code P t t' e0 Hgen) as Hcode.
    split; [intros _; exact Hcode | intros _; now apply retryable_code].
  - rewrite isRetryableError_typeError, errProp_typeError.
    unfold typeErrorMessages in Hin. simpl in Hin.
    repeat (destruct Hin as [<-|Hin]; [split; discriminate|]).
    destruct Hin.
Qed.

Lemma toolNames_nonempty (name : string) : In name toolNames -> name <> "".
Proof.
  intros Hin ->. unfold toolNames in Hin. simpl in Hin.
  repeat (destruct Hin as [Hin|Hin]; [discriminate Hin|]). destruct Hin.
Qed.

(** X7.  When one of the nine tools throws, the dispatcher returns a
    fragment whose [errorDetails.retryable] is [isRetryableError] of the
    error and whose [errorCode] is the code of the error ([UNKNOWN_ERROR]
    if it has none).  The failure is retryable exactly when its code is
    [UUID_GENERATION_FAILURE]: no validation failure and no [TypeError] of
    a tool is. *)
Theorem tool_failure_retryable_iff_generator (P : Platform) (name : string)
  (params : JSVal) (e : JSError) (t t1 : Tape) :
  In name toolNames ->
  truthy params = true ->
  dispatch P (JStr name) params t = (Throw e, t1) ->
  exists fragment,
    executeToolIfNeeded P (envelope name params) t = (Ok fragment, tick t1)
    /\ get (get fragment "errorDetails") "retryable" = JBool (isRetryableError e)
    /\ get (get (get fragment "errorDetails") "technicalDetails") "errorCode"
       = (errProp e "code" ||| JStr "UNKNOWN_ERROR")
    /\ (isRetryableError e = true <-> errProp e "code" = JStr "UUID_GENERATION_FAILURE").
Proof.
  intros Hin Htruthy Hrun.
  pose proof (toolNames_nonempty name Hin) as Hne.
  destruct (envelope_fields name params) as (Hnull & Hname & Hparams).
  rewrite (executeToolIfNeeded_named P _ params name t Hnull (Hname Hne) Hne
             (Hparams Htruthy) Htruthy), Hrun.
  destruct (createToolErrorResponse_named P name e params t1)
    as (response & -> & _ & _ & Hcode & Hretry).
  eexists. split; [reflexivity|]. read_fields.
  split; [exact Hretry|]. split; [exact Hcode|].
  destruct (dispatch_raises P name params e t t1 Hin Hrun) as (e0 & -> & Hraised).
  rewrite isRetryableError_annotate, errProp_annotate.
  now apply (raised_classified P name).
Qed.

Lemma tool_failure_retryable_iff_generator_witness :
  exists fragment t',
    executeToolIfNeeded (samplePlatform noDecoder)
      (envelope "createTask" (obj [("priority", JStr "high")])) tape0
    = (Ok fragment, t')
    /\ get (get fragment "errorDetails") "retryable" = JBool false.
Proof.
  destruct (dispatch (samplePlatform noDecoder) (JStr "createTask")
              (obj [("priority", JStr "high")]) tape0) as [[r|e] t1] eqn:Hrun;
    [vm_compute in Hrun; discriminate Hrun|].
  destruct (tool_failure_retryable_iff_generator (samplePlatform noDecoder) "createTask"
              (obj [("priority", JStr "high")]) e tape0 t1)
    as (fragment & Hexec & Hretry & _ & _).
  - unfold toolNames. simpl. tauto.
  - reflexivity.
  - exact Hrun.
  - exists fragment, (tick t1). split; [exact Hexec|]. rewrite Hretry.
    vm_compute in Hrun. injection Hrun as <- _. vm_compute. reflexivity.
Defined.

Lemma errProp_annotate_tool (tool : string) (params : JSVal) (e : JSError) :
  errProp (annotate tool params e) "tool" = JStr tool
  /\ errProp (annotate tool params e) "params" = params.
Proof. unfold annotate. now rewrite !errProp_setProp. Qed.

Lemma raised_code (P : Platform) (tool : string) (e : JSError) (c : string) :
  Raised P tool e -> errProp e "code" = JStr c ->
  c = "UUID_GENERATION_FAILURE"
  \/ In c (map snd (validationFailures tool))
  \/ (tool = "trackExpenses" /\ In c ["INVALID_EXPENSE_ITEM"; "INVALID_EXPENSE_AMOUNT"]).
Proof.
  intros [msg code Hin | i Htool | i Htool | t t' e0 Hgen | msg Hin] Hcode.
  - rewrite errProp_codedError in Hcode. injection Hcode as ->.
    right. left. apply in_map_iff. now exists (msg, c).
  - rewrite errProp_codedError in Hcode. injection Hcode as <-. right. right. simpl. auto.
  - rewrite errProp_codedError in Hcode. injection Hcode as <-. right. right. simpl. auto.
  - rewrite (generateUUID_throw_code P t t' e0 Hgen) in Hcode. injection Hcode as <-. now left.
  - rewrite errProp_typeError in Hcode. discriminate.
Qed.

(** X8.  An error thrown by one of the nine tools carries the name of the
    tool in [error.tool] and the parameters in [error.params].  Its code,
    if it has one, is [UUID_GENERATION_FAILURE], one of the validation
    codes of that tool or, for [trackExpenses], one of the two codes of an
    expense.  None of the codes of the checks that follow the generation
    of an identifier ([INVALID_TASK_ID] and the like) is ever raised. *)
Theorem tool_failures_catalogued (P : Platform) (name : string) (params : JSVal)
  (e : JSError) (t t' : Tape) :
  In name toolNames ->
  dispatch P (JStr name) params t = (Throw e, t') ->
  errProp e "tool" = JStr name
  /\ errProp e "params" = params
  /\ (forall c, errProp e "code" = JStr c ->
        c = "UUID_GENERATION_FAILURE"
        \/ In c (map snd (validationFailures name))
        \/ (name = "trackExpenses"
            /\ In c ["INVALID_EXPENSE_ITEM"; "INVALID_EXPENSE_AMOUNT"]))
  /\ (forall c, In c postGenerationCodes -> errProp e "code" <> JStr c).
Proof.
  intros Hin Hrun.
  destruct (dispatch_raises P name params e t t' Hin Hrun) as (e0 & -> & Hraised).
  destruct (errProp_annotate_tool name params e0) as [Htool Hparams].
  rewrite errProp_annotate.
  split; [exact Htool|]. split; [exact Hparams|].
  split; [intros c; apply (raised_code P); exact Hraised|].
  intros c Hc Hcode.
  destruct (raised_code P name e0 c Hraised Hcode) as [-> | [Hlist | [_ Hpos]]].
  - unfold postGenerationCodes in Hc. simpl in Hc.
    repeat (destruct Hc as [Hc|Hc]; [discriminate Hc|]). destruct Hc.
  - unfold toolNames in Hin. simpl in Hin. unfold postGenerationCodes in Hc. simpl in Hc.
    repeat (destruct Hin as [<-|Hin];
            [simpl in Hlist;
             repeat (destruct Hlist as [<-|Hlist];
                     [repeat (destruct Hc as [Hc|Hc]; [discriminate Hc|]); destruct Hc|]);
             destruct Hlist|]).
    destruct Hin.
  - unfold postGenerationCodes in Hc. simpl in Hc, Hpos.
    destruct Hpos as [<-|[<-|[]]];
      repeat (destruct Hc as [Hc|Hc]; [discriminate Hc|]); destruct Hc.
Qed.

Lemma tool_failures_catalogued_witness :
  exists e t',
    dispatch (samplePlatform noDecoder) (JStr "createGoal")
      (obj [("title", JStr "Run"); ("target", JNull)]) tape0 = (Throw e, t')
    /\ errProp e "tool" = JStr "createGoal"
    /\ errProp e "code" = JStr "INVALID_GOAL_TARGET".
Proof.
  destruct (dispatch (samplePlatform noDecoder) (JStr "createGoal")
              (obj [("title", JStr "Run"); ("target", JNull)]) tape0)
    as [[r|e] t'] eqn:Hrun; [vm_compute in Hrun; discriminate Hrun|].
  destruct (tool_failures_catalogued (samplePlatform noDecoder) "createGoal"
              (obj [("title", JStr "Run"); ("target", JNull)]) e tape0 t')
    as (Htool & _).
  - unfold toolNames. simpl. tauto.
  - exact Hrun.
  - exists e, t'. split; [reflexivity|]. split; [exact Htool|].
    vm_compute in Hrun. injection Hrun as <- _. vm_compute. reflexivity.
Defined.

(** X9.  The three update tools never ask for an identifier: on truthy
    parameters the run of the tool leaves the state as it is, whether it
    returns or throws, and the dispatcher returns a fragment having drawn
    from none of the three random sources. *)
Theorem update_tools_never_mint (P : Platform) (name : string) (params : JSVal) (t : Tape) :
  In name updateTools ->
  truthy params = true ->
  snd (dispatch P (JStr name) params t) = t
  /\ exists fragment t',
       executeToolIfNeeded P (envelope name params) t = (Ok fragment, t')
       /\ uuidCalls t' = uuidCalls t
       /\ byteCalls t' = byteCalls t
       /\ randomCalls t' = randomCalls t.
Proof.
  intros Hin Htruthy.
  assert (Hkept : snd (dispatch P (JStr name) params t) = t).
  { unfold updateTools in Hin. simpl in Hin.
    destruct Hin as [<-|[<-|[<-|[]]]].
    - change (snd (executeUpdateTask params t) = t).
      unfold executeUpdateTask. open_tool. step_run; reflexivity.
    - change (snd (executeUpdateReminder P params t) = t).
      unfold executeUpdateReminder. open_tool. step_run; reflexivity.
    - change (snd (executeUpdateGoal params t) = t).
      unfold executeUpdateGoal. open_tool. step_run; reflexivity. }
  split; [exact Hkept|].
  assert (Hne : name <> "").
  { intros ->. unfold updateTools in Hin. simpl in Hin.
    repeat (destruct Hin as [Hin|Hin]; [discriminate Hin|]). exact Hin. }
  destruct (envelope_fields name params) as (Hnull & Hname & Hparams).
  rewrite (executeToolIfNeeded_named P _ params name t Hnull (Hname Hne) Hne
             (Hparams Htruthy) Htruthy).
  destruct (dispatch P (JStr name) params t) as [[result|e] t1]; cbn [snd] in Hkept;
    subst t1.
  - exists result, t. auto.
  - destruct (createToolErrorResponse_named P name e params t) as (response & -> & _).
    eexists. eexists. split; [reflexivity|]. auto.
Qed.

Lemma update_tools_never_mint_witness :
  snd (dispatch (samplePlatform noDecoder) (JStr "updateGoal") sampleGoalUpdate tape0)
  = tape0.
Proof.
  apply (update_tools_never_mint (samplePlatform noDecoder) "updateGoal" sampleGoalUpdate
           tape0).
  - unfold updateTools. simpl. tauto.
  - reflexivity.
Defined.

(** X10.  A tool that creates one item (task, reminder, goal, journal
    entry) and fails with a code other than [UUID_GENERATION_FAILURE] has
    failed before asking for an identifier: the state is unchanged. *)
Theorem coded_failures_precede_minting (P : Platform) (params : JSVal) (e : JSError)
  (c : string) (t t' : Tape) :
  errProp e "code" = JStr c ->
  c <> "UUID_GENERATION_FAILURE" ->
  (executeCreateTask P params t = (Throw e, t') -> t' = t)
  /\ (executeCreateReminder P params t = (Throw e, t') -> t' = t)
  /\ (executeCreateGoal P params t = (Throw e, t') -> t' = t)
  /\ (executeCreateJournalEntry P params t = (Throw e, t') -> t' = t).
Proof.
  intros Hcode Hc.
  assert (Hkept : forall tool, failureShape P tool params e t t' -> t' = t).
  { intros tool [_ [Hgen | [Hnone | Hsame]]]; [| |exact Hsame]; congruence. }
  repeat split; intros Hrun.
  - exact (Hkept _ (executeCreateTask_raises P params e t t' Hrun)).
  - exact (Hkept _ (executeCreateReminder_raises P params e t t' Hrun)).
  - exact (Hkept _ (executeCreateGoal_raises P params e t t' Hrun)).
  - exact (Hkept _ (executeCreateJournalEntry_raises P params e t t' Hrun)).
Qed.

Lemma coded_failures_precede_minting_witness :
  exists e,
    executeCreateReminder (samplePlatform noDecoder)
      (obj [("title", JStr "Call mum"); ("scheduledTime", JStr "tomorrow-ish")]) tape0
    = (Throw e, tape0)
    /\ errProp e "code" = JStr "INVALID_SCHEDULED_TIME".
Proof.
  destruct (executeCreateReminder (samplePlatform noDecoder)
              (obj [("title", JStr "Call mum"); ("scheduledTime", JStr "tomorrow-ish")])
              tape0) as [[r|e] t'] eqn:Hrun; [vm_compute in Hrun; discriminate Hrun|].
  assert (Hcode : errProp e "code" = JStr "INVALID_SCHEDULED_TIME").
  { vm_compute in Hrun. injection Hrun as <- _. vm_compute. reflexivity. }
  exists e. split; [|exact Hcode]. f_equal.
  destruct (coded_failures_precede_minting (samplePlatform noDecoder)
              (obj [("title", JStr "Call mum"); ("scheduledTime", JStr "tomorrow-ish")])
              e "INVALID_SCHEDULED_TIME" tape0 t' Hcode ltac:(discriminate))
    as (_ & Hreminder & _).
  now apply Hreminder.
Defined.

Lemma validateExpenses_app (P : Platform) (pre rest : list JSVal) :
  forall i validated t,
    validateExpenses P (pre ++ rest) i validated t
    = match validateExpenses P pre i validated t with
      | (Ok validated', t1) => validateExpenses P rest (i + length pre) validated' t1
      | (Throw e, t1) => (Throw e, t1)
      end.
Proof.
  induction pre as [|expense pre IH]; intros i validated t.
  - cbn [app validateExpenses length]. unfold ret. now rewrite Nat.add_0_r.
  - cbn [app validateExpenses length]. open_tool. step_run; try reflexivity;
      try discriminate.
    all: rewrite IH; replace (S i + length pre) with (i + S (length pre)) by lia;
      match goal with H : validateExpenses _ _ _ _ _ = _ |- _ => now rewrite H end.
Qed.

Lemma validateExpenses_stops (P : Platform) (bad : JSVal) (rest : list JSVal) (i : nat)
  (validated : list JSVal) (t : Tape) :
  nullish bad = false ->
  notNonEmptyString (get bad "item") || badAmount (get bad "amount") = true ->
  validateExpenses P (bad :: rest) i validated t = (Throw (rejection bad (i + 1)), t).
Proof.
  intros Hnull Hbad. cbn [validateExpenses]. unfold rejection.
  unfold bind at 1. destruct bad; try discriminate Hnull; cbn [readable]; unfold ret at 1;
    (destruct (notNonEmptyString _); [reflexivity|]; cbn [orb] in Hbad; now rewrite Hbad).
Qed.

(** X11.  [trackExpenses] checks and mints in one loop.  When the first
    expense refused (one that is not nullish) comes after [n] accepted
    ones, an identifier has been generated for each of the [n]; the tool
    then throws the error of the expense refused, whose message gives the
    position [n + 1], and the identifiers generated are dropped. *)
Theorem trackExpenses_mints_for_valid_prefix (P : Platform) (m : gmap string JSVal)
  (pre rest : list JSVal) (bad : JSVal) (ids : list string) (t t1 : Tape) :
  expenseBatch (JObj m) = (pre ++ bad :: rest)%list ->
  Forall expenseAccepted pre ->
  nullish bad = false ->
  notNonEmptyString (get bad "item") || badAmount (get bad "amount") = true ->
  mintAll P (length pre) t = (Ok ids, t1) ->
  executeTrackExpenses P (JObj m) t
  = (Throw (annotate "trackExpenses" (JObj m) (rejection bad (length pre + 1))), t1)
  /\ length ids = length pre.
Proof.
  intros Hbatch Haccepted Hnull Hbad Hmint.
  destruct (validateExpenses_accepts P pre 0 [] t ids t1 Haccepted Hmint)
    as (Hpre & Hlen & _).
  split; [|exact Hlen].
  unfold executeTrackExpenses, try_catch. unfold bind at 1. cbn [readable]. unfold ret at 1.
  rewrite Hbatch.
  destruct (length (pre ++ bad :: rest) =? 0)%nat eqn:Hzero.
  { apply Nat.eqb_eq in Hzero. rewrite length_app in Hzero. simpl in Hzero. lia. }
  unfold bind. rewrite validateExpenses_app, Hpre.
  now rewrite (validateExpenses_stops P bad rest _ _ t1 Hnull Hbad).
Qed.

Lemma trackExpenses_mints_for_valid_prefix_witness :
  exists e,
    executeTrackExpenses (samplePlatform noDecoder) mixedBatch tape0
    = (Throw e, {| uuidCalls := 1; byteCalls := 0; randomCalls := 0; clockReads := 0 |})
    /\ message e = "Expense 2: Amount must be a positive number".
Proof.
  eexists. split.
  - apply (trackExpenses_mints_for_valid_prefix (samplePlatform noDecoder) _
             [obj [("item", JStr "Coffee"); ("amount", JNum 5.5)]] []
             (obj [("item", JStr "Refund"); ("amount", JNum (-3))])
             ["a1b2c3d4-e5f6-4789-a012-b3c4d5e6f700"] tape0).
    + vm_compute. reflexivity.
    + constructor; [|constructor]. exists "Coffee", 5.5%float.
      repeat split; now read_fields.
    + reflexivity.
    + vm_compute. reflexivity.
    + vm_compute. reflexivity.
  - vm_compute. reflexivity.
Defined.

(** ** The results of the tools *)

Ltac tagged_here :=
  unfold tagged, idField, itemType;
  cbn [String.eqb Ascii.eqb Bool.eqb orb];
  repeat split; read_fields; reflexivity.

Ltac created_tool :=
  open_tool; step_run; try discriminate; intros [= <- <-];
  match goal with
  | Hgen : generateUUID _ _ = (Ok ?id, _) |- _ =>
      exists id; split; [reflexivity|]; split;
      [ destruct (generateUUID_ok _ _ _ _ Hgen) as [Hvalid _]; exact Hvalid
      | tagged_here ]
  end.

Lemma executeCreateTask_tagged (P : Platform) (params f : JSVal) (t t' : Tape) :
  executeCreateTask P params t = (Ok f, t') ->
  exists id, generateUUID P t = (Ok id, t') /\ isValidUUID (JStr id) = true
             /\ tagged "createTask" f id.
Proof. unfold executeCreateTask. created_tool. Qed.

Lemma executeCreateReminder_tagged (P : Platform) (params f : JSVal) (t t' : Tape) :
  executeCreateReminder P params t = (Ok f, t') ->
  exists id, generateUUID P t = (Ok id, t') /\ isValidUUID (JStr id) = true
             /\ tagged "createReminder" f id.
Proof. unfold executeCreateReminder. created_tool. Qed.

Lemma executeCreateGoal_tagged (P : Platform) (params f : JSVal) (t t' : Tape) :
  executeCreateGoal P params t = (Ok f, t') ->
  exists id, generateUUID P t = (Ok id, t') /\ isValidUUID (JStr id) = true
             /\ tagged "createGoal" f id.
Proof. unfold executeCreateGoal. created_tool. Qed.

Lemma executeCreateJournalEntry_tagged (P : Platform) (params f : JSVal) (t t' : Tape) :
  executeCreateJournalEntry P params t = (Ok f, t') ->
  exists id, generateUUID P t = (Ok id, t') /\ isValidUUID (JStr id) = true
             /\ tagged "createJournalEntry" f id.
Proof. unfold executeCreateJournalEntry. created_tool. Qed.

Ltac updated_id :=
  open_tool; step_run; try discriminate; intros _;
  repeat match goal with H : negb _ = false |- _ => apply negb_false_iff in H end;
  match goal with
  | Hvalid : isValidUUID ?v = true |- _ =>
      let id := fresh "id" in
      let Hid := fresh "Hid" in
      destruct (valid_id_is_string v Hvalid) as (id & Hid & _);
      exists id; split; [exact Hid | rewrite Hid in Hvalid; exact Hvalid]
  end.

Lemma executeUpdateTask_tagged (params f : JSVal) (t t' : Tape) :
  executeUpdateTask params t = (Ok f, t') ->
  exists id, get params "taskId" ||| get params "id" = JStr id
             /\ isValidUUID (JStr id) = true /\ t' = t /\ tagged "updateTask" f id.
Proof.
  intros Hrun.
  assert (Hgiven : exists id, get params "taskId" ||| get params "id" = JStr id
                              /\ isValidUUID (JStr id) = true).
  { revert Hrun. unfold executeUpdateTask. updated_id. }
  destruct Hgiven as (id & Hid & Hvalid).
  destruct (id_given_is_object _ _ _ _ Hid) as [m ->].
  rewrite (executeUpdateTask_run m id t Hid Hvalid) in Hrun.
  destruct (updatesRejected (JObj m)); [discriminate|]. injection Hrun as <- <-.
  exists id. repeat split; try assumption; tagged_here.
Qed.

Lemma executeUpdateReminder_tagged (P : Platform) (params f : JSVal) (t t' : Tape) :
  executeUpdateReminder P params t = (Ok f, t') ->
  exists id, get params "reminderId" ||| get params "id" = JStr id
             /\ isValidUUID (JStr id) = true /\ t' = t /\ tagged "updateReminder" f id.
Proof.
  intros Hrun.
  assert (Hgiven : exists id, get params "reminderId" ||| get params "id" = JStr id
                              /\ isValidUUID (JStr id) = true).
  { revert Hrun. unfold executeUpdateReminder. updated_id. }
  destruct Hgiven as (id & Hid & Hvalid).
  destruct (id_given_is_object _ _ _ _ Hid) as [m ->].
  rewrite (executeUpdateReminder_run P m id t Hid Hvalid) in Hrun.
  destruct (updatesRejected (JObj m)); [discriminate|].
  destruct (checkScheduledTime P _ _ t) as [[[]|e] t1]; [|discriminate].
  injection Hrun as <- <-.
  exists id. repeat split; try assumption; tagged_here.
Qed.

Lemma executeUpdateGoal_tagged (params f : JSVal) (t t' : Tape) :
  executeUpdateGoal params t = (Ok f, t') ->
  exists id, get params "goalId" ||| get params "id" = JStr id
             /\ isValidUUID (JStr id) = true /\ t' = t /\ tagged "updateGoal" f id.
Proof.
  intros Hrun.
  assert (Hgiven : exists id, get params "goalId" ||| get params "id" = JStr id
                              /\ isValidUUID (JStr id) = true).
  { revert Hrun. unfold executeUpdateGoal. updated_id. }
  destruct Hgiven as (id & Hid & Hvalid).
  destruct (id_given_is_object _ _ _ _ Hid) as [m ->].
  rewrite (executeUpdateGoal_run m id t Hid Hvalid) in Hrun.
  destruct (updatesRejected (JObj m)); [discriminate|].
  destruct (badTarget _); [discriminate|]. destruct (badProgress _); [discriminate|].
  injection Hrun as <- <-.
  exists id. repeat split; try assumption; tagged_here.
Qed.

Ltac not_member Hmem :=
  exfalso; simpl in Hmem;
  repeat (destruct Hmem as [Hmem|Hmem]; [discriminate Hmem|]); exact Hmem.

(** X12.  The fragment returned by a tool that acts on one item (the four
    that create, the three that update) is tagged consistently:
    [contextItemId] and the identifier field of [actionMetadata] hold the
    same identifier, which passes [isValidUUID]; [actionMetadata.tool] is
    the tool; [contextItemType] and [updatedItemType] are the type of the
    item.  For a tool that creates, the identifier is the one
    [generateUUID] returned; for a tool that updates, it is the identifier
    given in the parameters, and the state is unchanged. *)
Theorem single_item_fragment_tagged (P : Platform) (name : string) (params f : JSVal)
  (t t' : Tape) :
  In name (createTools ++ updateTools)%list ->
  dispatch P (JStr name) params t = (Ok f, t') ->
  exists id,
    isValidUUID (JStr id) = true
    /\ tagged name f id
    /\ (In name createTools -> generateUUID P t = (Ok id, t'))
    /\ (In name updateTools ->
        t' = t /\ get params (idParam name) ||| get params "id" = JStr id).
Proof.
  intros Hin Hrun. unfold createTools, updateTools in *. simpl in Hin.
  destruct Hin as [<-|[<-|[<-|[<-|[<-|[<-|[<-|[]]]]]]]].
  - change (executeCreateTask P params t = (Ok f, t')) in Hrun.
    destruct (executeCreateTask_tagged P params f t t' Hrun) as (id & Hgen & Hvalid & Htag).
    exists id. split; [exact Hvalid|]. split; [exact Htag|].
    split; intros Hmem; [exact Hgen | not_member Hmem].
  - change (executeCreateReminder P params t = (Ok f, t')) in Hrun.
    destruct (executeCreateReminder_tagged P params f t t' Hrun)
      as (id & Hgen & Hvalid & Htag).
    exists id. split; [exact Hvalid|]. split; [exact Htag|].
    split; intros Hmem; [exact Hgen | not_member Hmem].
  - change (executeCreateGoal P params t = (Ok f, t')) in Hrun.
    destruct (executeCreateGoal_tagged P params f t t' Hrun) as (id & Hgen & Hvalid & Htag).
    exists id. split; [exact Hvalid|]. split; [exact Htag|].
    split; intros Hmem; [exact Hgen | not_member Hmem].
  - change (executeCreateJournalEntry P params t = (Ok f, t')) in Hrun.
    destruct (executeCreateJournalEntry_tagged P params f t t' Hrun)
      as (id & Hgen & Hvalid & Htag).
    exists id. split; [exact Hvalid|]. split; [exact Htag|].
    split; intros Hmem; [exact Hgen | not_member Hmem].
  - change (executeUpdateTask params t = (Ok f, t')) in Hrun.
    destruct (executeUpdateTask_tagged params f t t' Hrun) as (id & Hid & Hvalid & -> & Htag).
    exists id. split; [exact Hvalid|]. split; [exact Htag|].
    split; intros Hmem; [not_member Hmem | split; [reflexivity | exact Hid]].
  - change (executeUpdateReminder P params t = (Ok f, t')) in Hrun.
    destruct (executeUpdateReminder_tagged P params f t t' Hrun)
      as (id & Hid & Hvalid & -> & Htag).
    exists id. split; [exact Hvalid|]. split; [exact Htag|].
    split; intros Hmem; [not_member Hmem | split; [reflexivity | exact Hid]].
  - change (executeUpdateGoal params t = (Ok f, t')) in Hrun.
    destruct (executeUpdateGoal_tagged params f t t' Hrun) as (id & Hid & Hvalid & -> & Htag).
    exists id. split; [exact Hvalid|]. split; [exact Htag|].
    split; intros Hmem; [not_member Hmem | split; [reflexivity | exact Hid]].
Qed.

Lemma single_item_fragment_tagged_witness :
  exists f t',
    dispatch (samplePlatform noDecoder) (JStr "createReminder")
      (obj [("title", JStr " Call mum ")]) tape0 = (Ok f, t')
    /\ get f "contextItemId" = JStr "a1b2c3d4-e5f6-4789-a012-b3c4d5e6f700"
    /\ get (get f "actionMetadata") "reminder_id" = JStr "a1b2c3d4-e5f6-4789-a012-b3c4d5e6f700".
Proof.
  destruct (dispatch (samplePlatform noDecoder) (JStr "createReminder")
              (obj [("title", JStr " Call mum ")]) tape0) as [[f|e] t'] eqn:Hrun;
    [|vm_compute in Hrun; discriminate Hrun].
  destruct (single_item_fragment_tagged (samplePlatform noDecoder) "createReminder"
              (obj [("title", JStr " Call mum ")]) f tape0 t')
    as (id & _ & (Hctx & Hmeta & _) & Hgen & _).
  - simpl. tauto.
  - exact Hrun.
  - exists f, t'. split; [reflexivity|].
    assert (Hid : id = "a1b2c3d4-e5f6-4789-a012-b3c4d5e6f700").
    { specialize (Hgen ltac:(simpl; tauto)). vm_compute in Hgen. now injection Hgen as <- _. }
    subst id. split; [exact Hctx | exact Hmeta].
Defined.

(** X13.  [createReminder] and [createGoal] do not check the type of
    [description].  With a valid title (and no scheduled time, resp. an
    acceptable target and progress) and a truthy [description] that is not
    a string, the tool asks for an identifier first and then throws the
    [TypeError] of [params.description.trim]: an error without a code,
    which [isRetryableError] does not hold retryable. *)
Theorem untyped_description_fails_after_minting (P : Platform) (m : gmap string JSVal)
  (title id : string) (t t' : Tape) :
  get (JObj m) "title" = JStr title ->
  title <> "" ->
  truthy (get (JObj m) "description") = true ->
  typeof (get (JObj m) "description") <> "string" ->
  generateUUID P t = (Ok id, t') ->
  let e := typeError "params.description.trim is not a function" in
  (truthy (get (JObj m) "scheduledTime") = false ->
   executeCreateReminder P (JObj m) t = (Throw (annotate "createReminder" (JObj m) e), t'))
  /\ (badTarget (get (JObj m) "target") = false ->
      badProgress (get (JObj m) "progress") = false ->
      executeCreateGoal P (JObj m) t = (Throw (annotate "createGoal" (JObj m) e), t'))
  /\ errProp e "code" = JUndefined
  /\ isRetryableError e = false.
Proof.
  intros Htitle Hne Htruthy Htype Hgen e.
  destruct (generateUUID_ok P t t' id Hgen) as [Hvalid _].
  assert (Hcheck : notNonEmptyString (JStr title) = false).
  { unfold notNonEmptyString. now rewrite (nonempty_string_truthy title Hne). }
  assert (Htrim : trimOrNull "params.description" (get (JObj m) "description") t'
                  = (Throw e, t')).
  { unfold trimOrNull. rewrite Htruthy.
    destruct (get (JObj m) "description"); try reflexivity. now contradiction Htype. }
  split; [|split; [|split]].
  - intros Htime.
    unfold executeCreateReminder, try_catch, bind. cbn [readable]. unfold ret at 1.
    rewrite Htitle, Hcheck. unfold checkScheduledTime. rewrite Htime. unfold ret at 1.
    rewrite Hgen, Hvalid. cbn [negb callTrim]. unfold ret at 1.
    now rewrite Htrim.
  - intros Htarget Hprogress.
    unfold executeCreateGoal, try_catch, bind. cbn [readable]. unfold ret at 1.
    rewrite Htitle, Hcheck, Htarget, Hprogress, Hgen, Hvalid. cbn [negb callTrim].
    unfold ret at 1. now rewrite Htrim.
  - apply errProp_typeError.
  - reflexivity.
Qed.

Lemma untyped_description_fails_after_minting_witness :
  exists e,
    executeCreateReminder (samplePlatform noDecoder)
      (obj [("title", JStr "Call mum"); ("description", JNum 5)]) tape0
    = (Throw e, {| uuidCalls := 1; byteCalls := 0; randomCalls := 0; clockReads := 0 |})
    /\ message e = "params.description.trim is not a function".
Proof.
  eexists. split.
  - apply (untyped_description_fails_after_minting (samplePlatform noDecoder) _ "Call mum"
             "a1b2c3d4-e5f6-4789-a012-b3c4d5e6f700" tape0).
    + vm_compute. reflexivity.
    + discriminate.
    + vm_compute. reflexivity.
    + vm_compute. discriminate.
    + vm_compute. reflexivity.
    + vm_compute. reflexivity.
  - reflexivity.
Defined.

(** X14.  [generalChat] cannot fail: for any truthy parameters the
    dispatcher returns, with the state unchanged, a fragment whose
    [actionMetadata] holds the tool, the tone ([neutral] by default) and
    the response (the empty string by default), with the icon [chat], and
    with no identifier, item type, list of actions or error details. *)
Theorem generalChat_always_succeeds (P : Platform) (params : JSVal) (t : Tape) :
  truthy params = true ->
  exists fragment,
    executeToolIfNeeded P (envelope "generalChat" params) t = (Ok fragment, t)
    /\ get fragment "actionMetadata"
       = obj [("tool", JStr "generalChat");
              ("tone", if truthy (get params "tone") then get params "tone"
                       else JStr "neutral");
              ("response", if truthy (get params "response") then get params "response"
                           else JStr "")]
    /\ get fragment "actionIcon" = JStr "chat"
    /\ Forall (fun field => get fragment field = JUndefined)
         ["contextItemId"; "contextItemType"; "updatedItemType"; "multipleActions";
          "errorDetails"].
Proof.
  intros Htruthy.
  destruct (envelope_fields "generalChat" params) as (Hnull & Hname & Hparams).
  rewrite (executeToolIfNeeded_named P _ params "generalChat" t Hnull
             (Hname ltac:(discriminate)) ltac:(discriminate) (Hparams Htruthy) Htruthy).
  change (dispatch P (JStr "generalChat") params) with (executeGeneralChat params).
  assert (Hrun : executeGeneralChat params t
                 = (Ok (obj [("actionMetadata",
                              obj [("tool", JStr "generalChat");
                                   ("tone", get params "tone" ||| JStr "neutral");
                                   ("response", get params "response" ||| JStr "")]);
                             ("actionIcon", JStr "chat")]), t)).
  { unfold executeGeneralChat, try_catch, bind.
    destruct params; try discriminate Htruthy; reflexivity. }
  rewrite Hrun. eexists. split; [reflexivity|].
  split; [now read_fields|]. split; [now read_fields|].
  repeat constructor; now read_fields.
Qed.

Lemma generalChat_always_succeeds_witness :
  exists fragment,
    executeToolIfNeeded (samplePlatform noDecoder) (envelope "generalChat" (JStr "hello"))
      tape0 = (Ok fragment, tape0)
    /\ get (get fragment "actionMetadata") "tone" = JStr "neutral".
Proof.
  destruct (generalChat_always_succeeds (samplePlatform noDecoder) (JStr "hello") tape0)
    as (fragment & Hrun & Hmeta & _); [reflexivity|].
  exists fragment. split; [exact Hrun|]. rewrite Hmeta. now read_fields.
Defined.

Lemma createToolErrorResponse_returns (P : Platform) (toolName : JSVal) (e : JSError)
  (params : JSVal) (t : Tape) :
  ToString P toolName <> None ->
  exists response,
    createToolErrorResponse P toolName e params t = (Ok response, tick t)
    /\ get response "error" = JBool true
    /\ get response "tool" = toolName
    /\ get (get response "technicalDetails") "errorMessage" = JStr (message e)
    /\ get (get response "technicalDetails") "errorCode"
       = (errProp e "code" ||| JStr "UNKNOWN_ERROR")
    /\ get (get response "technicalDetails") "parameters" = params
    /\ get response "message" = JStr (getUserFriendlyErrorMessage toolName e)
    /\ get response "suggestedAction" = JStr (getSuggestedAction toolName e)
    /\ get response "retryable" = JBool (isRetryableError e).
Proof.
  intros Hname. unfold createToolErrorResponse, bind, isoNow, ret, template, throw.
  destruct (ToString P toolName) as [name|]; [|contradiction].
  eexists. split; [reflexivity|]. repeat split; now read_fields.
Qed.

(** X15.  [executeToolIfNeeded] does not throw: for an envelope that is not
    nullish and whose tool name can be converted to a string, it returns a
    fragment, whatever the tool does.  The fragment is empty, and the state
    unchanged, when the tool name or the parameters are missing or
    falsy. *)
Theorem dispatcher_never_throws (P : Platform) (parsed : JSVal) (t : Tape) :
  nullish parsed = false ->
  ToString P (get parsed "tool" ||| get parsed "selectedTool") <> None ->
  exists fragment t',
    executeToolIfNeeded P parsed t = (Ok fragment, t')
    /\ (truthy (get parsed "tool" ||| get parsed "selectedTool") = false
        \/ truthy (get parsed "toolParams" ||| get parsed "parameters") = false ->
        fragment = obj [] /\ t' = t).
Proof.
  intros Hnull Hname. unfold executeToolIfNeeded.
  set (toolName := get parsed "tool" ||| get parsed "selectedTool") in *.
  set (toolParams := get parsed "toolParams" ||| get parsed "parameters").
  assert (Hread : readable parsed "tool" t = (Ok tt, t)) by (now destruct parsed).
  unfold bind at 1. rewrite Hread.
  assert (Htemplate : forall t0, exists name, template P toolName t0 = (Ok name, t0)).
  { intros t0. unfold template. destruct (ToString P toolName) as [name|]; [|contradiction].
    now exists name. }
  destruct (truthy toolName) eqn:Htool; cbn [negb].
  2: { exists (obj []), t. repeat split; auto. }
  destruct (truthy toolParams) eqn:Hparams; cbn [negb].
  2: { unfold bind, ret. destruct (Htemplate t) as [name ->].
       exists (obj []), t. repeat split; auto. }
  unfold try_catch. unfold bind at 1. destruct (Htemplate t) as [name ->].
  unfold bind at 1.
  destruct (dispatch P toolName toolParams t) as [[result|e] t1] eqn:Hrun.
  - unfold bind, ret. destruct (Htemplate t1) as [name' ->].
    exists result, t1. split; [reflexivity|]. intros [H|H]; discriminate H.
  - unfold bind, ret.
    destruct (createToolErrorResponse_returns P toolName e toolParams t1 Hname)
      as (response & -> & _).
    destruct (Htemplate (tick t1)) as [name' ->].
    eexists. eexists. split; [reflexivity|]. intros [H|H]; discriminate H.
Qed.

Lemma dispatcher_never_throws_witness :
  exists fragment t',
    executeToolIfNeeded (samplePlatform noDecoder)
      (obj [("tool", JNum 7); ("toolParams", obj [])]) tape0 = (Ok fragment, t').
Proof.
  destruct (dispatcher_never_throws (samplePlatform noDecoder)
              (obj [("tool", JNum 7); ("toolParams", obj [])]) tape0)
    as (fragment & t' & Hrun & _).
  - reflexivity.
  - vm_compute. discriminate.
  - now exists fragment, t'.
Defined.

(** X16.  A tool name that is none of the nine is reported, not thrown:
    the dispatcher returns a fragment with [errorDetails] alone, which
    names the tool, has the code [UNKNOWN_TOOL] and the technical message
    [Unknown tool: <name>], the generic message and the generic suggested
    action; it is marked retryable exactly when the name contains
    [timeout]. *)
Theorem unknown_tool_reported (P : Platform) (name : string) (params : JSVal) (t : Tape) :
  ~ In name toolNames ->
  name <> "" ->
  truthy params = true ->
  exists details,
    executeToolIfNeeded P (envelope name params) t
    = (Ok (obj [("errorDetails", details)]), tick t)
    /\ get details "tool" = JStr name
    /\ get (get details "technicalDetails") "errorCode" = JStr "UNKNOWN_TOOL"
    /\ get (get details "technicalDetails") "errorMessage" = JStr ("Unknown tool: " ++ name)
    /\ get details "message"
       = JStr "An error occurred while processing your request. Please try again."
    /\ get details "suggestedAction"
       = JStr "Please try the operation again or contact support if the issue persists."
    /\ get details "retryable" = JBool (includes ("Unknown tool: " ++ name) "timeout").
Proof.
  intros Hnot Hne Htruthy.
  destruct (envelope_fields name params) as (Hnull & Hname & Hparams).
  rewrite (executeToolIfNeeded_named P _ params name t Hnull (Hname Hne) Hne
             (Hparams Htruthy) Htruthy).
  rewrite (dispatch_unknown P name params t Hnot).
  set (e := codedError ("Unknown tool: " ++ name) "UNKNOWN_TOOL").
  destruct (createToolErrorResponse_returns P (JStr name) e params t ltac:(discriminate))
    as (details & -> & _ & Htool & Hmsg & Hcode & _ & Hfriendly & Haction & Hretry).
  exists details. split; [reflexivity|].
  assert (Hswitch : forall (A : Type) (cases : list (string * A)) (d : A),
             Forall (fun kv => In (fst kv) toolNames) cases ->
             switchStr (JStr name) cases d = d).
  { intros A cases d Hcases. induction cases as [|[k v] rest IH]; [reflexivity|].
    inversion Hcases as [|? ? Hk Hrest]; subst. cbn [switchStr strictEqStr].
    destruct (String.eqb_spec name k) as [->|_]; [contradiction | now apply IH]. }
  split; [exact Htool|]. split.
  { rewrite Hcode. unfold e. now rewrite errProp_codedError. }
  split; [exact Hmsg|]. split.
  { rewrite Hfriendly. unfold getUserFriendlyErrorMessage, e.
    rewrite errProp_codedError. cbn [String.eqb Ascii.eqb Bool.eqb strictEqStr].
    f_equal. apply Hswitch. unfold toolNames. repeat (constructor; [simpl; tauto|]). constructor. }
  split.
  { rewrite Haction. unfold getSuggestedAction, e.
    rewrite errProp_codedError. cbn [String.eqb Ascii.eqb Bool.eqb strictEqStr orb].
    f_equal. apply Hswitch. unfold toolNames. repeat (constructor; [simpl; tauto|]). constructor. }
  rewrite Hretry. unfold e. rewrite isRetryableError_coded. reflexivity.
Qed.

Lemma unknown_tool_reported_witness :
  exists details t',
    executeToolIfNeeded (samplePlatform noDecoder)
      (envelope "timeoutTask" (obj [("minutes", JNum 5)])) tape0
    = (Ok (obj [("errorDetails", details)]), t')
    /\ get (get details "technicalDetails") "errorCode" = JStr "UNKNOWN_TOOL"
    /\ get details "retryable" = JBool true.
Proof.
  destruct (unknown_tool_reported (samplePlatform noDecoder) "timeoutTask"
              (obj [("minutes", JNum 5)]) tape0)
    as (details & Hrun & _ & Hcode & _ & _ & _ & Hretry).
  - unfold toolNames. simpl. intros H.
    repeat (destruct H as [H|H]; [discriminate H|]). exact H.
  - discriminate.
  - reflexivity.
  - exists details, (tick tape0). split; [exact Hrun|]. split; [exact Hcode|].
    rewrite Hretry. reflexivity.
Defined.

(** ** The response parser *)

Lemma nullish_or (a b : JSVal) : nullish b = false -> nullish (a ||| b) = false.
Proof.
  intros Hb. unfold jsOr. destruct (truthy a) eqn:Ha; [|exact Hb].
  now destruct a.
Qed.

Lemma truthy_or (a b : JSVal) : truthy b = true -> truthy (a ||| b) = true.
Proof. unfold jsOr. destruct (truthy a) eqn:Ha; auto. Qed.

(** The parser returns for every value, and the text of the response is
    the text of the envelope if that is truthy, the input otherwise. *)
Lemma parseAIResponse_returns (P : Platform) (v : JSVal) (t : Tape) :
  exists response t',
    parseAIResponse P v t = (Ok response, t')
    /\ (aiResponseText response = v
        \/ exists parsed, aiResponseText response = get parsed "aiResponseText" ||| v).
Proof.
  unfold parseAIResponse, tryStructured, bind, try_catch, ret.
  destruct (matchBraces v t) as [[[text|]|e] t1]; eauto.
  unfold jsonParse, ret, throw. destruct (JSON_parse P text) as [parsed|]; eauto.
  destruct (executeToolIfNeeded P parsed t1) as [[fragment|e] t2]; eauto.
  eexists. eexists. split; [reflexivity|]. right. now exists parsed.
Qed.

(** X17.  [parseAIResponse] returns a response for every value that is not
    nullish, and the text of the response is never [null] or [undefined];
    if the input is truthy, so is the text. *)
Theorem aiResponseText_present (P : Platform) (v : JSVal) (t : Tape) :
  nullish v = false ->
  exists response t',
    parseAIResponse P v t = (Ok response, t')
    /\ nullish (aiResponseText response) = false
    /\ (truthy v = true -> truthy (aiResponseText response) = true).
Proof.
  intros Hv. destruct (parseAIResponse_returns P v t) as (response & t' & Hrun & Htext).
  exists response, t'. split; [exact Hrun|].
  destruct Htext as [-> | [parsed ->]].
  - auto.
  - split; [now apply nullish_or | apply truthy_or].
Qed.

Lemma aiResponseText_present_witness :
  exists response t',
    parseAIResponse (samplePlatform sampleDecoder) (JStr oddReplyJson) tape0
    = (Ok response, t')
    /\ truthy (aiResponseText response) = true.
Proof.
  destruct (aiResponseText_present (samplePlatform sampleDecoder) (JStr oddReplyJson) tape0)
    as (response & t' & Hrun & _ & Htruthy); [reflexivity|].
  exists response, t'. split; [exact Hrun|]. now apply Htruthy.
Defined.

Lemma executeToolIfNeeded_skipped (P : Platform) (parsed : JSVal) (t : Tape) :
  nullish parsed = false ->
  truthy (get parsed "tool" ||| get parsed "selectedTool") = false ->
  executeToolIfNeeded P parsed t = (Ok (obj []), t).
Proof.
  intros Hnull Hname. unfold executeToolIfNeeded. rewrite Hname.
  unfold bind. now destruct parsed.
Qed.

(** X18.  When the text of the model holds a JSON envelope, each of
    [actionMetadata], [contextItemId], [contextItemType],
    [updatedItemType], [actionIcon] and [multipleActions] that the fragment
    of the dispatcher does not set is taken from the envelope ([null] if
    absent or falsy there).  An envelope that names no tool is relayed
    whole, with the state unchanged: the identifier and the actions in the
    response are then those the model wrote. *)
Theorem model_fields_pass_through (P : Platform) (s span : string) (parsed fragment : JSVal)
  (t t' : Tape) :
  regexMatch braceRegex s = Some span ->
  JSON_parse P span = Some parsed ->
  executeToolIfNeeded P parsed t = (Ok fragment, t') ->
  exists response,
    parseAIResponse P (JStr s) t = (Ok response, t')
    /\ (get fragment "actionMetadata" = JUndefined ->
        actionMetadata response = get parsed "actionMetadata" ||| JNull)
    /\ (get fragment "contextItemId" = JUndefined ->
        contextItemId response = get parsed "contextItemId" ||| JNull)
    /\ (get fragment "contextItemType" = JUndefined ->
        contextItemType response = get parsed "contextItemType" ||| JNull)
    /\ (get fragment "updatedItemType" = JUndefined ->
        updatedItemType response = get parsed "updatedItemType" ||| JNull)
    /\ (get fragment "actionIcon" = JUndefined ->
        actionIcon response = get parsed "actionIcon" ||| JNull)
    /\ (get fragment "multipleActions" = JUndefined ->
        multipleActions response = get parsed "multipleActions" ||| JNull)
    /\ (truthy (get parsed "tool" ||| get parsed "selectedTool") = false ->
        t' = t
        /\ response
           = {| aiResponseText := get parsed "aiResponseText" ||| JStr s;
                actionMetadata := get parsed "actionMetadata" ||| JNull;
                contextItemId := get parsed "contextItemId" ||| JNull;
                contextItemType := get parsed "contextItemType" ||| JNull;
                updatedItemType := get parsed "updatedItemType" ||| JNull;
                actionIcon := get parsed "actionIcon" ||| JNull;
                multipleActions := get parsed "multipleActions" ||| JNull;
                errorDetails := get parsed "errorDetails" ||| JNull |}).
Proof.
  intros Hmatch Hparse Hexec.
  exists (merge (JStr s) parsed fragment). split.
  - unfold parseAIResponse, tryStructured, matchBraces, jsonParse, bind, try_catch, ret.
    now rewrite Hmatch, Hparse, Hexec.
  - unfold merge.
    cbn [actionMetadata contextItemId contextItemType updatedItemType actionIcon
         multipleActions].
    do 6 (split; [intros ->; reflexivity|]).
    intros Hname.
    assert (Hnull : nullish parsed = false)
      by (destruct parsed; try reflexivity; discriminate Hexec).
    rewrite (executeToolIfNeeded_skipped P parsed t Hnull Hname) in Hexec.
    injection Hexec as <- <-. split; reflexivity.
Qed.

Lemma model_fields_pass_through_witness :
  exists response,
    parseAIResponse (samplePlatform claimingDecoder) (JStr ("Sure. " ++ claimingReplyJson))
      tape0 = (Ok response, tape0)
    /\ contextItemId response = JStr "made-up-id"
    /\ actionIcon response = JStr "star".
Proof.
  destruct (model_fields_pass_through (samplePlatform claimingDecoder)
              ("Sure. " ++ claimingReplyJson) claimingReplyJson claimingReplyDecoded
              (obj []) tape0 tape0)
    as (response & Hrun & _ & Hid & _ & _ & Hicon & _).
  - vm_compute. reflexivity.
  - vm_compute. reflexivity.
  - vm_compute. reflexivity.
  - exists response. split; [exact Hrun|]. split.
    + rewrite Hid by reflexivity. vm_compute. reflexivity.
    + rewrite Hicon by reflexivity. vm_compute. reflexivity.
Defined.

(** ** The route handler *)

(** The reply of the [catch] block: its status is one of five, the flag
    [retryable] is false exactly for the statuses 400 and 401, and the
    message of the error is shown in development only. *)
Lemma upstreamFailure_reply (P : Platform) (err : JSError) (t : Tape) :
  exists status reply,
    upstreamFailure P err t = (Ok (Json status reply), tick t)
    /\ In status [400; 401; 429; 500; 503]
    /\ get reply "error" = JStr "AI API error"
    /\ (exists text, get reply "aiResponseText" = JStr text /\ text <> "")
    /\ get reply "actionIcon" = JStr "error"
    /\ Forall (fun field => get reply field = JNull)
         ["actionMetadata"; "contextItemId"; "contextItemType"; "updatedItemType"]
    /\ get (get reply "errorDetails") "retryable"
       = JBool (negb (Nat.eqb status 400 || Nat.eqb status 401))
    /\ get (get reply "errorDetails") "suggestedAction"
       = JStr (if Nat.eqb status 400 || Nat.eqb status 401
               then "Please contact support if the issue persists"
               else "Please try again")
    /\ get reply "details"
       = JStr (if NODE_ENV_development P then message err else "Internal server error").
Proof.
  unfold upstreamFailure.
  set (status := get (errProp err "response") "status").
  destruct (numIs status 401);
    [|destruct (numIs status 429);
      [|destruct (numGe status 400 && numLt status 500);
        [|destruct (strictEqStr (errProp err "code") "ECONNREFUSED"
                    || strictEqStr (errProp err "code") "ENOTFOUND")]]];
    unfold bind, isoNow, ret; (eexists; eexists; split; [reflexivity|]);
    (split; [simpl; tauto|]); read_fields;
    (split; [reflexivity|]);
    (split; [eexists; split; [reflexivity | discriminate]|]);
    (split; [reflexivity|]);
    (split; [repeat (constructor; [now read_fields|]); constructor|]);
    (split; [reflexivity|]);
    (split; [reflexivity|]);
    now destruct (NODE_ENV_development P).
Qed.

Lemma completionText_present (P : Platform) (response : JSVal) (t : Tape) :
  match completionText response t with
  | (Ok aiMessage, t') => nullish aiMessage = false /\ t' = t
  | (Throw _, t') => t' = t
  end.
Proof.
  unfold completionText, bind, ret.
  destruct response; cbn [readable]; unfold throw, ret; try reflexivity;
    (destruct (get _ "data"); cbn [readable]; unfold throw, ret; try reflexivity;
     (split; [now apply nullish_or | reflexivity])).
Qed.

Lemma chatHandler_resume (P : Platform)
  (build : JSVal -> JSVal -> JSVal -> JSVal -> JSVal -> M string) (body request : JSVal)
  (t t1 : Tape) (resume : Result JSVal -> Tape -> Reply * Tape) :
  chatHandler P build body t = Await request t1 resume ->
  resume = afterUpstream P.
Proof.
  unfold chatHandler.
  destruct (negb (truthy (get body "chatInput"))); [discriminate|].
  destruct (isIdentityQuestion (get body "chatInput")) as [[|]|e]; try discriminate.
  destruct (truthy (get body "masterPrompt")).
  - unfold ret. now intros [= _ _ <-].
  - unfold bind, ret.
    destruct (build _ _ _ _ _ t) as [[prompt|err] t0].
    + now intros [= _ _ <-].
    + destruct (runReply (upstreamFailure P err) t0). discriminate.
Qed.

(** X19.  Once the handler has sent its request to the completion
    endpoint, it answers whatever comes back, a response of any shape or a
    failure: the reply is JSON with one of the statuses 200, 400, 401, 429,
    500 and 503, and its [aiResponseText] is neither [null] nor
    [undefined].  A status other than 200 comes with the [error]
    [AI API error], the icon [error] and no action metadata. *)
Theorem handler_always_replies (P : Platform)
  (build : JSVal -> JSVal -> JSVal -> JSVal -> JSVal -> M string) (body request : JSVal)
  (t t1 : Tape) (resume : Result JSVal -> Tape -> Reply * Tape) :
  chatHandler P build body t = Await request t1 resume ->
  forall outcome t2,
    exists status reply t3,
      resume outcome t2 = (Json status reply, t3)
      /\ In status [200; 400; 401; 429; 500; 503]
      /\ nullish (get reply "aiResponseText") = false
      /\ (status <> 200 ->
          get reply "error" = JStr "AI API error"
          /\ get reply "actionIcon" = JStr "error"
          /\ get reply "actionMetadata" = JNull).
Proof.
  intros Hrun outcome t2. rewrite (chatHandler_resume P build body request t t1 resume Hrun).
  assert (Hfail : forall err t0,
             exists status reply t3,
               runReply (upstreamFailure P err) t0 = (Json status reply, t3)
               /\ In status [200; 400; 401; 429; 500; 503]
               /\ nullish (get reply "aiResponseText") = false
               /\ (status <> 200 ->
                   get reply "error" = JStr "AI API error"
                   /\ get reply "actionIcon" = JStr "error"
                   /\ get reply "actionMetadata" = JNull)).
  { intros err t0. unfold runReply.
    destruct (upstreamFailure_reply P err t0)
      as (status & reply & -> & Hin & Herror & (text & Htext & _) & Hicon & Hnull & _).
    exists status, reply, (tick t0). split; [reflexivity|].
    split; [simpl in *; tauto|]. split; [now rewrite Htext|].
    intros _. inversion Hnull. auto. }
  unfold afterUpstream, try_catch, bind, lift. unfold runReply in *. cbv beta.
  destruct outcome as [response|err]; [|exact (Hfail err t2)].
  pose proof (completionText_present P response t2) as Htext.
  destruct (completionText response t2) as [[aiMessage|err] t'];
    [|exact (Hfail err t')].
  destruct Htext as [Hpresent ->].
  destruct (parseAIResponse_returns P aiMessage t2) as (parsed & t3 & Hparse & Htext).
  rewrite Hparse. unfold ret.
  eexists. eexists. eexists. split; [reflexivity|].
  split; [simpl; tauto|]. split; [|intros Hne; now contradiction Hne].
  read_fields. destruct Htext as [-> | [envelope ->]]; [exact Hpresent|].
  now apply nullish_or.
Qed.

Lemma hello_awaits :
  chatHandler (samplePlatform noDecoder) samplePrompt helloBody tape0
  = Await helloRequest tape0 (afterUpstream (samplePlatform noDecoder)).
Proof. reflexivity. Qed.

Lemma handler_always_replies_witness :
  exists status reply t3,
    afterUpstream (samplePlatform noDecoder) (Throw (newError "socket hang up")) tape0
    = (Json status reply, t3)
    /\ In status [200; 400; 401; 429; 500; 503].
Proof.
  destruct (handler_always_replies (samplePlatform noDecoder) samplePrompt helloBody
              helloRequest tape0 tape0 (afterUpstream (samplePlatform noDecoder))
              hello_awaits (Throw (newError "socket hang up")) tape0)
    as (status & reply & t3 & Hrun & Hin & _).
  now exists status, reply, t3.
Defined.

Lemma between_truthy (x : float) :
  PrimFloat.leb 400 x = true -> truthy (JNum x) = true.
Proof.
  cbn [truthy]. unfold PrimFloat.is_zero, PrimFloat.is_nan.
  rewrite !FloatAxioms.eqb_spec, FloatAxioms.leb_spec.
  change (Prim2SF PrimFloat.zero) with (S754_zero false).
  unfold SFeqb, SFleb.
  destruct (Prim2SF x) as [[|]|[|]| |[|] m e]; cbn [SFcompare]; try discriminate;
    rewrite ?Z.compare_refl, ?Pos.compare_cont_refl; try reflexivity.
Qed.

(** X20.  A failure of the completion endpoint with a status from 400 to
    499: the handler answers 401 for 401, 429 for 429 and 400 for every
    other status.  Of these only 429 is marked retryable;
    [errorDetails.errorCode] keeps the status the endpoint gave, and
    [details] shows the message of the error in development only. *)
Theorem client_errors_collapse (P : Platform) (err : JSError) (x : float) (t : Tape) :
  get (errProp err "response") "status" = JNum x ->
  PrimFloat.leb 400 x = true ->
  PrimFloat.ltb x 500 = true ->
  exists reply,
    upstreamFailure P err t
    = (Ok (Json (if PrimFloat.eqb x 401 then 401
                 else if PrimFloat.eqb x 429 then 429 else 400) reply), tick t)
    /\ get (get reply "errorDetails") "retryable"
       = JBool (negb (PrimFloat.eqb x 401) && PrimFloat.eqb x 429)
    /\ get (get reply "errorDetails") "errorCode" = JNum x
    /\ get reply "details"
       = JStr (if NODE_ENV_development P then message err else "Internal server error").
Proof.
  intros Hstatus Hge Hlt.
  unfold upstreamFailure. rewrite Hstatus. cbn [numIs numGe numLt]. rewrite Hge, Hlt.
  rewrite !(truthy_or_l (JNum x)) by exact (between_truthy x Hge).
  destruct (PrimFloat.eqb x 401); [|destruct (PrimFloat.eqb x 429)];
    unfold bind, isoNow, ret; (eexists; split; [reflexivity|]); read_fields;
    (repeat split; try reflexivity); now destruct (NODE_ENV_development P).
Qed.

Lemma client_errors_collapse_witness :
  exists reply t',
    upstreamFailure (samplePlatform noDecoder)
      (setProp "response" (obj [("status", JNum 404)])
         (newError "Request failed with status code 404")) tape0
    = (Ok (Json 400 reply), t')
    /\ get (get reply "errorDetails") "retryable" = JBool false.
Proof.
  destruct (client_errors_collapse (samplePlatform noDecoder)
              (setProp "response" (obj [("status", JNum 404)])
                 (newError "Request failed with status code 404")) 404%float tape0)
    as (reply & Hrun & Hretry & _).
  - rewrite errProp_setProp. now read_fields.
  - reflexivity.
  - reflexivity.
  - exists reply, (tick tape0). split; [exact Hrun | exact Hretry].
Defined.

(** X21.  A completion whose text has no opening brace followed by a
    closing one is relayed as it is: the handler answers 200 with that
    text in [aiResponseText] and [null] in every other field, and the
    state is unchanged. *)
Theorem plain_completion_relayed (P : Platform) (response : JSVal) (s : string) (t : Tape) :
  nullish response = false ->
  nullish (get response "data") = false ->
  contentOf response ||| JStr "" = JStr s ->
  regexMatch braceRegex s = None ->
  afterUpstream P (Ok response) t
  = (Json 200
       (obj [("aiResponseText", JStr s);
             ("actionMetadata", JNull);
             ("contextItemId", JNull);
             ("contextItemType", JNull);
             ("updatedItemType", JNull);
             ("actionIcon", JNull);
             ("multipleActions", JNull);
             ("errorDetails", JNull)]), t)
  /\ (forall pre inner post, s <> pre ++ String "{" (inner ++ String "}" post)).
Proof.
  intros Hresponse Hdata Hcontent Hmatch. split.
  - unfold afterUpstream, runReply, try_catch, bind, lift.
    assert (Htext : completionText response t = (Ok (JStr s), t)).
    { unfold completionText, bind, ret. fold (contentOf response). rewrite Hcontent.
      destruct response; try discriminate Hresponse; cbn [readable]; unfold ret;
        (destruct (get _ "data"); try discriminate Hdata; reflexivity). }
    rewrite Htext.
    unfold parseAIResponse, tryStructured, matchBraces, bind, try_catch, ret.
    rewrite Hmatch. reflexivity.
  - pose proof (regexMatch_brace_spec s) as Hspec. now rewrite Hmatch in Hspec.
Qed.

Lemma plain_completion_relayed_witness :
  exists reply,
    afterUpstream (samplePlatform noDecoder)
      (Ok (obj [("data", obj [("choices", JArr [])])])) tape0
    = (Json 200 reply, tape0)
    /\ get reply "aiResponseText" = JStr "".
Proof.
  eexists. split.
  - apply (plain_completion_relayed (samplePlatform noDecoder)
             (obj [("data", obj [("choices", JArr [])])]) "" tape0).
    + reflexivity.
    + vm_compute. reflexivity.
    + vm_compute. reflexivity.
    + reflexivity.
  - now read_fields.
Defined.

(** X22.  A request whose [chatInput] is not a non-empty string is answered
    without a call of the completion endpoint: with the status 400 and
    [Missing chatInput in request body] when [chatInput] is falsy, and,
    when it is truthy and not a string, with the [TypeError] of
    [input.toLowerCase], which is thrown outside the [try] block of the
    handler. *)
Theorem bad_input_answered_at_once (P : Platform)
  (build : JSVal -> JSVal -> JSVal -> JSVal -> JSVal -> M string) (body : JSVal) (t : Tape) :
  (forall s, get body "chatInput" = JStr s -> s = "") ->
  chatHandler P build body t
  = Answer (if truthy (get body "chatInput")
            then Uncaught (typeError "input.toLowerCase is not a function")
            else Json 400 (obj [("error", JStr "Missing chatInput in request body")])) t.
Proof.
  intros Hinput. unfold chatHandler, isIdentityQuestion.
  destruct (get body "chatInput") as [| |[|]|x|s|xs|m] eqn:Hget; cbn [truthy negb];
    try reflexivity.
  - now destruct (negb (PrimFloat.is_zero x || PrimFloat.is_nan x)).
  - now rewrite (Hinput s eq_refl).
Qed.

Lemma bad_input_answered_at_once_witness :
  chatHandler (samplePlatform noDecoder) samplePrompt (obj [("chatInput", JNum 5)]) tape0
  = Answer (Uncaught (typeError "input.toLowerCase is not a function")) tape0.
Proof.
  rewrite (bad_input_answered_at_once (samplePlatform noDecoder) samplePrompt
             (obj [("chatInput", JNum 5)]) tape0).
  - reflexivity.
  - intros s. rewrite get_obj. cbn [assoc String.eqb Ascii.eqb Bool.eqb]. discriminate.
Defined.

(** X23.  The request to the completion endpoint, for a non-empty
    [chatInput] that is no identity question: the model
    [anthropic/claude-3-sonnet], 800 tokens, the temperature 0.7, the user
    message [chatInput] and, as the system message, a truthy [masterPrompt]
    of the body as it stands, the prompt builder not being called;
    without one, the text the builder returns for the history, the context
    item, the date and the tone of the body. *)
Theorem handler_request (P : Platform)
  (build : JSVal -> JSVal -> JSVal -> JSVal -> JSVal -> M string) (body : JSVal)
  (s : string) (t : Tape) :
  get body "chatInput" = JStr s ->
  s <> "" ->
  existsb (includes (toLowerCase s)) identityPhrases = false ->
  (truthy (get body "masterPrompt") = true ->
   chatHandler P build body t
   = Await (requestFor (get body "masterPrompt") (JStr s)) t (afterUpstream P))
  /\ (truthy (get body "masterPrompt") = false ->
      forall prompt t1,
        build (JStr s) (get body "chatHistory") (get body "contextItem")
          (get body "currentDate") (get body "tone") t = (Ok prompt, t1) ->
        chatHandler P build body t
        = Await (requestFor (JStr prompt) (JStr s)) t1 (afterUpstream P)).
Proof.
  intros Hinput Hne Hidentity.
  assert (Hopen : chatHandler P build body t
                  = match (if truthy (get body "masterPrompt")
                           then ret (get body "masterPrompt")
                           else prompt <- build (JStr s) (get body "chatHistory")
                                            (get body "contextItem")
                                            (get body "currentDate") (get body "tone") ;;
                                ret (JStr prompt)) t
                    with
                    | (Throw err, t1) =>
                        let '(r, t2) := runReply (upstreamFailure P err) t1 in Answer r t2
                    | (Ok systemPrompt, t1) =>
                        Await (requestFor systemPrompt (JStr s)) t1 (afterUpstream P)
                    end).
  { unfold chatHandler, isIdentityQuestion. rewrite Hinput.
    rewrite (nonempty_string_truthy s Hne). cbn [negb]. now rewrite Hidentity. }
  rewrite Hopen. split.
  - intros ->. reflexivity.
  - intros -> prompt t1 Hbuild. unfold bind. now rewrite Hbuild.
Qed.

Lemma handler_request_witness :
  exists request,
    chatHandler (samplePlatform noDecoder) (fun _ _ _ _ _ => throw (newError "not reached"))
      (obj [("chatInput", JStr "hello"); ("masterPrompt", JStr "Be brief.")]) tape0
    = Await request tape0 (afterUpstream (samplePlatform noDecoder))
    /\ get (index0 (get request "messages")) "content" = JStr "Be brief.".
Proof.
  destruct (handler_request (samplePlatform noDecoder)
              (fun _ _ _ _ _ => throw (newError "not reached"))
              (obj [("chatInput", JStr "hello"); ("masterPrompt", JStr "Be brief.")])
              "hello" tape0 eq_refl ltac:(discriminate) eq_refl) as [Hmaster _].
  eexists. split; [apply Hmaster; reflexivity | vm_compute; reflexivity].
Defined.

Lemma prefix_split (a b : string) :
  String.prefix a b = true -> exists suf, b = a ++ suf.
Proof.
  revert b. induction a as [|c a IH]; intros b H.
  - now exists b.
  - destruct b as [|d b]; [discriminate H|]. cbn [String.prefix] in H.
    destruct (ascii_dec c d) as [<-|]; [|discriminate H].
    destruct (IH b H) as [suf ->]. now exists suf.
Qed.

Lemma includes_split (hay needle : string) :
  includes hay needle = true -> exists pre suf, hay = pre ++ needle ++ suf.
Proof.
  induction hay as [|c hay IH]; cbn [includes]; intros H.
  - rewrite orb_false_r in H. apply prefix_split in H as [suf ->]. now exists "", suf.
  - apply orb_true_iff in H as [H|H].
    + apply prefix_split in H as [suf ->]. now exists "", suf.
    + destruct (IH H) as (pre & suf & ->). now exists (String c pre), suf.
Qed.

Lemma lowerChar_idempotent (c : ascii) : lowerChar (lowerChar c) = lowerChar c.
Proof. each_char c; reflexivity. Qed.

Lemma toLowerCase_idempotent (s : string) : toLowerCase (toLowerCase s) = toLowerCase s.
Proof.
  induction s as [|c s IH]; [reflexivity|].
  cbn [toLowerCase]. now rewrite lowerChar_idempotent, IH.
Qed.

Lemma toLowerCase_empty (s : string) : String.eqb (toLowerCase s) "" = String.eqb s "".
Proof. now destruct s. Qed.

(** X24.  [isIdentityQuestion] answers [true] for a string exactly when its
    lower-cased form contains one of the identity phrases; the answer does
    not depend on the case of the letters; and the function returns for
    every string. *)
Theorem isIdentityQuestion_characterized (s : string) :
  (isIdentityQuestion (JStr s) = Ok true
   <-> exists phrase pre suf,
         In phrase identityPhrases /\ toLowerCase s = pre ++ phrase ++ suf)
  /\ isIdentityQuestion (JStr (toLowerCase s)) = isIdentityQuestion (JStr s)
  /\ exists b, isIdentityQuestion (JStr s) = Ok b.
Proof.
  split; [|split].
  - unfold isIdentityQuestion. cbn [truthy]. split.
    + destruct (String.eqb s ""); cbn [negb]; [discriminate|].
      intros H.
      assert (Hex : existsb (includes (toLowerCase s)) identityPhrases = true)
        by congruence.
      apply existsb_exists in Hex as (phrase & Hin & Hinc).
      apply includes_split in Hinc as (pre & suf & Heq). now exists phrase, pre, suf.
    + intros (phrase & pre & suf & Hin & Heq).
      assert (Hne : String.eqb s "" = false).
      { destruct s; [|reflexivity]. cbn in Heq.
        destruct pre; [|discriminate Heq]. cbn in Heq.
        unfold identityPhrases in Hin. simpl in Hin.
        repeat (destruct Hin as [<-|Hin]; [discriminate Heq|]). destruct Hin. }
      rewrite Hne. cbn [negb]. f_equal.
      apply (existsb_In _ _ phrase Hin). rewrite Heq. apply includes_app.
  - unfold isIdentityQuestion. cbn [truthy].
    now rewrite toLowerCase_empty, toLowerCase_idempotent.
  - unfold isIdentityQuestion. cbn [truthy]. destruct (String.eqb s ""); cbn [negb]; eauto.
Qed.

(** ** The prompt builder *)

Example prompt_sample :
  exists prompt t',
    buildBasicPrompt (samplePlatform noDecoder) (fun _ => 0%float)
      (JStr "buy milk") JUndefined JUndefined JUndefined JUndefined tape0 = (Ok prompt, t')
    /\ clockReads t' = 2
    /\ String.length prompt = 2899.
Proof. eexists. eexists. split; [vm_compute; reflexivity|]. split; vm_compute; reflexivity. Qed.

Lemma slice5_idempotent {A} (xs : list A) : slice5 (slice5 xs) = slice5 xs.
Proof.
  unfold slice5. rewrite length_skipn.
  replace (length xs - (length xs - 5) - 5) with 0 by lia. reflexivity.
Qed.

Lemma slice5_empty {A} (xs : list A) :
  (length (slice5 xs) =? 0)%nat = (length xs =? 0)%nat.
Proof.
  unfold slice5. rewrite length_skipn. destruct xs as [|x xs]; [reflexivity|].
  cbn [length]. destruct (Nat.eqb_spec (S (length xs) - (S (length xs) - 5)) 0); [lia|].
  reflexivity.
Qed.

Lemma bind_ext {A B} (m : M A) (k1 k2 : A -> M B) (t : Tape) :
  (forall a t', k1 a t' = k2 a t') -> bind m k1 t = bind m k2 t.
Proof.
  intros Hk. unfold bind. destruct (m t) as [[a|e] t']; [apply Hk | reflexivity].
Qed.

(** X25.  The prompt depends on the last five messages of the history
    only: a history and its last five messages give the same result, text
    or error, from the same state. *)
Theorem prompt_uses_last_five_messages (P : Platform) (StringToNumber : string -> float)
  (chatInput contextItem currentDate tone : JSVal) (xs : list JSVal) (t : Tape) :
  buildBasicPrompt P StringToNumber chatInput (JArr xs) contextItem currentDate tone t
  = buildBasicPrompt P StringToNumber chatInput (JArr (slice5 xs)) contextItem currentDate
      tone t
  /\ length (slice5 xs) <= 5
  /\ exists older, xs = (older ++ slice5 xs)%list.
Proof.
  split; [|split].
  - unfold buildBasicPrompt.
    apply bind_ext; intros date t1. apply bind_ext; intros toneName t2.
    apply bind_ext; intros prompt t3.
    assert (Hsame : historySection P StringToNumber (JArr xs) prompt
                    = historySection P StringToNumber (JArr (slice5 xs)) prompt).
    { unfold historySection, lengthPositive. cbn [truthy].
      now rewrite slice5_idempotent, slice5_empty. }
    now rewrite Hsame.
  - unfold slice5. rewrite length_skipn. lia.
  - exists (firstn (length xs - 5) xs). unfold slice5. now rewrite firstn_skipn.
Qed.

Lemma append_assoc (a b c : string) : (a ++ b) ++ c = a ++ b ++ c.
Proof. induction a as [|x a IH]; [reflexivity|]. cbn [String.append]. now rewrite IH. Qed.

Lemma template_throws (P : Platform) (v : JSVal) (t t' : Tape) (e : JSError) :
  template P v t = (Throw e, t') -> isTypeError e /\ t' = t.
Proof.
  unfold template, ret, throw. destruct (ToString P v); [discriminate|].
  intros [= <- <-]. split; [now eexists | reflexivity].
Qed.

Lemma template_returns (P : Platform) (v : JSVal) (t t' : Tape) (s : string) :
  template P v t = (Ok s, t') -> ToString P v = Some s /\ t' = t.
Proof.
  unfold template, ret, throw. destruct (ToString P v); [|discriminate].
  now intros [= <- <-].
Qed.

Lemma readable_throws (v : JSVal) (k : string) (t t' : Tape) (e : JSError) :
  readable v k t = (Throw e, t') -> isTypeError e /\ t' = t.
Proof.
  destruct v; cbn [readable]; unfold ret, throw; try discriminate;
    intros [= <- <-]; (split; [now eexists | reflexivity]).
Qed.

Section PromptFacts.

Variable P : Platform.

Variable StringToNumber : string -> float.

Lemma historyLines_run (msgs : list JSVal) :
  forall prompt t,
    match historyLines P msgs prompt t with
    | (Ok r, t') => (exists more, r = prompt ++ more) /\ t' = t
    | (Throw e, t') => isTypeError e /\ t' = t
    end.
Proof.
  induction msgs as [|msg rest IH]; intros prompt t; cbn [historyLines].
  - unfold ret. split; [|reflexivity]. exists "". clear. induction prompt; cbn; congruence.
  - unfold bind at 1.
    destruct (readable msg "role" t) as [[[]|e] t1] eqn:Hread.
    2: { exact (readable_throws _ _ _ _ _ Hread). }
    assert (t1 = t) as -> by (destruct msg; cbn in Hread; unfold ret, throw in Hread; congruence).
    unfold bind at 1. destruct (template P (get msg "role") t) as [[role|e] t2] eqn:Hrole.
    2: { exact (template_throws _ _ _ _ _ Hrole). }
    apply template_returns in Hrole as [_ ->].
    unfold bind at 1. destruct (template P (get msg "content") t) as [[content|e] t3] eqn:Hc.
    2: { exact (template_throws _ _ _ _ _ Hc). }
    apply template_returns in Hc as [_ ->].
    specialize (IH (prompt ++ role ++ ": " ++ content ++ nl) t).
    destruct (historyLines P rest _ t) as [[r|e] t']; [|exact IH].
    destruct IH as [[more ->] ->]. split; [|reflexivity].
    exists (role ++ ": " ++ content ++ nl ++ more). now rewrite !append_assoc.
Qed.

Lemma contextSection_run (contextItem : JSVal) (prompt : string) (t : Tape) :
  match contextSection P contextItem prompt t with
  | (Ok r, t') => (exists more, r = prompt ++ more) /\ t' = t
  | (Throw e, t') => isTypeError e /\ t' = t
  end.
Proof.
  unfold contextSection. destruct (truthy contextItem).
  - unfold bind at 1.
    destruct (template P (get contextItem "type") t) as [[type|e] t1] eqn:Htype.
    2: { exact (template_throws _ _ _ _ _ Htype). }
    apply template_returns in Htype as [_ ->].
    unfold bind. destruct (template P (get contextItem "id") t) as [[id|e] t2] eqn:Hid.
    2: { exact (template_throws _ _ _ _ _ Hid). }
    apply template_returns in Hid as [_ ->]. unfold ret. split; [|reflexivity]. eauto.
  - unfold ret. split; [|reflexivity]. exists "". clear. induction prompt; cbn; congruence.
Qed.

Lemma greaterThanZero_run (v : JSVal) (t : Tape) :
  match greaterThanZero P StringToNumber v t with
  | (Ok _, t') => t' = t
  | (Throw e, t') => isTypeError e /\ t' = t
  end.
Proof.
  destruct v; cbn [greaterThanZero]; unfold ret; try reflexivity; unfold bind;
    (destruct (template P _ t) as [[s|e] t1] eqn:Hs;
     [now apply template_returns in Hs as [_ ->] | exact (template_throws _ _ _ _ _ Hs)]).
Qed.

Lemma historySection_run (chatHistory : JSVal) (prompt : string) (t : Tape) :
  match historySection P StringToNumber chatHistory prompt t with
  | (Ok r, t') => (exists more, r = prompt ++ more) /\ t' = t
  | (Throw e, t') => isTypeError e /\ t' = t
  end.
Proof.
  assert (Hkeep : (exists more, prompt = prompt ++ more) /\ t = t).
  { split; [|reflexivity]. exists "". clear. induction prompt; cbn; congruence. }
  unfold historySection. destruct (truthy chatHistory); [|exact Hkeep].
  unfold bind at 1.
  assert (Hlen : match lengthPositive P StringToNumber chatHistory t with
                 | (Ok _, t') => t' = t
                 | (Throw e, t') => isTypeError e /\ t' = t
                 end).
  { destruct chatHistory; cbn [lengthPositive]; unfold ret; try reflexivity.
    apply greaterThanZero_run. }
  destruct (lengthPositive P StringToNumber chatHistory t) as [[[|]|e] t1];
    [subst t1 | subst t1; exact Hkeep | exact Hlen].
  destruct chatHistory; unfold throw; try (split; [now eexists | reflexivity]).
  unfold bind.
  pose proof (historyLines_run (slice5 xs) (prompt ++ "Recent conversation:" ++ nl) t) as Hh.
  destruct (historyLines P (slice5 xs) _ t) as [[r|e] t']; [|exact Hh].
  destruct Hh as [[more ->] ->]. unfold ret. split; [|reflexivity].
  exists ("Recent conversation:" ++ nl ++ more ++ nl). now rewrite !append_assoc.
Qed.

(** The text built, and the errors the builder can throw. *)
Lemma buildBasicPrompt_run (chatInput chatHistory contextItem currentDate tone : JSVal)
  (t : Tape) :
  match buildBasicPrompt P StringToNumber chatInput chatHistory contextItem currentDate tone t
  with
  | (Ok prompt, t') =>
      exists date toneName middle input today toneText,
        prompt = openingText1 ++ date ++ openingText2 ++ toneName ++ openingText3 ++ middle
                 ++ requestText1 ++ input ++ requestText2 ++ today ++ requestText3
                 ++ toneText ++ requestText4
        /\ ToString P (tone ||| JStr "Neutral") = Some toneName
        /\ ToString P chatInput = Some input
        /\ ToString P tone = Some toneText
  | (Throw e, t') => isTypeError e
  end.
Proof.
  unfold buildBasicPrompt. unfold bind at 1.
  assert (Hdate : match (if truthy currentDate then template P currentDate else isoNow P) t
                  with
                  | (Ok _, _) => True
                  | (Throw e, _) => isTypeError e
                  end).
  { destruct (truthy currentDate); [|exact I].
    destruct (template P currentDate t) as [[d|e] t1] eqn:Hd; [exact I|].
    exact (proj1 (template_throws _ _ _ _ _ Hd)). }
  destruct ((if truthy currentDate then template P currentDate else isoNow P) t)
    as [[date|e] t1]; [clear Hdate | exact Hdate].
  unfold bind at 1.
  destruct (template P (tone ||| JStr "Neutral") t1) as [[toneName|e] t2] eqn:Hname.
  2: { exact (proj1 (template_throws _ _ _ _ _ Hname)). }
  apply template_returns in Hname as [Hname ->].
  unfold bind at 1.
  pose proof (contextSection_run contextItem
                (openingText1 ++ date ++ openingText2 ++ toneName ++ openingText3) t1) as Hctx.
  destruct (contextSection P contextItem _ t1) as [[prompt1|e] t2]; [|exact (proj1 Hctx)].
  destruct Hctx as [[more1 ->] ->].
  unfold bind at 1.
  pose proof (historySection_run chatHistory
                ((openingText1 ++ date ++ openingText2 ++ toneName ++ openingText3) ++ more1)
                t1) as Hhist.
  destruct (historySection P StringToNumber chatHistory _ t1) as [[prompt2|e] t2];
    [|exact (proj1 Hhist)].
  destruct Hhist as [[more2 ->] ->].
  unfold bind at 1.
  destruct (template P chatInput t1) as [[input|e] t2] eqn:Hinput.
  2: { exact (proj1 (template_throws _ _ _ _ _ Hinput)). }
  apply template_returns in Hinput as [Hinput ->].
  unfold bind at 1, isoNow at 1. unfold bind.
  destruct (template P tone (tick t1)) as [[toneText|e] t2] eqn:Htone.
  2: { exact (proj1 (template_throws _ _ _ _ _ Htone)). }
  apply template_returns in Htone as [Htone ->]. unfold ret.
  exists date, toneName, (more1 ++ more2), input, (Date_toISOString P (clockReads t1)),
    toneText.
  split; [now rewrite !append_assoc | auto].
Qed.

End PromptFacts.

Lemma includes_append_r (a b needle : string) :
  includes b needle = true -> includes (a ++ b) needle = true.
Proof.
  intros Hb. induction a as [|x a IH]; [exact Hb|].
  change (String x a ++ b) with (String x (a ++ b)). cbn [includes].
  rewrite IH. apply orb_true_r.
Qed.

Lemma prefix_append (a needle hay : string) :
  String.prefix needle hay = true -> String.prefix (a ++ needle) (a ++ hay) = true.
Proof.
  intros H. induction a as [|x a IH]; [exact H|].
  cbn [String.append String.prefix]. destruct (ascii_dec x x); [exact IH | contradiction].
Qed.

(** X26.  Every prompt the builder returns for a string [chatInput] starts
    with the introduction of Reva and contains the line
    [User's request: <chatInput>], the input being copied as it is.  When
    no tone is given, the instruction names the tone [Neutral] and the
    closing example the tone [undefined]. *)
Theorem prompt_embeds_request (P : Platform) (StringToNumber : string -> float)
  (s : string) (chatHistory contextItem currentDate tone : JSVal) (prompt : string)
  (t t' : Tape) :
  buildBasicPrompt P StringToNumber (JStr s) chatHistory contextItem currentDate tone t
  = (Ok prompt, t') ->
  String.prefix "You are Reva, a friendly and intelligent personal assistant." prompt = true
  /\ includes prompt ("User's request: " ++ s ++ nl) = true
  /\ (tone = JUndefined ->
      includes prompt "Speak in a 'Neutral' tone." = true
      /\ includes prompt (dq ++ "tone" ++ dq ++ ": " ++ dq ++ "undefined" ++ dq) = true).
Proof.
  intros Hrun.
  pose proof (buildBasicPrompt_run P StringToNumber (JStr s) chatHistory contextItem
                currentDate tone t) as Hshape.
  rewrite Hrun in Hshape.
  destruct Hshape as (date & toneName & middle & input & today & toneText & -> & Hname
                      & Hinput & Htone).
  cbn [ToString] in Hinput. injection Hinput as <-.
  split; [|split].
  - reflexivity.
  - do 6 apply includes_append_r. apply includes_prefix.
    apply (prefix_append "User's request: "). apply (prefix_append s).
    reflexivity.
  - intros ->. cbn in Hname, Htone. injection Hname as <-. injection Htone as <-. split.
    + do 2 apply includes_append_r. vm_compute. reflexivity.
    + do 10 apply includes_append_r. vm_compute. reflexivity.
Qed.

Lemma prompt_embeds_request_witness :
  exists prompt t',
    buildBasicPrompt (samplePlatform noDecoder) (fun _ => 0%float)
      (JStr "buy milk") JUndefined JUndefined JUndefined JUndefined tape0 = (Ok prompt, t')
    /\ includes prompt ("User's request: buy milk" ++ nl) = true.
Proof.
  destruct (buildBasicPrompt (samplePlatform noDecoder) (fun _ => 0%float)
              (JStr "buy milk") JUndefined JUndefined JUndefined JUndefined tape0)
    as [[prompt|e] t'] eqn:Hrun; [|vm_compute in Hrun; discriminate Hrun].
  exists prompt, t'. split; [reflexivity|].
  now destruct (prompt_embeds_request _ _ _ _ _ _ _ _ _ _ Hrun) as (_ & Hreq & _).
Defined.

Lemma upstreamFailure_typeError (P : Platform) (msg : string) (t : Tape) :
  exists reply,
    upstreamFailure P (typeError msg) t = (Ok (Json 500 reply), tick t)
    /\ get reply "error" = JStr "AI API error"
    /\ get reply "aiResponseText"
       = JStr "Sorry, I encountered an error processing your request. Please try again."
    /\ get (get reply "errorDetails") "retryable" = JBool true
    /\ get (get reply "errorDetails") "errorCode" = JStr "UNKNOWN_ERROR".
Proof.
  unfold upstreamFailure. rewrite !errProp_typeError.
  cbn [get numIs numGe numLt strictEqStr andb orb].
  unfold bind, isoNow, ret. eexists. split; [reflexivity|].
  repeat split; now read_fields.
Qed.

(** X27.  An error thrown by the prompt builder is caught by the handler as
    a failure of the completion endpoint would be: the reply has the
    status 500, the [error] [AI API error], the apology as
    [aiResponseText], the code [UNKNOWN_ERROR] and the flag [retryable]
    set. *)
Theorem prompt_failure_reported_as_api_error (P : Platform)
  (StringToNumber : string -> float) (body : JSVal) (s : string) (e : JSError)
  (t t1 : Tape) :
  get body "chatInput" = JStr s ->
  s <> "" ->
  existsb (includes (toLowerCase s)) identityPhrases = false ->
  truthy (get body "masterPrompt") = false ->
  buildBasicPrompt P StringToNumber (JStr s) (get body "chatHistory")
    (get body "contextItem") (get body "currentDate") (get body "tone") t = (Throw e, t1) ->
  exists reply,
    chatHandler P (buildBasicPrompt P StringToNumber) body t
    = Answer (Json 500 reply) (tick t1)
    /\ get reply "error" = JStr "AI API error"
    /\ get reply "aiResponseText"
       = JStr "Sorry, I encountered an error processing your request. Please try again."
    /\ get (get reply "errorDetails") "retryable" = JBool true
    /\ get (get reply "errorDetails") "errorCode" = JStr "UNKNOWN_ERROR".
Proof.
  intros Hinput Hne Hidentity Hmaster Hbuild.
  pose proof (buildBasicPrompt_run P StringToNumber (JStr s) (get body "chatHistory")
                (get body "contextItem") (get body "currentDate") (get body "tone") t)
    as Hshape.
  rewrite Hbuild in Hshape. destruct Hshape as [msg ->].
  destruct (upstreamFailure_typeError P msg t1) as (reply & Hreply & Hfields).
  exists reply. split; [|exact Hfields].
  unfold chatHandler, isIdentityQuestion. rewrite Hinput.
  rewrite (nonempty_string_truthy s Hne). cbn [negb]. rewrite Hidentity, Hmaster.
  unfold bind. rewrite Hbuild. unfold runReply. now rewrite Hreply.
Qed.

Lemma prompt_failure_reported_as_api_error_witness :
  exists reply t',
    chatHandler (samplePlatform noDecoder)
      (buildBasicPrompt (samplePlatform noDecoder) (fun _ => 0%float)) brokenHistoryBody tape0
    = Answer (Json 500 reply) t'
    /\ get reply "error" = JStr "AI API error".
Proof.
  destruct (buildBasicPrompt (samplePlatform noDecoder) (fun _ => 0%float) (JStr "hello")
              (get brokenHistoryBody "chatHistory") (get brokenHistoryBody "contextItem")
              (get brokenHistoryBody "currentDate") (get brokenHistoryBody "tone") tape0)
    as [[prompt|e] t1] eqn:Hbuild; [vm_compute in Hbuild; discriminate Hbuild|].
  destruct (prompt_failure_reported_as_api_error (samplePlatform noDecoder)
              (fun _ => 0%float) brokenHistoryBody "hello" e tape0 t1)
    as (reply & Hrun & Herror & _).
  - reflexivity.
  - discriminate.
  - reflexivity.
  - reflexivity.
  - exact Hbuild.
  - now exists reply, (tick t1).
Defined.
